(** * The training scheduler of [train.py]

    A shallow embedding of [train.py]: the function [training], the
    iteration loop that interleaves rendering, the loss, the backward pass,
    the gradient statistics, densification and pruning, the rebuilding of the
    nearest-neighbour graph, the opacity reset, the optimizer step and
    checkpointing; the functions [prepare_output_and_logger] and
    [training_report] that it calls; [init_wandb] and the main block.

    The calls made to code living outside [train.py] (renderer, Gaussian
    model, optimizer, scene, torch, wandb, tensorboard, os) are recorded as
    events of a trace, in program order.  A call of [training] to a function
    of [train.py] is one event that holds the calls this function made.
    What an external call returns is read from a [World], indexed by the
    iteration that makes the call.  The variables of the loop itself
    ([KNN_index], [viewpoint_stack], [pipe.debug], [cum_deleted],
    [cum_created]) are threaded as explicit state, and the Python exceptions
    the code can raise by itself are results of the run. *)

From Stdlib Require Import ZArith List Bool Ascii String Lia DecimalString DecimalZ
  DecimalPos Permutation.
Import ListNotations.
Local Open Scope Z_scope.

(** ** Python strings *)

(** A Python [str] is a sequence of characters, here the list of their code
    points: [len], slices and [+] count and move characters, not the bytes
    of an encoding. *)
Definition pystr : Type := list N.

(** A string literal of the source; all of them are ASCII. *)
Definition py (s : string) : pystr :=
  map N_of_ascii (list_ascii_of_string s).

(** The character [/]. *)
Definition slash : N := N_of_ascii "/".

(** ** Configuration objects *)

(** [dataset]: the fields of [ModelParams] read by [training]. *)
Record ModelParams : Type := {
  sh_degree : Z;
  white_background : bool;
  model_path : pystr
}.

(** [opt]: the fields of [OptimizationParams] that steer the loop.  The
    floating-point weights ([lambda_dssim], [densify_grad_threshold]) only
    flow into external calls and are left out. *)
Record OptimizationParams : Type := {
  iterations : Z;
  densify_from_iter : Z;
  densify_until_iter : Z;
  densification_interval : Z;
  opacity_reset_interval : Z;
  random_background : bool
}.

(** [pipe]: only the [debug] attribute is touched. *)
Record PipelineParams : Type := {
  debug : bool
}.

(** The background handed to [render]: [bg_color] is white or black, and
    [opt.random_background] replaces it by a random colour. *)
Inductive background : Type :=
| Black
| White
| RandomColor.

(** Exceptions raised by the code's own expressions: [%] and [/] by zero,
    [randint] on an empty range, an index out of range. *)
Inductive exn : Type :=
| ZeroDivisionError
| ValueError
| IndexError.

Inductive outcome (A : Type) : Type :=
| Returned (a : A)
| Raised (e : exn).
Arguments Returned {A} a.
Arguments Raised {A} e.

(** Python's [str] on an integer, and the path of a checkpoint file:
    [scene.model_path + "/chkpnt" + str(iteration) + ".pth"] (line 191),
    given [scene.model_path]. *)
Definition str (z : Z) : pystr := py (NilZero.string_of_int (Z.to_int z)).

Definition chkpnt_path (scene_model_path : pystr) (iteration : Z) : pystr :=
  scene_model_path ++ py "/chkpnt" ++ str iteration ++ py ".pth".

(** [range(a, b)]. *)
Definition py_range (a b : Z) : list Z :=
  map (fun k => a + Z.of_nat k) (seq 0 (Z.to_nat (b - a))).

(** [x in l] on a list of integers. *)
Definition py_in (x : Z) (l : list Z) : bool := existsb (Z.eqb x) l.

(** [l.pop(k)]: the list without its [k]-th element. *)
Definition remove_nth {A : Type} (k : nat) (l : list A) : list A :=
  firstn k l ++ skipn (S k) l.

(** ** [prepare_output_and_logger] (lines 193-213) *)

(** [s.startswith("/")] and [s.endswith("/")]. *)
Definition starts_with_slash (s : pystr) : bool :=
  match s with
  | c :: _ => (c =? slash)%N
  | [] => false
  end.

Fixpoint ends_with_slash (s : pystr) : bool :=
  match s with
  | [] => false
  | [c] => (c =? slash)%N
  | _ :: s' => ends_with_slash s'
  end.

(** [os.path.join(a, b)] of [posixpath]: an absolute [b] replaces [a], and a
    separator is added unless [a] is empty or ends with one. *)
Definition os_path_join (a b : pystr) : pystr :=
  if starts_with_slash b then b
  else if (match a with [] => true | _ => false end) || ends_with_slash a
       then a ++ b
       else a ++ py "/" ++ b.

(** What the function reads from outside: the environment variable, the
    string of a fresh [uuid.uuid4()], the flag set when tensorboard
    imports. *)
Record OutputEnv : Type := {
  OAR_JOB_ID : option pystr;
  uuid4 : pystr;
  TENSORBOARD_FOUND : bool
}.

Inductive output_event : Type :=
| Print (text : pystr)
| MakeDirs (path : pystr)
| WriteCfgArgs (path : pystr)
| NewSummaryWriter (path : pystr).

(** lines 195-198: the job id when the variable is set and not empty, the
    uuid otherwise *)
Definition unique_str (env : OutputEnv) : pystr :=
  match OAR_JOB_ID env with
  | Some [] => uuid4 env
  | Some job => job
  | None => uuid4 env
  end.

(** lines 194-199: [args.model_path] after the first statement;
    [unique_str[0:10]] is the first ten characters of the string *)
Definition output_path (env : OutputEnv) (path : pystr) : pystr :=
  match path with
  | [] => os_path_join (py "./output/") (firstn 10 (unique_str env))
  | _ => path
  end.

(** The whole function: the new [args.model_path], the calls made, and the
    writer returned ([None], or the writer of a folder).  What is written
    to [cfg_args] is left out. *)
Definition prepare_output_and_logger (env : OutputEnv) (path : pystr)
  : pystr * list output_event * option pystr :=
  let path' := output_path env path in
  let setup :=
    [Print (py "Output folder: " ++ path');
     MakeDirs path';
     WriteCfgArgs (os_path_join path' (py "cfg_args"))] in
  if TENSORBOARD_FOUND env
  then (path', setup ++ [NewSummaryWriter path'], Some path')
  else (path',
        setup ++ [Print (py "Tensorboard not available: not logging progress")],
        None).

(** ** [training_report] (lines 215-280) *)

(** [range(0, stop, 5)] *)
Definition range_by_five (stop : nat) : list nat :=
  map (fun k => (5 * k)%nat) (seq 0 ((stop + 4) / 5)).

Section Report.

Context {Camera : Type}.

(** The scene as the report sees it, and the telemetry it may use. *)
Record ReportEnv : Type := {
  getTestCameras : list Camera;
  report_train_cameras : list Camera;
  image_name : Camera -> pystr;
  report_wandb : bool
}.

Inductive report_event : Type :=
| AddScalar (tag : pystr) (step : Z)
| ReportWandbLog (keys : list pystr) (step : Z)
| EmptyCache
| EvalRender (config : pystr) (cam : Camera)
| AddImages (tag : pystr) (step : Z)
| PrintEvaluating (step : Z) (config : pystr)
| AddHistogram (tag : pystr) (step : Z).

(** Trace and exceptions; the report keeps no state of its own. *)
Definition R (A : Type) : Type := list report_event * outcome A.

Definition r_ret {A : Type} (a : A) : R A := ([], Returned a).

Definition r_bind {A B : Type} (m : R A) (f : A -> R B) : R B :=
  match m with
  | (t1, Returned a) => let '(t2, r) := f a in (t1 ++ t2, r)
  | (t1, Raised e) => (t1, Raised e)
  end.

Definition r_emit (e : report_event) : R unit := ([e], Returned tt).

Definition r_raise {A : Type} (e : exn) : R A := ([], Raised e).

Definition r_when (b : bool) (m : R unit) : R unit :=
  if b then m else r_ret tt.

(** [l[idx]] *)
Definition r_index {A : Type} (l : list A) (idx : nat) : R A :=
  match nth_error l idx with
  | Some x => r_ret x
  | None => r_raise IndexError
  end.

(** [x /= n]: the quotient is floating point and left out, the divisor is
    kept. *)
Definition r_divide_by (n : nat) : R unit :=
  match n with
  | O => r_raise ZeroDivisionError
  | S _ => r_ret tt
  end.

Fixpoint r_for {A : Type} (l : list A) (body : A -> R unit) : R unit :=
  match l with
  | [] => r_ret tt
  | x :: rest => r_bind (body x) (fun _ => r_for rest body)
  end.

(** [enumerate(l)] *)
Definition enumerate {A : Type} (l : list A) : list (nat * A) :=
  combine (seq 0 (List.length l)) l.

(** [[cams[idx] for idx in idxs]] *)
Fixpoint r_collect (cams : list Camera) (idxs : list nat) : R (list Camera) :=
  match idxs with
  | [] => r_ret []
  | idx :: rest =>
      r_bind (r_index cams idx) (fun cam =>
      r_bind (r_collect cams rest) (fun l => r_ret (cam :: l)))
  end.

(** line 232: [[cams[idx] for idx in range(0, len(cams), 5)]] *)
Definition every_fifth (cams : list Camera) : R (list Camera) :=
  r_collect cams (range_by_five (List.length cams)).

Section TrainingReport.

Variable env : ReportEnv.
(** [tb_writer] is a writer, or [None] *)
Variable tb_writer : bool.
Variable iteration : Z.
Variable testing_iterations : list Z.

(** lines 242-251: one view of a configuration *)
Definition evaluate_view (name : pystr) (view : nat * Camera) : R unit :=
  let '(idx, viewpoint) := view in
  r_bind (r_emit (EvalRender name viewpoint)) (fun _ =>
  if tb_writer && (idx <? 5)%nat then
    r_bind (r_emit (AddImages
                      (name ++ py "_view_" ++ image_name env viewpoint
                         ++ py "/render")
                      iteration)) (fun _ =>
    r_bind (r_index testing_iterations 0) (fun first =>
    r_when (iteration =? first)
      (r_emit (AddImages
                 (name ++ py "_view_" ++ image_name env viewpoint
                    ++ py "/ground_truth")
                 iteration))))
  else r_ret tt).

(** lines 235-275: one configuration *)
Definition evaluate_config (name : pystr) (cameras : list Camera) : R unit :=
  match cameras with
  | [] => r_ret tt
  | _ :: _ =>
      r_bind (r_for (enumerate cameras) (evaluate_view name)) (fun _ =>
      r_bind (r_divide_by (List.length cameras)) (fun _ =>
      r_bind (r_divide_by (List.length cameras)) (fun _ =>
      r_bind (r_divide_by (List.length cameras)) (fun _ =>
      r_bind (r_emit (PrintEvaluating iteration name)) (fun _ =>
      r_bind (r_when tb_writer
                (r_bind (r_emit (AddScalar
                                   (name ++ py "/loss_viewpoint - l1_loss")
                                   iteration)) (fun _ =>
                 r_bind (r_emit (AddScalar
                                   (name ++ py "/loss_viewpoint - psnr")
                                   iteration)) (fun _ =>
                 r_emit (AddScalar
                           (name ++ py "/loss_viewpoint - ssim")
                           iteration))))) (fun _ =>
      r_when (report_wandb env)
        (r_emit (ReportWandbLog
                   [name ++ py "/psnr"; name ++ py "/ssim"]
                   iteration))))))))
  end.

(** lines 215-280 *)
Definition training_report : R unit :=
  r_bind (r_when tb_writer
            (r_bind (r_emit (AddScalar (py "train_loss_patches/l1_loss")
                               iteration))
               (fun _ =>
             r_bind (r_emit (AddScalar (py "train_loss_patches/total_loss")
                               iteration))
               (fun _ =>
             r_emit (AddScalar (py "iter_time") iteration))))) (fun _ =>
  r_bind (r_when (report_wandb env)
            (r_emit (ReportWandbLog [py "n_gaussians"] iteration))) (fun _ =>
  if py_in iteration testing_iterations then
    r_bind (r_emit EmptyCache) (fun _ =>
    r_bind (every_fifth (report_train_cameras env)) (fun fifth =>
    r_bind (evaluate_config (py "test_full") (getTestCameras env)) (fun _ =>
    r_bind (evaluate_config (py "train_every_5th") fifth) (fun _ =>
    r_bind (r_when tb_writer
              (r_bind (r_emit (AddHistogram (py "scene/opacity_histogram")
                                 iteration))
                 (fun _ =>
               r_emit (AddScalar (py "total_points") iteration)))) (fun _ =>
    r_emit EmptyCache)))))
  else r_ret tt)).

(** The calls for one view and for one configuration, when nothing
    raises. *)
Definition view_events (name : pystr) (view : nat * Camera)
  : list report_event :=
  EvalRender name (snd view)
  :: (if tb_writer && (fst view <? 5)%nat
      then AddImages
             (name ++ py "_view_" ++ image_name env (snd view)
                ++ py "/render")
             iteration
           :: (if iteration =? hd 0 testing_iterations
               then [AddImages
                       (name ++ py "_view_" ++ image_name env (snd view)
                          ++ py "/ground_truth")
                       iteration]
               else [])
      else []).

Definition config_events (name : pystr) (cameras : list Camera)
  : list report_event :=
  match cameras with
  | [] => []
  | _ :: _ =>
      flat_map (view_events name) (enumerate cameras)
      ++ PrintEvaluating iteration name
      :: (if tb_writer
          then [AddScalar (name ++ py "/loss_viewpoint - l1_loss") iteration;
                AddScalar (name ++ py "/loss_viewpoint - psnr") iteration;
                AddScalar (name ++ py "/loss_viewpoint - ssim") iteration]
          else [])
      ++ (if report_wandb env
          then [ReportWandbLog [name ++ py "/psnr"; name ++ py "/ssim"]
                  iteration]
          else [])
  end.

End TrainingReport.

(** The cameras that [renderFunc] is called on, in order. *)
Definition evaluated_cameras (t : list report_event) : list Camera :=
  flat_map (fun e => match e with EvalRender _ cam => [cam] | _ => [] end) t.

Definition is_add_images (e : report_event) : bool :=
  match e with
  | AddImages _ _ => true
  | _ => false
  end.

(** The [wandb.log] calls of the report (lines 222 and 271). *)
Definition is_report_wandb_log (e : report_event) : bool :=
  match e with
  | ReportWandbLog _ _ => true
  | _ => false
  end.

End Report.

Section Model.

Context {Camera Snapshot Graph : Type}.

(** ** Events: the calls of [training], in program order *)
Inductive event : Type :=
| PrepareOutputAndLogger (calls : list output_event)
| NewGaussianModel (degree : Z)
| NewScene (sparse_num : Z)
| TrainingSetup
| TorchLoad (path : pystr)
| Restore (model_params : Snapshot)
| UpdateLearningRate (iteration : Z)
| OneupSHdegree (iteration : Z)
| Render (iteration : Z) (cam : Camera) (dbg : bool) (bg : background)
| SurfaceAlign (iteration : Z) (knn : Graph)
| Backward (iteration : Z)
| ProgressUpdate (iteration : Z)
| ProgressClose (iteration : Z)
| TrainingReport (iteration : Z) (calls : list (@report_event Camera))
| SceneSave (iteration : Z)
| WandbLogMetrics (iteration : Z)
| MaxRadiiUpdate (iteration : Z)
| AddDensificationStats (iteration : Z)
| DensifyAndPrune (iteration : Z) (size_threshold : option Z) (num_max : option Z)
| FindKNN (iteration : Z)
| ResetOpacity (iteration : Z)
| WandbLogCum (iteration : Z) (deleted created : Z)
| OptimizerStep (iteration : Z)
| ZeroGrad (iteration : Z)
| TorchSave (snapshot : Snapshot) (iteration : Z) (path : pystr).

(** ** The world outside [train.py] *)
Record World : Type := {
  (** [scene.getTrainCameras()] *)
  getTrainCameras : list Camera;
  (** the random number drawn by [randint] at an iteration *)
  random_draw : Z -> Z;
  (** [visibility_filter.sum()] of the render of an iteration *)
  visibility_sum : Z -> Z;
  (** the tensor returned by [gaussians.findKNN()] at an iteration *)
  findKNN : Z -> Graph;
  (** [(n_created, n_deleted)] returned by [gaussians.densify_and_prune] *)
  densify_and_prune : Z -> Z * Z;
  (** [gaussians.capture()] at an iteration *)
  capture : Z -> Snapshot;
  (** [torch.load(path)] *)
  torch_load : pystr -> Snapshot * Z;
  (** the module-level flag set when [wandb] imports *)
  WANDB_FOUND : bool;
  (** what [prepare_output_and_logger] reads from outside *)
  output_env : OutputEnv;
  (** [scene.getTestCameras()] *)
  scene_test_cameras : list Camera;
  (** [viewpoint.image_name] *)
  camera_image_name : Camera -> pystr
}.

(** The scene and the telemetry flag as [training_report] finds them: the
    scene of [training], the flag of the module. *)
Definition report_env (w : World) : @ReportEnv Camera :=
  {| getTestCameras := scene_test_cameras w;
     report_train_cameras := getTrainCameras w;
     image_name := camera_image_name w;
     report_wandb := WANDB_FOUND w |}.

(** ** The variables of the loop *)
Record loop_state : Type := {
  KNN_index : option Graph;
  (** [None] and the empty list are both falsy, and are not told apart *)
  viewpoint_stack : list Camera;
  pipe_debug : bool;
  cum_deleted : Z;
  cum_created : Z
}.

Definition set_KNN_index (g : Graph) (s : loop_state) : loop_state :=
  {| KNN_index := Some g;
     viewpoint_stack := viewpoint_stack s;
     pipe_debug := pipe_debug s;
     cum_deleted := cum_deleted s;
     cum_created := cum_created s |}.

Definition set_viewpoint_stack (l : list Camera) (s : loop_state) : loop_state :=
  {| KNN_index := KNN_index s;
     viewpoint_stack := l;
     pipe_debug := pipe_debug s;
     cum_deleted := cum_deleted s;
     cum_created := cum_created s |}.

Definition set_pipe_debug (b : bool) (s : loop_state) : loop_state :=
  {| KNN_index := KNN_index s;
     viewpoint_stack := viewpoint_stack s;
     pipe_debug := b;
     cum_deleted := cum_deleted s;
     cum_created := cum_created s |}.

Definition set_cum (deleted created : Z) (s : loop_state) : loop_state :=
  {| KNN_index := KNN_index s;
     viewpoint_stack := viewpoint_stack s;
     pipe_debug := pipe_debug s;
     cum_deleted := deleted;
     cum_created := created |}.

(** ** A monad for the loop body: state, trace, exceptions *)
Definition M (A : Type) : Type :=
  loop_state -> list event * outcome (A * loop_state).

Definition ret {A : Type} (a : A) : M A :=
  fun s => ([], Returned (a, s)).

Definition bind {A B : Type} (m : M A) (f : A -> M B) : M B :=
  fun s =>
    match m s with
    | (t1, Returned (a, s1)) => let '(t2, r) := f a s1 in (t1 ++ t2, r)
    | (t1, Raised e) => (t1, Raised e)
    end.

Definition emit (e : event) : M unit :=
  fun s => ([e], Returned (tt, s)).

Definition raise {A : Type} (e : exn) : M A :=
  fun _ => ([], Raised e).

Definition get : M loop_state :=
  fun s => ([], Returned (s, s)).

Definition modify (f : loop_state -> loop_state) : M unit :=
  fun s => ([], Returned (tt, f s)).

Definition when (b : bool) (m : M unit) : M unit :=
  if b then m else ret tt.

Declare Scope train_scope.
Delimit Scope train_scope with train.
Notation "x <- m ;; k" := (bind m (fun x => k))
  (at level 61, m at next level, right associativity) : train_scope.
Notation "m ;; k" := (bind m (fun _ => k))
  (at level 61, right associativity) : train_scope.
Local Open Scope train_scope.

(** [a % b] *)
Definition py_mod (a b : Z) : M Z :=
  if b =? 0 then raise ZeroDivisionError else ret (a mod b).

(** [randint(lo, hi)]: some integer of [lo..hi], picked by the draw. *)
Definition py_randint (draw lo hi : Z) : M Z :=
  if hi <? lo then raise ValueError else ret (lo + draw mod (hi - lo + 1)).

(** [for iteration in its: body(iteration)] *)
Fixpoint for_each (its : list Z) (body : Z -> M unit) : M unit :=
  match its with
  | [] => ret tt
  | iteration :: rest => body iteration ;; for_each rest body
  end.

Section Training.

Variable w : World.
Variable dataset : ModelParams.
Variable opt : OptimizationParams.
Variable pipe : PipelineParams.
Variables testing_iterations saving_iterations checkpoint_iterations : list Z.
Variable checkpoint : option pystr.
Variable debug_from : Z.
Variable sparse_num : Z.
Variable num_max : option Z.

(** line 44: [prepare_output_and_logger(dataset)] gives [tb_writer] and
    leaves its path in [dataset.model_path]; the scene built at line 46
    keeps that path as [scene.model_path]. *)
Definition scene_model_path : pystr :=
  fst (fst (prepare_output_and_logger (output_env w) (model_path dataset))).

Definition tb_writer : bool :=
  match snd (prepare_output_and_logger (output_env w) (model_path dataset)) with
  | Some _ => true
  | None => false
  end.

(** lines 72-76: learning rate, and one more SH degree every 1000 *)
Definition schedule (iteration : Z) : M unit :=
  emit (UpdateLearningRate iteration) ;;
  when (iteration mod 1000 =? 0) (emit (OneupSHdegree iteration)).

(** lines 79-81: refill the stack when it is falsy, pop a random camera *)
Definition pick_camera (iteration : Z) : M Camera :=
  s <- get ;;
  let stack :=
    match viewpoint_stack s with
    | [] => getTrainCameras w
    | _ :: _ => viewpoint_stack s
    end in
  k <- py_randint (random_draw w iteration) 0 (Z.of_nat (List.length stack) - 1) ;;
  match nth_error stack (Z.to_nat k) with
  | Some cam =>
      modify (set_viewpoint_stack (remove_nth (Z.to_nat k) stack)) ;;
      ret cam
  | None => raise IndexError
  end.

(** line 52 *)
Definition bg_color : background :=
  if white_background dataset then White else Black.

(** lines 85-90 *)
Definition render_view (iteration : Z) (cam : Camera) : M unit :=
  when (iteration - 1 =? debug_from) (modify (set_pipe_debug true)) ;;
  s <- get ;;
  let bg := if random_background opt then RandomColor else bg_color in
  emit (Render iteration cam (pipe_debug s) bg).

(** lines 108-127: the geometric term, computed from [KNN_index[mask]]
    and added to the loss *)
Definition geo_loss (iteration : Z) : M unit :=
  s <- get ;;
  match KNN_index s with
  | Some knn =>
      when (0 <? visibility_sum w iteration) (emit (SurfaceAlign iteration knn))
  | None => ret tt
  end.

(** line 146: the call of [training_report].  The calls it makes are kept
    with its event, and an exception of it is one of the loop. *)
Definition report_calls (iteration : Z) : list report_event :=
  fst (training_report (report_env w) tb_writer iteration testing_iterations).

Definition report (iteration : Z) : M unit :=
  emit (TrainingReport iteration (report_calls iteration)) ;;
  match snd (training_report (report_env w) tb_writer iteration
               testing_iterations) with
  | Returned _ => ret tt
  | Raised e => raise e
  end.

(** lines 137-156: progress bar, report, saving, telemetry.  The moving
    average of the loss is floating point and steers nothing. *)
Definition log_and_save (iteration : Z) : M unit :=
  when (iteration mod 10 =? 0) (emit (ProgressUpdate iteration)) ;;
  when (iteration =? iterations opt) (emit (ProgressClose iteration)) ;;
  report iteration ;;
  when (py_in iteration saving_iterations) (emit (SceneSave iteration)) ;;
  when (WANDB_FOUND w) (emit (WandbLogMetrics iteration)).

(** line 167 and line 174: [KNN_index = gaussians.findKNN()] *)
Definition rebuild_graph (iteration : Z) : M unit :=
  emit (FindKNN iteration) ;;
  modify (set_KNN_index (findKNN w iteration)).

(** lines 164-167; gives [(n_created, n_deleted)] *)
Definition densify (iteration : Z) : M (Z * Z) :=
  go <- (if densify_from_iter opt <? iteration
         then r <- py_mod iteration (densification_interval opt) ;; ret (r =? 0)
         else ret false) ;;
  if go : bool then
    let size_threshold :=
      if opacity_reset_interval opt <? iteration then Some 20 else None in
    emit (DensifyAndPrune iteration size_threshold num_max) ;;
    rebuild_graph iteration ;;
    ret (densify_and_prune w iteration)
  else ret (0, 0).

(** lines 170-171 *)
Definition opacity_reset (iteration : Z) : M unit :=
  r <- py_mod iteration (opacity_reset_interval opt) ;;
  when ((r =? 0)
        || (white_background dataset && (iteration =? densify_from_iter opt)))
       (emit (ResetOpacity iteration)).

(** lines 159-174; gives [(n_created, n_deleted)], [(0, 0)] by line 133 *)
Definition densification (iteration : Z) : M (Z * Z) :=
  if iteration <? densify_until_iter opt then
    emit (MaxRadiiUpdate iteration) ;;
    emit (AddDensificationStats iteration) ;;
    counts <- densify iteration ;;
    opacity_reset iteration ;;
    ret counts
  else if densify_until_iter opt <? iteration then
    when (iteration mod 3000 =? 0) (rebuild_graph iteration) ;;
    ret (0, 0)
  else ret (0, 0).

(** lines 176-182 *)
Definition log_cumulative (iteration : Z) (counts : Z * Z) : M unit :=
  when (WANDB_FOUND w)
    (s <- get ;;
     let deleted := cum_deleted s + snd counts in
     let created := cum_created s + fst counts in
     modify (set_cum deleted created) ;;
     emit (WandbLogCum iteration deleted created)).

(** lines 185-187 *)
Definition optimizer_step (iteration : Z) : M unit :=
  when (iteration <? iterations opt)
    (emit (OptimizerStep iteration) ;; emit (ZeroGrad iteration)).

(** lines 189-191 *)
Definition save_checkpoint (iteration : Z) : M unit :=
  when (py_in iteration checkpoint_iterations)
    (emit (TorchSave (capture w iteration) iteration
             (chkpnt_path scene_model_path iteration))).

(** lines 68-191: one pass of the loop *)
Definition iteration_body (iteration : Z) : M unit :=
  schedule iteration ;;
  cam <- pick_camera iteration ;;
  render_view iteration cam ;;
  geo_loss iteration ;;
  emit (Backward iteration) ;;
  log_and_save iteration ;;
  counts <- densification iteration ;;
  log_cumulative iteration counts ;;
  optimizer_step iteration ;;
  save_checkpoint iteration.

(** [if checkpoint:] a path that is neither [None] nor empty *)
Definition start_checkpoint : option pystr :=
  match checkpoint with
  | Some [] => None
  | Some p => Some p
  | None => None
  end.

(** [first_iter] when the loop is reached (lines 43, 49) *)
Definition first_iter : Z :=
  match start_checkpoint with
  | Some p => snd (torch_load w p)
  | None => 0
  end.

(** lines 44-50 *)
Definition setup_events : list event :=
  [PrepareOutputAndLogger
     (snd (fst (prepare_output_and_logger (output_env w)
                  (model_path dataset))));
   NewGaussianModel (sh_degree dataset); NewScene sparse_num; TrainingSetup]
  ++ match start_checkpoint with
     | Some p => [TorchLoad p; Restore (fst (torch_load w p))]
     | None => []
     end.

(** lines 59-66 *)
Definition initial_state : loop_state :=
  {| KNN_index := None;
     viewpoint_stack := [];
     pipe_debug := debug pipe;
     cum_deleted := 0;
     cum_created := 0 |}.

(** The iterations of the loop: [range(first_iter + 1, opt.iterations + 1)]. *)
Definition loop_iterations : list Z :=
  py_range (first_iter + 1) (iterations opt + 1).

(** [training]: the trace of external calls, and how the call ends. *)
Definition training : list event * outcome unit :=
  let '(t, r) := for_each loop_iterations iteration_body initial_state in
  (setup_events ++ t,
   match r with
   | Returned _ => Returned tt
   | Raised e => Raised e
   end).

Definition trace : list event := fst training.

End Training.

End Model.

(** ** Observing a trace *)

Section Observers.

Context {Camera Snapshot Graph : Type}.
Local Abbreviation event := (@event Camera Snapshot Graph).
Local Abbreviation World := (@World Camera Snapshot Graph).

(** The iteration an event belongs to; the calls made before the loop
    belong to none. *)
Definition event_iteration (e : event) : option Z :=
  match e with
  | PrepareOutputAndLogger _ | NewGaussianModel _ | NewScene _
  | TrainingSetup | TorchLoad _ | Restore _ => None
  | UpdateLearningRate i | OneupSHdegree i | Render i _ _ _
  | SurfaceAlign i _ | Backward i | ProgressUpdate i | ProgressClose i
  | TrainingReport i _ | SceneSave i | WandbLogMetrics i
  | MaxRadiiUpdate i | AddDensificationStats i | DensifyAndPrune i _ _
  | FindKNN i | ResetOpacity i | WandbLogCum i _ _ | OptimizerStep i
  | ZeroGrad i | TorchSave _ i _ => Some i
  end.

Definition at_iteration (i : Z) (e : event) : bool :=
  match event_iteration e with
  | Some j => j =? i
  | None => false
  end.

(** The part of a trace that iteration [i] produced. *)
Definition events_at (i : Z) (t : list event) : list event :=
  filter (at_iteration i) t.

Definition is_stats_update (e : event) : bool :=
  match e with
  | MaxRadiiUpdate _ | AddDensificationStats _ => true
  | _ => false
  end.

Definition is_densify_and_prune (e : event) : bool :=
  match e with
  | DensifyAndPrune _ _ _ => true
  | _ => false
  end.

(** The calls that change the population or its opacities. *)
Definition is_mutation (e : event) : bool :=
  match e with
  | DensifyAndPrune _ _ _ | ResetOpacity _ => true
  | _ => false
  end.

Definition is_optimizer_call (e : event) : bool :=
  match e with
  | OptimizerStep _ | ZeroGrad _ => true
  | _ => false
  end.

(** The iterations a trace went through: each pass of the loop starts by
    [update_learning_rate(iteration)]. *)
Definition executed_iterations (t : list event) : list Z :=
  flat_map (fun e => match e with UpdateLearningRate i => [i] | _ => [] end) t.

(** Where the neighbour graph stands after a trace: never built, built at
    iteration [j] with no [densify_and_prune] since, or overtaken by a
    [densify_and_prune]. *)
Inductive graph_status : Type :=
| NoGraph
| Fresh (j : Z)
| Stale.

Definition graph_step (st : graph_status) (e : event) : graph_status :=
  match e with
  | FindKNN j => Fresh j
  | DensifyAndPrune _ _ _ => Stale
  | _ => st
  end.

Definition graph_status_from (st : graph_status) (t : list event) : graph_status :=
  fold_left graph_step t st.

Definition graph_status_after (t : list event) : graph_status :=
  graph_status_from NoGraph t.

(** The discipline a trace follows from a given status of the graph: the
    geometric term reads the graph of the latest rebuild, which no
    [densify_and_prune] has overtaken, at an iteration that sees a
    primitive; and [findKNN] comes right after every [densify_and_prune]. *)
Fixpoint graph_discipline (w : World) (st : graph_status) (t : list event) : Prop :=
  match t with
  | [] => True
  | SurfaceAlign i g :: t' =>
      (exists j, st = Fresh j /\ g = findKNN w j)
      /\ 0 < visibility_sum w i
      /\ graph_discipline w st t'
  | DensifyAndPrune i _ _ :: t' =>
      (exists t'', t' = FindKNN i :: t'') /\ graph_discipline w Stale t'
  | e :: t' => graph_discipline w (graph_step st e) t'
  end.

(** What the loop needs to run through: a camera to pop, intervals to
    divide by. *)
Definition well_configured (w : World) (opt : OptimizationParams) : Prop :=
  getTrainCameras w <> []
  /\ densification_interval opt <> 0
  /\ opacity_reset_interval opt <> 0.

(** ** The trace of a pass that raises nothing, piece by piece *)

Section Pass.

Variable w : World.
Variable dataset : ModelParams.
Variable opt : OptimizationParams.
Variables testing_iterations saving_iterations checkpoint_iterations : list Z.
Variable num_max : option Z.

Definition schedule_events (i : Z) : list event :=
  UpdateLearningRate i :: (if i mod 1000 =? 0 then [OneupSHdegree i] else []).

Definition geo_events (i : Z) (k : option Graph) : list event :=
  match k with
  | Some g => if 0 <? visibility_sum w i then [SurfaceAlign i g] else []
  | None => []
  end.

Definition log_events (i : Z) : list event :=
  (if i mod 10 =? 0 then [ProgressUpdate i] else [])
  ++ (if i =? iterations opt then [ProgressClose i] else [])
  ++ TrainingReport i (report_calls w dataset testing_iterations i)
  :: (if py_in i saving_iterations then [SceneSave i] else [])
  ++ (if WANDB_FOUND w then [WandbLogMetrics i] else []).

Definition densify_events (i : Z) : list event :=
  if (densify_from_iter opt <? i) && (i mod densification_interval opt =? 0)
  then [DensifyAndPrune i
          (if opacity_reset_interval opt <? i then Some 20 else None) num_max;
        FindKNN i]
  else [].

Definition reset_events (i : Z) : list event :=
  if (i mod opacity_reset_interval opt =? 0)
     || (white_background dataset && (i =? densify_from_iter opt))
  then [ResetOpacity i]
  else [].

Definition densification_events (i : Z) : list event :=
  if i <? densify_until_iter opt then
    MaxRadiiUpdate i :: AddDensificationStats i
    :: densify_events i ++ reset_events i
  else if densify_until_iter opt <? i then
    if i mod 3000 =? 0 then [FindKNN i] else []
  else [].

Definition cum_events (i : Z) (c : Z * Z) : list event :=
  if WANDB_FOUND w then [WandbLogCum i (fst c) (snd c)] else [].

Definition optimizer_events (i : Z) : list event :=
  if i <? iterations opt then [OptimizerStep i; ZeroGrad i] else [].

Definition checkpoint_events (i : Z) : list event :=
  if py_in i checkpoint_iterations
  then [TorchSave (capture w i) i (chkpnt_path (scene_model_path w dataset) i)]
  else [].

(** The events after the backward pass. *)
Definition tail_events (i : Z) (c : Z * Z) : list event :=
  log_events i ++ densification_events i ++ cum_events i c
  ++ optimizer_events i ++ checkpoint_events i.

(** A whole pass, given the graph it starts with, the camera it pops,
    the debug flag it renders with and the counters it logs. *)
Definition pass_events (i : Z) (k : option Graph) (cam : Camera)
           (dbg : bool) (c : Z * Z) : list event :=
  schedule_events i
  ++ Render i cam dbg
       (if random_background opt then RandomColor else bg_color dataset)
  :: geo_events i k
  ++ Backward i :: tail_events i c.

(** Traces made of one such pass per iteration of a list. *)
Inductive loop_trace : list Z -> list event -> Prop :=
| loop_trace_nil : loop_trace [] []
| loop_trace_cons (i : Z) (its : list Z) (k : option Graph) (cam : Camera)
                  (dbg : bool) (c : Z * Z) (t : list event) :
    loop_trace its t ->
    loop_trace (i :: its) (pass_events i k cam dbg c ++ t).

End Pass.

End Observers.

(** ** Shapes of a pass, and the specification's sentences *)

Section Statements.

Context {Camera Snapshot Graph : Type}.
Local Abbreviation event := (@event Camera Snapshot Graph).

(** In the events of iteration [i]: the two statistics calls occur once,
    one after the other, after the backward pass and before any
    [densify_and_prune]. *)
Definition stats_update_once (i : Z) (t : list event) : Prop :=
  exists l1 l2 l3,
    events_at i t
    = l1 ++ Backward i :: l2 ++ MaxRadiiUpdate i :: AddDensificationStats i :: l3
    /\ Forall (fun e => is_stats_update e = false
                        /\ is_densify_and_prune e = false) (l1 ++ l2)
    /\ Forall (fun e => is_stats_update e = false) l3.

(** In the events of iteration [i]: [optimizer.step()] and [zero_grad()]
    occur once, one after the other, and every call that changes the
    population comes before them. *)
Definition optimizer_step_once (i : Z) (t : list event) : Prop :=
  exists l1 l2,
    events_at i t = l1 ++ OptimizerStep i :: ZeroGrad i :: l2
    /\ Forall (fun e => is_optimizer_call e = false) l1
    /\ Forall (fun e => is_optimizer_call e = false
                        /\ is_mutation e = false) l2.

Variable w : @World Camera Snapshot Graph.
Variable dataset : ModelParams.
Variable opt : OptimizationParams.
Variable pipe : PipelineParams.
Variables testing_iterations saving_iterations checkpoint_iterations : list Z.
Variable checkpoint : option pystr.
Variable debug_from : Z.
Variable sparse_num : Z.
Variable num_max : option Z.

Local Abbreviation run :=
  (trace w dataset opt pipe testing_iterations saving_iterations
     checkpoint_iterations checkpoint debug_from sparse_num num_max).
Local Abbreviation passes := (loop_iterations w opt checkpoint).

(** The specification, on the statistics: updated once in every iteration. *)
Definition spec_stats_every_iteration : Prop :=
  forall i, In i passes -> stats_update_once i run.

(** The specification, on densification: the window is closed at its start. *)
Definition spec_densify_closed_window : Prop :=
  forall i, In i passes ->
    ((exists st nm, In (DensifyAndPrune i st nm) run)
     <-> (densify_from_iter opt <= i < densify_until_iter opt
          /\ i mod densification_interval opt = 0)).

(** The specification, on the opacity reset: inside the window at the
    multiples of the interval, or at the start of the window on a white
    background. *)
Definition spec_reset_inside_window : Prop :=
  forall i, In i passes ->
    (In (ResetOpacity i) run
     <-> ((densify_from_iter opt <= i < densify_until_iter opt
           /\ i mod opacity_reset_interval opt = 0)
          \/ (white_background dataset = true /\ i = densify_from_iter opt))).

(** The specification, on the optimizer: it steps in every iteration, the
    last one included. *)
Definition spec_optimizer_every_iteration : Prop :=
  forall i, In i passes -> optimizer_step_once i run.


(** The specification, on the geometric term: not before a
    [densify_and_prune] call has produced a graph, and only when a
    primitive is visible. *)
Definition spec_geo_after_densify : Prop :=
  forall pre i g post,
    run = pre ++ SurfaceAlign i g :: post ->
    (exists j st nm p1 p2,
        pre = p1 ++ DensifyAndPrune j st nm :: FindKNN j :: p2)
    /\ 0 < visibility_sum w i.

End Statements.

(** ** Small runs *)

(** An environment with a job identifier and no tensorboard, and one
    with tensorboard and no job identifier. *)
Definition job_env : OutputEnv :=
  {| OAR_JOB_ID := Some (py "1234567890123");
     uuid4 := py "0f8fad5b-d9cb-469f-a165-70867728950e";
     TENSORBOARD_FOUND := false |}.

(** A job identifier of twelve characters outside ASCII. *)
Definition unicode_env : OutputEnv :=
  {| OAR_JOB_ID := Some (repeat 20013%N 12);
     uuid4 := py "0f8fad5b-d9cb-469f-a165-70867728950e";
     TENSORBOARD_FOUND := false |}.

Definition plain_env : OutputEnv :=
  {| OAR_JOB_ID := None;
     uuid4 := py "0f8fad5b-d9cb-469f-a165-70867728950e";
     TENSORBOARD_FOUND := true |}.

(** Three training cameras and two test cameras; graphs and snapshots are
    named by the iteration that made them; one file, saved at iteration
    2998; the environment of a job. *)
Definition demo_world : @World nat Z Z :=
  {| getTrainCameras := [0%nat; 1%nat; 2%nat];
     random_draw := fun i => i;
     visibility_sum := fun _ => 1;
     findKNN := fun i => i;
     densify_and_prune := fun _ => (2, 1);
     capture := fun i => i;
     torch_load := fun _ => (2998, 2998);
     WANDB_FOUND := true;
     output_env := job_env;
     scene_test_cameras := [100%nat; 101%nat];
     camera_image_name := fun _ => py "view" |}.

(** The same world, with one file saved at iteration 4. *)
Definition resume_world : @World nat Z Z :=
  {| getTrainCameras := [0%nat; 1%nat; 2%nat];
     random_draw := fun i => i;
     visibility_sum := fun _ => 1;
     findKNN := fun i => i;
     densify_and_prune := fun _ => (2, 1);
     capture := fun i => i;
     torch_load := fun _ => (4, 4);
     WANDB_FOUND := true;
     output_env := job_env;
     scene_test_cameras := [100%nat; 101%nat];
     camera_image_name := fun _ => py "view" |}.

Definition demo_dataset : ModelParams :=
  {| sh_degree := 3; white_background := false; model_path := py "out" |}.

(** No model path: the folder is named by the environment. *)
Definition unnamed_dataset : ModelParams :=
  {| sh_degree := 3; white_background := false; model_path := [] |}.

Definition demo_pipe : PipelineParams := {| debug := false |}.

(** Eight iterations, densification at 2 and 4, reset at 3. *)
Definition demo_opt : OptimizationParams :=
  {| iterations := 8;
     densify_from_iter := 1;
     densify_until_iter := 6;
     densification_interval := 2;
     opacity_reset_interval := 3;
     random_background := false |}.

(** Six iterations, a window that opens at 4 and closes at 6. *)
Definition late_window_opt : OptimizationParams :=
  {| iterations := 6;
     densify_from_iter := 4;
     densify_until_iter := 6;
     densification_interval := 2;
     opacity_reset_interval := 3;
     random_background := false |}.


(** A window that closed at 2000, in a run of 3001 iterations. *)
Definition resumed_opt : OptimizationParams :=
  {| iterations := 3001;
     densify_from_iter := 500;
     densify_until_iter := 2000;
     densification_interval := 100;
     opacity_reset_interval := 3000;
     random_background := false |}.

(** The run of [demo_world] under a configuration, with a checkpoint
    scheduled at iteration 4. *)
Abbreviation demo_run opt checkpoint :=
  (trace demo_world demo_dataset opt demo_pipe [] [] [4] checkpoint (-1) 1 None).

(** The file that [demo_world] can load. *)
Definition demo_checkpoint : option pystr := Some (py "out/chkpnt2998.pth").

(** ** Predicates on computations of the loop monad *)

Section Computations.

Context {Camera Snapshot Graph : Type}.
Local Abbreviation event := (@event Camera Snapshot Graph).
Local Abbreviation World := (@World Camera Snapshot Graph).
Local Abbreviation loop_state := (@loop_state Camera Graph).
Local Abbreviation M := (@M Camera Snapshot Graph).

(** Whatever the state and however it ends, [m] emits only events of [P]. *)
Definition emits_only {A : Type} (P : event -> Prop) (m : M A) : Prop :=
  forall s, Forall P (fst (m s)).

(** The events that [graph_discipline] looks at. *)
Definition is_graph_event (e : event) : bool :=
  match e with
  | SurfaceAlign _ _ | DensifyAndPrune _ _ _ | FindKNN _ => true
  | _ => false
  end.

(** [KNN_index] holds what the status of the graph says. *)
Definition agrees (w : World) (st : graph_status) (s : loop_state) : Prop :=
  match st with
  | NoGraph => KNN_index s = None
  | Fresh j => KNN_index s = Some (findKNN w j)
  | Stale => False
  end.

(** Started in agreement, [m] follows the discipline, also when it raises,
    and is in agreement again when it returns. *)
Definition keeps_discipline {A : Type} (w : World) (m : M A) : Prop :=
  forall st s,
    agrees w st s ->
    graph_discipline w st (fst (m s))
    /\ match snd (m s) with
       | Returned (_, s') => agrees w (graph_status_from st (fst (m s))) s'
       | Raised _ => True
       end.

End Computations.

(** ** More observers: exceptions, cameras, counters *)

Section MoreObservers.

Context {Camera Snapshot Graph : Type}.
Local Abbreviation event := (@event Camera Snapshot Graph).
Local Abbreviation World := (@World Camera Snapshot Graph).
Local Abbreviation M := (@M Camera Snapshot Graph).

(** The list a pass pops its camera from (lines 79-80): the stack, or the
    training cameras when the stack is falsy. *)
Definition refill (w : World) (stack : list Camera) : list Camera :=
  match stack with
  | [] => getTrainCameras w
  | _ :: _ => stack
  end.

(** Iteration [i] divides by no interval that is zero: inside
    [iteration < densify_until_iter], line 170 divides by
    [opacity_reset_interval], and line 164 by [densification_interval] once
    [iteration > densify_from_iter] holds. *)
Definition divides_safely (opt : OptimizationParams) (i : Z) : Prop :=
  i < densify_until_iter opt ->
  opacity_reset_interval opt <> 0
  /\ (densify_from_iter opt < i -> densification_interval opt <> 0).

(** Whatever the state, an exception that [m] raises is one of [P]. *)
Definition raises_only {A : Type} (P : exn -> Prop) (m : M A) : Prop :=
  forall s t e, m s = (t, Raised e) -> P e.

(** The calls of [render] that the loop makes itself (line 90), in order:
    the iteration and the camera of each.  The renders of
    [training_report] (line 243) are among the calls of its event. *)
Definition loop_renders (t : list event) : list (Z * Camera) :=
  flat_map (fun e => match e with
                     | Render i cam _ _ => [(i, cam)]
                     | _ => []
                     end) t.

(** The cameras the loop renders for its training steps, in order. *)
Definition rendered_cameras (t : list event) : list Camera :=
  map snd (loop_renders t).

(** The [wandb.log] calls of a run: the two of the loop (lines 152 and
    179), and those that [training_report] makes. *)
Definition is_wandb_log (e : event) : bool :=
  match e with
  | WandbLogMetrics _ | WandbLogCum _ _ _ => true
  | TrainingReport _ calls => existsb is_report_wandb_log calls
  | _ => false
  end.

(** [(n_created, n_deleted)] of an iteration: what [densify_and_prune]
    returned when the iteration called it, [(0, 0)] otherwise (line 133). *)
Definition counts_of (w : World) (opt : OptimizationParams) (i : Z) : Z * Z :=
  if (i <? densify_until_iter opt)
     && ((densify_from_iter opt <? i)
         && (i mod densification_interval opt =? 0))
  then densify_and_prune w i
  else (0, 0).

End MoreObservers.

(** A world without training cameras. *)
Definition empty_world : @World nat Z Z :=
  {| getTrainCameras := [];
     random_draw := fun i => i;
     visibility_sum := fun _ => 1;
     findKNN := fun i => i;
     densify_and_prune := fun _ => (2, 1);
     capture := fun i => i;
     torch_load := fun _ => (2998, 2998);
     WANDB_FOUND := true;
     output_env := job_env;
     scene_test_cameras := [100%nat; 101%nat];
     camera_image_name := fun _ => py "view" |}.

(** Both intervals zero, and a window that closed at 2000. *)
Definition zero_interval_opt : OptimizationParams :=
  {| iterations := 3001;
     densify_from_iter := 500;
     densify_until_iter := 2000;
     densification_interval := 0;
     opacity_reset_interval := 0;
     random_background := false |}.

(** The sum of [f] over a list of iterations. *)
Definition sum_over (f : Z -> Z) (l : list Z) : Z :=
  fold_right (fun j acc => f j + acc) 0 l.

(** ** The script: [init_wandb] (lines 282-298) and the main block
    (lines 300-354) *)

Section Main.

Context {Camera Snapshot Graph : Type}.
Local Abbreviation event := (@event Camera Snapshot Graph).
Local Abbreviation World := (@World Camera Snapshot Graph).

(** The parsed arguments that the main block uses.  [wandb_run_name] is
    [None] unless the option is given (line 321). *)
Record Args : Type := {
  args_model : ModelParams;
  args_opt : OptimizationParams;
  args_pipe : PipelineParams;
  test_iterations : list Z;
  save_iterations : list Z;
  args_checkpoint_iterations : list Z;
  args_start_checkpoint : option pystr;
  args_debug_from : Z;
  args_sparse_num : Z;
  args_num_max : option Z;
  wandb_run_name : option pystr
}.

(** Exceptions of the script: those of [training], and the one of calling
    [.encode] on [None] (line 286). *)
Inductive main_exn : Type :=
| TrainingRaised (e : exn)
| AttributeError.

Inductive main_outcome : Type :=
| MainReturned
| MainRaised (e : main_exn).

Inductive main_event : Type :=
| WandbLogin
| WandbInit (run_name : pystr)
| PrintOptimizing (path : pystr)
| SafeState
| NetworkGuiInit
| SetDetectAnomaly
| Training (e : event)
| PrintTrainingComplete
| WandbFinish.

(** lines 282-298: the calls made, and the run, [None], or the exception *)
Definition init_wandb (w : World) (args : Args)
  : list main_event * option (option pystr) :=
  if WANDB_FOUND w then
    match wandb_run_name args with
    | Some name => ([WandbLogin; WandbInit name], Some (Some name))
    | None => ([WandbLogin], None)
    end
  else ([], Some None).

(** line 323: [args.save_iterations.append(args.iterations)] *)
Definition main_save_iterations (args : Args) : list Z :=
  save_iterations args ++ [iterations (args_opt args)].

(** lines 337-347: the call of [training] *)
Definition main_training (w : World) (args : Args)
  : list event * outcome unit :=
  training w (args_model args) (args_opt args) (args_pipe args)
    (test_iterations args) (main_save_iterations args)
    (args_checkpoint_iterations args) (args_start_checkpoint args)
    (args_debug_from args) (args_sparse_num args) (args_num_max args).

(** lines 323-354 *)
Definition main (w : World) (args : Args) : list main_event * main_outcome :=
  match init_wandb w args with
  | (t0, None) => (t0, MainRaised AttributeError)
  | (t0, Some wand_run) =>
      let '(t, r) := main_training w args in
      let finally :=
        match wand_run with
        | Some _ => [WandbFinish]
        | None => []
        end in
      (t0
       ++ [PrintOptimizing (model_path (args_model args)); SafeState;
           NetworkGuiInit; SetDetectAnomaly]
       ++ map Training t
       ++ match r with
          | Returned _ => [PrintTrainingComplete]
          | Raised _ => []
          end
       ++ finally,
       match r with
       | Returned _ => MainReturned
       | Raised e => MainRaised (TrainingRaised e)
       end)
  end.

End Main.

(** A world in which both telemetry flags are off. *)
Definition quiet_world : @World nat Z Z :=
  {| getTrainCameras := [0%nat; 1%nat; 2%nat];
     random_draw := fun i => i;
     visibility_sum := fun _ => 1;
     findKNN := fun i => i;
     densify_and_prune := fun _ => (2, 1);
     capture := fun i => i;
     torch_load := fun _ => (4, 4);
     WANDB_FOUND := false;
     output_env := job_env;
     scene_test_cameras := [100%nat; 101%nat];
     camera_image_name := fun _ => py "view" |}.

(** The arguments of a short run; no name for the wandb run. *)
Definition demo_args : Args :=
  {| args_model := demo_dataset;
     args_opt := demo_opt;
     args_pipe := demo_pipe;
     test_iterations := [2];
     save_iterations := [3];
     args_checkpoint_iterations := [4];
     args_start_checkpoint := None;
     args_debug_from := 2;
     args_sparse_num := 1;
     args_num_max := None;
     wandb_run_name := None |}.


(** A scene of seven training cameras and two test cameras. *)
Definition demo_report_env : @ReportEnv nat :=
  {| getTestCameras := [100%nat; 101%nat];
     report_train_cameras := [0; 1; 2; 3; 4; 5; 6]%nat;
     image_name := fun _ => py "view";
     report_wandb := true |}.

Section GraphSteps.

Context {Camera Snapshot Graph : Type}.

(** When [m] returns, [KNN_index] is what it was, or the graph that
    [findKNN] returned at iteration [i]. *)
Definition knn_step {A : Type} (w : @World Camera Snapshot Graph) (i : Z)
           (m : @M Camera Snapshot Graph A) : Prop :=
  forall s t a s',
    m s = (t, Returned (a, s')) ->
    KNN_index s' = KNN_index s \/ KNN_index s' = Some (findKNN w i).

End GraphSteps.

(** Four iterations in which densification and the opacity reset fall on
    the same iterations, 2 and 4. *)
Definition coinciding_opt : OptimizationParams :=
  {| iterations := 4;
     densify_from_iter := 1;
     densify_until_iter := 6;
     densification_interval := 2;
     opacity_reset_interval := 2;
     random_background := false |}.

(** * Proofs *)

(** ** [training_report] returns *)

Section ReportReturns.

Context {Camera : Type}.
Local Abbreviation R := (@R Camera).
Local Abbreviation report_event := (@report_event Camera).

Lemma r_bind_returned {A B : Type} (m : R A) (f : A -> R B) t1 a t2 r :
  m = (t1, Returned a) -> f a = (t2, r) -> r_bind m f = (t1 ++ t2, r).
Proof. intros -> Hf. unfold r_bind. now rewrite Hf. Qed.

Lemma range_by_five_bound (n : nat) :
  Forall (fun idx => (idx < n)%nat) (range_by_five n).
Proof.
  unfold range_by_five. apply Forall_forall. intros idx Hin.
  apply in_map_iff in Hin. destruct Hin as (k & <- & Hk).
  apply in_seq in Hk.
  pose proof (Nat.div_mod_eq (n + 4) 5) as Hdiv.
  pose proof (Nat.mod_upper_bound (n + 4) 5) as Hmod.
  lia.
Qed.

Lemma r_collect_returns (cams : list Camera) (idxs : list nat) :
  Forall (fun idx => (idx < List.length cams)%nat) idxs ->
  exists l,
    r_collect cams idxs = ([], Returned l)
    /\ map Some l = map (nth_error cams) idxs.
Proof.
  induction 1 as [|idx idxs Hidx _ IH].
  - exists []. split; reflexivity.
  - destruct IH as (l & E & Hl).
    destruct (nth_error cams idx) as [cam|] eqn:Hnth;
      [ | apply nth_error_None in Hnth; lia ].
    exists (cam :: l). split.
    + simpl. unfold r_index. rewrite Hnth.
      unfold r_bind at 1. unfold r_ret at 1.
      rewrite E. reflexivity.
    + simpl. now rewrite Hl, Hnth.
Qed.

(** Line 232 raises nothing, and picks the cameras at 0, 5, 10, ... *)
Lemma every_fifth_returns (cams : list Camera) :
  exists l,
    every_fifth cams = ([], Returned l)
    /\ List.length l = ((List.length cams + 4) / 5)%nat
    /\ forall k, (k < List.length l)%nat ->
                 nth_error l k = nth_error cams (5 * k).
Proof.
  destruct (r_collect_returns cams (range_by_five (List.length cams))
              (range_by_five_bound _)) as (l & E & Hl).
  exists l. split; [ exact E | ].
  assert (Hlen : List.length l = ((List.length cams + 4) / 5)%nat).
  { apply (f_equal (@List.length _)) in Hl.
    rewrite !length_map in Hl. unfold range_by_five in Hl.
    now rewrite length_map, length_seq in Hl. }
  split; [ exact Hlen | ].
  intros k Hk.
  apply (f_equal (fun x => nth_error x k)) in Hl.
  rewrite !nth_error_map in Hl. unfold range_by_five in Hl.
  rewrite nth_error_map, nth_error_seq in Hl.
  destruct (Nat.ltb_spec k ((List.length cams + 4) / 5)) as [_|Hge];
    [ | lia ].
  simpl in Hl.
  destruct (nth_error l k) as [cam|] eqn:Hnth;
    [ | apply nth_error_None in Hnth; lia ].
  simpl in Hl. now inversion Hl.
Qed.

Section OneCall.

Variable env : @ReportEnv Camera.
Variable tb_writer : bool.
Variable iteration : Z.
Variable testing_iterations : list Z.

Lemma evaluate_view_run (name : pystr) (view : nat * Camera) :
  testing_iterations <> [] ->
  evaluate_view env tb_writer iteration testing_iterations name view
  = (view_events env tb_writer iteration testing_iterations name view,
     Returned tt).
Proof.
  intros Hne. destruct view as [idx cam].
  destruct testing_iterations as [|first rest]; [ congruence | ].
  unfold evaluate_view, view_events, r_index, r_bind, r_emit, r_when, r_ret.
  cbn [fst snd nth_error hd].
  destruct (tb_writer && (idx <? 5)%nat); [ | reflexivity ].
  destruct (iteration =? first); reflexivity.
Qed.

Lemma r_for_run {A : Type} (l : list A) (body : A -> R unit)
      (ev : A -> list report_event) :
  (forall x, body x = (ev x, Returned tt)) ->
  r_for l body = (flat_map ev l, Returned tt).
Proof.
  intros H. induction l as [|x l IH]; [ reflexivity | ].
  simpl. eapply r_bind_returned; [ apply H | exact IH ].
Qed.

Lemma evaluate_config_run (name : pystr) (cameras : list Camera) :
  testing_iterations <> [] ->
  evaluate_config env tb_writer iteration testing_iterations name cameras
  = (config_events env tb_writer iteration testing_iterations name cameras,
     Returned tt).
Proof.
  intros Hne. destruct cameras as [|c cameras]; [ reflexivity | ].
  unfold evaluate_config, config_events.
  rewrite (r_for_run _ _ _ (fun v => evaluate_view_run name v Hne)).
  unfold r_bind, r_emit, r_when, r_divide_by, r_ret.
  cbn [List.length].
  destruct tb_writer, (report_wandb env); reflexivity.
Qed.

(** The whole report: it returns, and these are its calls. *)
Lemma training_report_run :
  exists fifth,
    every_fifth (report_train_cameras env) = ([], Returned fifth)
    /\ training_report env tb_writer iteration testing_iterations
       = ((if tb_writer
           then [AddScalar (py "train_loss_patches/l1_loss") iteration;
                 AddScalar (py "train_loss_patches/total_loss") iteration;
                 AddScalar (py "iter_time") iteration]
           else [])
            ++ (if report_wandb env
                then [ReportWandbLog [py "n_gaussians"] iteration]
                else [])
            ++ (if py_in iteration testing_iterations
                then EmptyCache
                     :: config_events env tb_writer iteration
                          testing_iterations (py "test_full")
                          (getTestCameras env)
                     ++ config_events env tb_writer iteration
                          testing_iterations (py "train_every_5th") fifth
                     ++ (if tb_writer
                         then [AddHistogram (py "scene/opacity_histogram")
                                 iteration;
                               AddScalar (py "total_points") iteration]
                         else [])
                     ++ [EmptyCache]
                else []),
          Returned tt).
Proof.
  destruct (every_fifth_returns (report_train_cameras env))
    as (fifth & E & _).
  exists fifth. split; [ exact E | ].
  unfold training_report.
  eapply r_bind_returned; [ destruct tb_writer; reflexivity | ].
  eapply r_bind_returned; [ destruct (report_wandb env); reflexivity | ].
  destruct (py_in iteration testing_iterations) eqn:Hin; [ | reflexivity ].
  assert (Hne : testing_iterations <> []).
  { intros ->. discriminate Hin. }
  change (EmptyCache
          :: config_events env tb_writer iteration testing_iterations
               (py "test_full") (getTestCameras env)
          ++ config_events env tb_writer iteration testing_iterations
               (py "train_every_5th") fifth
          ++ (if tb_writer
              then [AddHistogram (py "scene/opacity_histogram") iteration;
                    AddScalar (py "total_points") iteration]
              else [])
          ++ [EmptyCache])
    with ([EmptyCache]
          ++ []
          ++ config_events env tb_writer iteration testing_iterations
               (py "test_full") (getTestCameras env)
          ++ config_events env tb_writer iteration testing_iterations
               (py "train_every_5th") fifth
          ++ (if tb_writer
              then [AddHistogram (py "scene/opacity_histogram") iteration;
                    AddScalar (py "total_points") iteration]
              else [])
          ++ [EmptyCache]).
  eapply r_bind_returned; [ reflexivity | ].
  eapply r_bind_returned; [ exact E | ].
  eapply r_bind_returned; [ apply (evaluate_config_run _ _ Hne) | ].
  eapply r_bind_returned; [ apply (evaluate_config_run _ _ Hne) | ].
  eapply r_bind_returned; [ destruct tb_writer; reflexivity | ].
  reflexivity.
Qed.

Lemma views_without_wandb (name : pystr) (views : list (nat * Camera)) :
  existsb is_report_wandb_log
    (flat_map (view_events env tb_writer iteration testing_iterations name)
       views) = false.
Proof.
  induction views as [|v views IH]; [ reflexivity | ].
  cbn [flat_map]. rewrite existsb_app, IH. unfold view_events.
  destruct (tb_writer && (fst v <? 5)%nat); [ | reflexivity ].
  destruct (iteration =? hd 0 testing_iterations); reflexivity.
Qed.

Lemma config_without_wandb (name : pystr) (cameras : list Camera) :
  report_wandb env = false ->
  existsb is_report_wandb_log
    (config_events env tb_writer iteration testing_iterations name cameras)
  = false.
Proof.
  intros Hoff. destruct cameras as [|c cameras]; [ reflexivity | ].
  unfold config_events. rewrite Hoff, existsb_app, views_without_wandb.
  destruct tb_writer; reflexivity.
Qed.

(** Without the flag of wandb, the report makes no [wandb.log] call. *)
Lemma report_without_wandb :
  report_wandb env = false ->
  existsb is_report_wandb_log
    (fst (training_report env tb_writer iteration testing_iterations))
  = false.
Proof.
  intros Hoff. destruct training_report_run as (fifth & _ & E).
  rewrite E, Hoff. cbn [fst].
  rewrite !existsb_app.
  destruct (py_in iteration testing_iterations).
  - cbn [existsb is_report_wandb_log orb].
    rewrite !existsb_app, !(config_without_wandb _ _ Hoff).
    destruct tb_writer; reflexivity.
  - destruct tb_writer; reflexivity.
Qed.

End OneCall.

End ReportReturns.

Section MonadFacts.

Context {Camera Snapshot Graph : Type}.
Local Abbreviation event := (@event Camera Snapshot Graph).
Local Abbreviation World := (@World Camera Snapshot Graph).
Local Abbreviation M := (@M Camera Snapshot Graph).

Lemma bind_returned {A B : Type} (m : M A) (f : A -> M B) s t1 a s1 t2 r :
  m s = (t1, Returned (a, s1)) ->
  f a s1 = (t2, r) ->
  bind m f s = (t1 ++ t2, r).
Proof.
  intros Hm Hf. unfold bind. now rewrite Hm, Hf.
Qed.

Lemma emits_only_ret {A : Type} P (a : A) : emits_only P (ret a : M A).
Proof. intros s. constructor. Qed.

Lemma emits_only_raise {A : Type} P e : emits_only P (raise e : M A).
Proof. intros s. constructor. Qed.

Lemma emits_only_get P : emits_only P (get : M _).
Proof. intros s. constructor. Qed.

Lemma emits_only_modify P f : emits_only P (modify f : M _).
Proof. intros s. constructor. Qed.

Lemma emits_only_emit (P : event -> Prop) e : P e -> emits_only P (emit e).
Proof. intros H s. simpl. auto. Qed.

Lemma emits_only_bind {A B : Type} P (m : M A) (f : A -> M B) :
  emits_only P m -> (forall a, emits_only P (f a)) -> emits_only P (bind m f).
Proof.
  intros Hm Hf s. unfold bind.
  specialize (Hm s).
  destruct (m s) as [t1 [[a s1]|e]]; simpl in *; auto.
  specialize (Hf a s1).
  destruct (f a s1) as [t2 r]; simpl in *.
  apply Forall_app; auto.
Qed.

Lemma emits_only_when P b (m : M unit) :
  emits_only P m -> emits_only P (when b m).
Proof. intros H. destruct b; simpl; [exact H | apply emits_only_ret]. Qed.

Lemma emits_only_py_mod P a b : emits_only P (py_mod a b : M Z).
Proof.
  unfold py_mod. destruct (b =? 0); [apply emits_only_raise | apply emits_only_ret].
Qed.

Lemma emits_only_py_randint P d lo hi : emits_only P (py_randint d lo hi : M Z).
Proof.
  unfold py_randint.
  destruct (hi <? lo); [apply emits_only_raise | apply emits_only_ret].
Qed.

Lemma emits_only_for_each P its (body : Z -> M unit) :
  (forall i, In i its -> emits_only P (body i)) ->
  emits_only P (for_each its body).
Proof.
  induction its as [|i its IH]; intros H; simpl.
  - apply emits_only_ret.
  - apply emits_only_bind.
    + apply H. now left.
    + intros _. apply IH. intros j Hj. apply H. now right.
Qed.

End MonadFacts.

(** Splits a goal [emits_only P m] along the structure of [m], down to the
    events that [m] emits. *)
Ltac emits_step :=
  first
    [ apply emits_only_ret | apply emits_only_raise | apply emits_only_get
    | apply emits_only_modify | apply emits_only_py_mod
    | apply emits_only_py_randint | apply emits_only_when
    | apply emits_only_bind; [ | intros ? ]
    | apply emits_only_emit
    | match goal with
      | |- emits_only _ (if ?c then _ else _) => destruct c
      | |- emits_only _ (match ?x with _ => _ end) => destruct x
      end ].

Ltac emits := cbv zeta; repeat (emits_step; cbv zeta).

Section BodyFacts.

Context {Camera Snapshot Graph : Type}.
Local Abbreviation event := (@event Camera Snapshot Graph).

Variable w : @World Camera Snapshot Graph.
Variable dataset : ModelParams.
Variable opt : OptimizationParams.
Variable pipe : PipelineParams.
Variables testing_iterations saving_iterations checkpoint_iterations : list Z.
Variable checkpoint : option pystr.
Variable debug_from : Z.
Variable sparse_num : Z.
Variable num_max : option Z.

Local Abbreviation body :=
  (iteration_body w dataset opt testing_iterations saving_iterations
     checkpoint_iterations debug_from num_max).
Local Abbreviation run :=
  (trace w dataset opt pipe testing_iterations saving_iterations
     checkpoint_iterations checkpoint debug_from sparse_num num_max).
Local Abbreviation passes := (loop_iterations w opt checkpoint).

Ltac unfold_body :=
  unfold iteration_body, schedule, pick_camera, render_view, geo_loss,
    log_and_save, densification, densify, opacity_reset, rebuild_graph,
    log_cumulative, optimizer_step, save_checkpoint.

(** Every event of a pass carries the iteration of the pass. *)
Lemma body_tagged (i : Z) :
  emits_only (fun e => event_iteration e = Some i) (body i).
Proof.
  unfold_body. emits; reflexivity.
Qed.

(** The size threshold that a pass hands to [densify_and_prune]. *)
Lemma body_size_threshold (i : Z) :
  emits_only
    (fun e => match e with
              | DensifyAndPrune j st _ =>
                  st = if opacity_reset_interval opt <? j then Some 20 else None
              | _ => True
              end)
    (body i).
Proof.
  unfold_body. emits; exact I || reflexivity.
Qed.

(** A property of the events of the setup and of every pass is a property
    of the events of the run. *)
Lemma run_emits_only (P : event -> Prop) :
  Forall P (setup_events w dataset checkpoint sparse_num) ->
  (forall i, In i passes -> emits_only P (body i)) ->
  Forall P run.
Proof.
  intros Hsetup Hbody.
  unfold trace, training.
  pose proof (emits_only_for_each P passes body Hbody
                (initial_state pipe)) as H.
  destruct (for_each passes body (initial_state pipe)) as [t r].
  cbn [fst] in *. apply Forall_app. split; assumption.
Qed.

End BodyFacts.

Section Discipline.

Context {Camera Snapshot Graph : Type}.
Local Abbreviation event := (@event Camera Snapshot Graph).
Local Abbreviation M := (@M Camera Snapshot Graph).

Variable w : @World Camera Snapshot Graph.

Lemma graph_status_from_app (st : graph_status) (t1 t2 : list event) :
  graph_status_from st (t1 ++ t2)
  = graph_status_from (graph_status_from st t1) t2.
Proof. apply fold_left_app. Qed.

Lemma graph_status_neutral (st : graph_status) (e : event) :
  is_graph_event e = false -> graph_step st e = st.
Proof. destruct e; simpl; congruence. Qed.

Lemma discipline_app (t1 t2 : list event) :
  forall st,
    graph_discipline w st t1 ->
    graph_discipline w (graph_status_from st t1) t2 ->
    graph_discipline w st (t1 ++ t2).
Proof.
  induction t1 as [|e t1 IH]; intros st H1 H2.
  - exact H2.
  - destruct e; simpl in *; try (apply IH; assumption).
    + destruct H1 as (Huse & Hvis & H1). auto.
    + destruct H1 as ((t'' & ->) & H1). split; [ | auto ].
      eexists. reflexivity.
Qed.

(** A discipline on a trace holds at each of its uses of the graph. *)
Lemma discipline_at_use (pre post : list event) (i : Z) (g : Graph) :
  forall st,
    graph_discipline w st (pre ++ SurfaceAlign i g :: post) ->
    (exists j, graph_status_from st pre = Fresh j /\ g = findKNN w j)
    /\ 0 < visibility_sum w i.
Proof.
  induction pre as [|e pre IH]; intros st H.
  - simpl in H. destruct H as (Huse & Hvis & _). auto.
  - destruct e; simpl in H; try (apply IH in H; exact H).
    + destruct H as (_ & _ & H). apply IH in H. exact H.
    + destruct H as (_ & H). apply IH in H. exact H.
Qed.

(** A discipline on a trace holds at each of its [densify_and_prune]. *)
Lemma discipline_at_densify (pre post : list event) (i : Z) st' nm :
  forall st,
    graph_discipline w st (pre ++ DensifyAndPrune i st' nm :: post) ->
    exists post', post = FindKNN i :: post'.
Proof.
  induction pre as [|e pre IH]; intros st H.
  - simpl in H. tauto.
  - destruct e; simpl in H; try (apply IH in H; exact H).
    + destruct H as (_ & _ & H). apply IH in H. exact H.
    + destruct H as (_ & H). apply IH in H. exact H.
Qed.

(** A fresh graph was built by a call of the trace. *)
Lemma fresh_was_built (t : list event) (j : Z) :
  forall st,
    graph_status_from st t = Fresh j -> st = Fresh j \/ In (FindKNN j) t.
Proof.
  induction t as [|e t IH]; intros st H.
  - left. exact H.
  - apply IH in H. destruct H as [H|H].
    + destruct e; simpl in H; try (left; exact H); try discriminate.
      right. left. congruence.
    + right. right. exact H.
Qed.

Lemma keeps_ret {A : Type} (a : A) : keeps_discipline w (ret a : M A).
Proof. intros st s H. simpl. auto. Qed.

Lemma keeps_raise {A : Type} e : keeps_discipline w (raise e : M A).
Proof. intros st s H. simpl. auto. Qed.

Lemma keeps_emit (e : event) :
  is_graph_event e = false -> keeps_discipline w (emit e).
Proof.
  intros He st s H. unfold emit. cbn [fst snd].
  unfold graph_status_from. cbn [fold_left].
  rewrite (graph_status_neutral st e He).
  split; [ | exact H ].
  destruct e; simpl in *; auto; discriminate.
Qed.

Lemma keeps_modify f :
  (forall s, KNN_index (f s) = KNN_index s) ->
  keeps_discipline w (modify f : M unit).
Proof.
  intros Hf st s H. simpl. split; [exact I | ].
  destruct st; simpl in *; try rewrite Hf; auto.
Qed.

Lemma keeps_bind {A B : Type} (m : M A) (f : A -> M B) :
  keeps_discipline w m ->
  (forall a, keeps_discipline w (f a)) ->
  keeps_discipline w (bind m f).
Proof.
  intros Hm Hf st s Hag. unfold bind.
  specialize (Hm st s Hag).
  destruct (m s) as [t1 [[a s1]|e]]; cbn [fst snd] in *.
  - destruct Hm as [Hd Ha].
    specialize (Hf a _ s1 Ha).
    destruct (f a s1) as [t2 r]; cbn [fst snd] in *.
    destruct Hf as [Hd2 Ha2]. split.
    + apply discipline_app; assumption.
    + rewrite graph_status_from_app. exact Ha2.
  - tauto.
Qed.

Lemma keeps_when b (m : M unit) :
  keeps_discipline w m -> keeps_discipline w (when b m).
Proof. intros H. destruct b; simpl; [exact H | apply keeps_ret]. Qed.

Lemma keeps_py_mod a b : keeps_discipline w (py_mod a b : M Z).
Proof.
  unfold py_mod. destruct (b =? 0); [apply keeps_raise | apply keeps_ret].
Qed.

Lemma keeps_py_randint d lo hi : keeps_discipline w (py_randint d lo hi : M Z).
Proof.
  unfold py_randint.
  destruct (hi <? lo); [apply keeps_raise | apply keeps_ret].
Qed.

Lemma keeps_for_each its (body : Z -> M unit) :
  (forall i, keeps_discipline w (body i)) ->
  keeps_discipline w (for_each its body).
Proof.
  intros H. induction its as [|i its IH]; simpl.
  - apply keeps_ret.
  - apply keeps_bind; auto.
Qed.

End Discipline.

Section DisciplineOfGet.

Context {Camera Snapshot Graph : Type}.
Variable w : @World Camera Snapshot Graph.

Lemma keeps_get : keeps_discipline w (@get Camera Snapshot Graph).
Proof. intros st s H. simpl. auto. Qed.

End DisciplineOfGet.

(** Splits a goal [keeps_discipline w m] along the structure of [m]; the
    calls on the graph are left to the lemmas about them. *)
Ltac keeps_step :=
  first
    [ apply keeps_ret | apply keeps_raise | apply keeps_get
    | apply keeps_py_mod | apply keeps_py_randint | apply keeps_when
    | apply keeps_emit; reflexivity
    | apply keeps_modify; intros; reflexivity
    | apply keeps_bind; [ | intros ? ]
    | match goal with
      | |- keeps_discipline _ (if ?c then _ else _) => destruct c
      | |- keeps_discipline _ (match ?x with _ => _ end) => destruct x
      end ].

Ltac keeps := cbv zeta; repeat (keeps_step; cbv zeta).

Section DisciplineOfTraining.

Context {Camera Snapshot Graph : Type}.
Local Abbreviation event := (@event Camera Snapshot Graph).

Variable w : @World Camera Snapshot Graph.
Variable dataset : ModelParams.
Variable opt : OptimizationParams.
Variable pipe : PipelineParams.
Variables testing_iterations saving_iterations checkpoint_iterations : list Z.
Variable checkpoint : option pystr.
Variable debug_from : Z.
Variable sparse_num : Z.
Variable num_max : option Z.

Local Abbreviation body :=
  (iteration_body w dataset opt testing_iterations saving_iterations
     checkpoint_iterations debug_from num_max).
Local Abbreviation run :=
  (trace w dataset opt pipe testing_iterations saving_iterations
     checkpoint_iterations checkpoint debug_from sparse_num num_max).

(** The geometric term reads [KNN_index], which the status vouches for. *)
Lemma keeps_geo_loss (i : Z) : keeps_discipline w (geo_loss w i).
Proof.
  intros st s H. unfold geo_loss, bind, get.
  destruct (KNN_index s) as [g|] eqn:Hk; [ | simpl; auto ].
  unfold when. destruct (0 <? visibility_sum w i) eqn:Hv; [ | simpl; auto ].
  cbn. repeat split; auto.
  - destruct st as [|j|]; simpl in H.
    + congruence.
    + exists j. split; congruence.
    + contradiction.
  - now apply Z.ltb_lt.
Qed.

Lemma keeps_rebuild_graph (i : Z) : keeps_discipline w (rebuild_graph w i).
Proof.
  intros st s H. cbn. destruct st; simpl; auto.
Qed.

(** [findKNN] is called right after [densify_and_prune]. *)
Lemma keeps_densify (i : Z) : keeps_discipline w (densify w opt num_max i).
Proof.
  unfold densify. apply keeps_bind.
  - keeps.
  - intros [|]; [ | apply keeps_ret ].
    intros st s H. cbn. split; [ | reflexivity ].
    split; [ eexists; reflexivity | exact I ].
Qed.

Lemma keeps_body (i : Z) : keeps_discipline w (body i).
Proof.
  unfold iteration_body, schedule, pick_camera, render_view, log_and_save,
    densification, opacity_reset, log_cumulative, optimizer_step,
    save_checkpoint.
  cbv zeta.
  repeat (first [ apply keeps_geo_loss | apply keeps_densify
                | apply keeps_rebuild_graph | keeps_step ]; cbv zeta).
Qed.

(** The whole run follows the discipline, however it ends. *)
Lemma run_discipline : graph_discipline w NoGraph run.
Proof.
  unfold trace, training.
  pose proof (keeps_for_each w (loop_iterations w opt checkpoint) body
                keeps_body NoGraph (initial_state pipe) eq_refl) as [H _].
  destruct (for_each (loop_iterations w opt checkpoint) body
              (initial_state pipe)) as [t r].
  cbn [fst] in *. unfold setup_events.
  destruct (start_checkpoint checkpoint); simpl; exact H.
Qed.

End DisciplineOfTraining.

(** ** A well configured run returns, and its trace is made of whole passes *)

Section Passes.

Context {Camera Snapshot Graph : Type}.
Local Abbreviation event := (@event Camera Snapshot Graph).
Local Abbreviation loop_state := (@loop_state Camera Graph).

Variable w : @World Camera Snapshot Graph.
Variable dataset : ModelParams.
Variable opt : OptimizationParams.
Variable pipe : PipelineParams.
Variables testing_iterations saving_iterations checkpoint_iterations : list Z.
Variable checkpoint : option pystr.
Variable debug_from : Z.
Variable sparse_num : Z.
Variable num_max : option Z.

Local Abbreviation body :=
  (iteration_body w dataset opt testing_iterations saving_iterations
     checkpoint_iterations debug_from num_max).
Local Abbreviation pass :=
  (pass_events w dataset opt testing_iterations saving_iterations
     checkpoint_iterations num_max).
Local Abbreviation passes_of :=
  (loop_trace w dataset opt testing_iterations saving_iterations
     checkpoint_iterations num_max).

Lemma schedule_run (i : Z) (s : loop_state) :
  @schedule Camera Snapshot Graph i s = (schedule_events i, Returned (tt, s)).
Proof.
  unfold schedule, schedule_events, bind, emit, when, ret.
  destruct (i mod 1000 =? 0); reflexivity.
Qed.

Lemma pick_camera_run (i : Z) (s : loop_state) :
  getTrainCameras w <> [] ->
  exists cam s', pick_camera w i s = ([], Returned (cam, s')).
Proof.
  intros Hcams. unfold pick_camera, bind, get. cbv zeta.
  set (stack := match viewpoint_stack s with
                | [] => getTrainCameras w
                | _ :: _ => viewpoint_stack s
                end).
  assert (Hlen : (0 < List.length stack)%nat).
  { subst stack. destruct (viewpoint_stack s) as [|c l] eqn:E.
    - destruct (getTrainCameras w); [congruence | simpl; lia].
    - simpl; lia. }
  unfold py_randint.
  destruct (Z.of_nat (List.length stack) - 1 <? 0) eqn:Hlt;
    [ apply Z.ltb_lt in Hlt; lia | ].
  unfold ret at 1. cbv iota beta.
  set (k := 0 + random_draw w i mod (Z.of_nat (List.length stack) - 1 - 0 + 1)).
  assert (Hk : (Z.to_nat k < List.length stack)%nat).
  { subst k.
    pose proof (Z.mod_pos_bound (random_draw w i)
                  (Z.of_nat (List.length stack) - 1 - 0 + 1)).
    lia. }
  destruct (nth_error stack (Z.to_nat k)) as [cam|] eqn:Hnth.
  - exists cam. eexists. reflexivity.
  - apply nth_error_None in Hnth. lia.
Qed.

Lemma render_view_run (i : Z) (cam : Camera) (s : loop_state) :
  exists dbg s',
    @render_view Camera Snapshot Graph dataset opt debug_from i cam s
    = ([Render i cam dbg
          (if random_background opt then RandomColor else bg_color dataset)],
       Returned (tt, s')).
Proof.
  unfold render_view, bind, when, get, emit, modify, ret.
  destruct (i - 1 =? debug_from); eexists; eexists; reflexivity.
Qed.

Lemma geo_loss_run (i : Z) (s : loop_state) :
  geo_loss w i s = (geo_events w i (KNN_index s), Returned (tt, s)).
Proof.
  unfold geo_loss, geo_events, bind, get, when, emit, ret.
  destruct (KNN_index s); [ | reflexivity ].
  destruct (0 <? visibility_sum w i); reflexivity.
Qed.

Lemma when_emit_run (b : bool) (e : event) (s : loop_state) :
  when b (emit e) s = ((if b then [e] else []), Returned (tt, s)).
Proof. destruct b; reflexivity. Qed.

(** The call of [training_report] returns: one event, no exception. *)
Lemma report_run (i : Z) (s : loop_state) :
  report w dataset testing_iterations i s
  = ([TrainingReport i (report_calls w dataset testing_iterations i)],
     Returned (tt, s)).
Proof.
  unfold report, bind, emit, ret.
  destruct (training_report_run (report_env w) (tb_writer w dataset) i
              testing_iterations) as (fifth & _ & E).
  rewrite E. reflexivity.
Qed.

Lemma log_and_save_run (i : Z) (s : loop_state) :
  log_and_save w dataset opt testing_iterations saving_iterations i s
  = (log_events w dataset opt testing_iterations saving_iterations i,
     Returned (tt, s)).
Proof.
  unfold log_and_save, log_events.
  eapply bind_returned; [ apply when_emit_run | ].
  eapply bind_returned; [ apply when_emit_run | ].
  eapply (bind_returned _ _ s [_] tt s); [ apply report_run | ].
  eapply bind_returned; apply when_emit_run.
Qed.

Lemma densification_run (i : Z) (s : loop_state) :
  densification_interval opt <> 0 ->
  opacity_reset_interval opt <> 0 ->
  exists c s',
    densification w dataset opt num_max i s
    = (densification_events dataset opt num_max i, Returned (c, s')).
Proof.
  intros Hd Hr.
  apply Z.eqb_neq in Hd. apply Z.eqb_neq in Hr.
  unfold densification, densification_events, densify, densify_events,
    opacity_reset, reset_events, rebuild_graph, py_mod,
    bind, when, emit, modify, ret.
  rewrite Hd, Hr.
  destruct (i <? densify_until_iter opt).
  - destruct (densify_from_iter opt <? i); cbn;
      [ destruct (i mod densification_interval opt =? 0); cbn | ];
      destruct ((i mod opacity_reset_interval opt =? 0)
                || white_background dataset && (i =? densify_from_iter opt));
      eexists; eexists; reflexivity.
  - destruct (densify_until_iter opt <? i); [ | eexists; eexists; reflexivity ].
    destruct (i mod 3000 =? 0); eexists; eexists; reflexivity.
Qed.

Lemma log_cumulative_run (i : Z) (c : Z * Z) (s : loop_state) :
  exists c' s', log_cumulative w i c s = (cum_events w i c', Returned (tt, s')).
Proof.
  unfold log_cumulative, cum_events, bind, when, get, modify, emit, ret.
  destruct (WANDB_FOUND w).
  - exists (cum_deleted s + snd c, cum_created s + fst c). eexists. reflexivity.
  - exists c. eexists. reflexivity.
Qed.

Lemma optimizer_step_run (i : Z) (s : loop_state) :
  @optimizer_step Camera Snapshot Graph opt i s
  = (optimizer_events opt i, Returned (tt, s)).
Proof.
  unfold optimizer_step, optimizer_events, bind, when, emit, ret.
  destruct (i <? iterations opt); reflexivity.
Qed.

Lemma save_checkpoint_run (i : Z) (s : loop_state) :
  save_checkpoint w dataset checkpoint_iterations i s
  = (checkpoint_events w dataset checkpoint_iterations i, Returned (tt, s)).
Proof.
  unfold save_checkpoint, checkpoint_events, when, emit, ret.
  destruct (py_in i checkpoint_iterations); reflexivity.
Qed.

(** One pass. *)
Lemma body_run (i : Z) (s : loop_state) :
  well_configured w opt ->
  exists k cam dbg c s',
    body i s = (pass i k cam dbg c, Returned (tt, s')).
Proof.
  intros (Hcams & Hd & Hr).
  destruct (pick_camera_run i s Hcams) as (cam & s1 & E1).
  destruct (render_view_run i cam s1) as (dbg & s2 & E2).
  destruct (densification_run i s2 Hd Hr) as (c & s3 & E3).
  destruct (log_cumulative_run i c s3) as (c' & s4 & E4).
  exists (KNN_index s2), cam, dbg, c', s4.
  unfold iteration_body.
  change (pass i (KNN_index s2) cam dbg c')
    with (schedule_events i
            ++ [] ++ [Render i cam dbg
                        (if random_background opt then RandomColor
                         else bg_color dataset)]
            ++ geo_events w i (KNN_index s2) ++ [Backward i]
            ++ log_events w dataset opt testing_iterations saving_iterations i
            ++ densification_events dataset opt num_max i
            ++ cum_events w i c' ++ optimizer_events opt i
            ++ checkpoint_events w dataset checkpoint_iterations i).
  eapply bind_returned; [ apply schedule_run | ].
  eapply bind_returned; [ exact E1 | ].
  eapply bind_returned; [ exact E2 | ].
  eapply bind_returned; [ apply geo_loss_run | ].
  eapply bind_returned; [ reflexivity | ].
  eapply bind_returned; [ apply log_and_save_run | ].
  eapply bind_returned; [ exact E3 | ].
  eapply bind_returned; [ exact E4 | ].
  eapply bind_returned; [ apply optimizer_step_run | ].
  apply save_checkpoint_run.
Qed.

(** The loop. *)
Lemma for_each_run (its : list Z) :
  well_configured w opt ->
  forall s, exists t s',
    for_each its body s = (t, Returned (tt, s')) /\ passes_of its t.
Proof.
  intros Hw. induction its as [|i its IH]; intros s.
  - exists [], s. split; [ reflexivity | constructor ].
  - destruct (body_run i s Hw) as (k & cam & dbg & c & s1 & E1).
    destruct (IH s1) as (t & s' & E & Ht).
    exists (pass i k cam dbg c ++ t), s'. split.
    + cbn [for_each]. eapply bind_returned; eassumption.
    + constructor. exact Ht.
Qed.

(** The run. *)
Lemma training_run :
  well_configured w opt ->
  exists t,
    training w dataset opt pipe testing_iterations saving_iterations
      checkpoint_iterations checkpoint debug_from sparse_num num_max
    = (setup_events w dataset checkpoint sparse_num ++ t, Returned tt)
    /\ passes_of (loop_iterations w opt checkpoint) t.
Proof.
  intros Hw.
  destruct (for_each_run (loop_iterations w opt checkpoint) Hw
              (initial_state pipe)) as (t & s' & E & Ht).
  exists t. split; [ | exact Ht ].
  unfold training. rewrite E. reflexivity.
Qed.

End Passes.

(** Splits a goal [Forall P l] along the pieces of [l], down to its events. *)
Ltac forall_pieces :=
  repeat first
    [ apply Forall_nil
    | apply Forall_cons
    | apply Forall_app; split
    | match goal with
      | |- Forall _ (if ?c then _ else _) => destruct c
      | |- Forall _ (match ?k with _ => _ end) => destruct k
      end ].

Ltac unfold_pass :=
  unfold pass_events, tail_events, schedule_events, geo_events, log_events,
    densification_events, densify_events, reset_events, cum_events,
    optimizer_events, checkpoint_events.

Ltac unfold_pass_in H :=
  unfold pass_events, tail_events, schedule_events, geo_events, log_events,
    densification_events, densify_events, reset_events, cum_events,
    optimizer_events, checkpoint_events in H.

Section EventsOfAnIteration.

Context {Camera Snapshot Graph : Type}.
Local Abbreviation event := (@event Camera Snapshot Graph).

Variable w : @World Camera Snapshot Graph.
Variable dataset : ModelParams.
Variable opt : OptimizationParams.
Variable pipe : PipelineParams.
Variables testing_iterations saving_iterations checkpoint_iterations : list Z.
Variable checkpoint : option pystr.
Variable debug_from : Z.
Variable sparse_num : Z.
Variable num_max : option Z.

Local Abbreviation pass :=
  (pass_events w dataset opt testing_iterations saving_iterations
     checkpoint_iterations num_max).
Local Abbreviation passes_of :=
  (loop_trace w dataset opt testing_iterations saving_iterations
     checkpoint_iterations num_max).
Local Abbreviation run :=
  (trace w dataset opt pipe testing_iterations saving_iterations
     checkpoint_iterations checkpoint debug_from sparse_num num_max).
Local Abbreviation passes := (loop_iterations w opt checkpoint).

Lemma py_range_In (a b i : Z) : In i (py_range a b) <-> a <= i < b.
Proof.
  unfold py_range. rewrite in_map_iff. split.
  - intros (k & <- & Hk). apply in_seq in Hk. lia.
  - intros H. exists (Z.to_nat (i - a)). split; [ lia | ].
    apply in_seq. lia.
Qed.

Lemma py_range_NoDup (a b : Z) : NoDup (py_range a b).
Proof.
  unfold py_range. apply NoDup_map_NoDup_ForallPairs.
  - intros x y _ _ H. lia.
  - apply seq_NoDup.
Qed.

Lemma passes_In (i : Z) :
  In i passes <-> first_iter w checkpoint < i <= iterations opt.
Proof.
  unfold loop_iterations. rewrite py_range_In. lia.
Qed.

Lemma events_at_app (i : Z) (l1 l2 : list event) :
  events_at i (l1 ++ l2) = events_at i l1 ++ events_at i l2.
Proof. apply filter_app. Qed.

Lemma events_at_tagged (i j : Z) (l : list event) :
  Forall (fun e => event_iteration e = Some j) l ->
  events_at i l = if j =? i then l else [].
Proof.
  induction 1 as [|e l He _ IH]; simpl.
  - now destruct (j =? i).
  - unfold at_iteration. rewrite He, IH.
    now destruct (j =? i).
Qed.

Lemma events_at_In (i : Z) (e : event) (t : list event) :
  event_iteration e = Some i -> In e t -> In e (events_at i t).
Proof.
  intros He Hin. apply filter_In. split; [ exact Hin | ].
  unfold at_iteration. rewrite He. apply Z.eqb_refl.
Qed.

Lemma events_at_incl (i : Z) (e : event) (t : list event) :
  In e (events_at i t) -> In e t.
Proof. intros H. apply filter_In in H. tauto. Qed.

Lemma pass_tagged (i : Z) k cam dbg c :
  Forall (fun e => event_iteration e = Some i) (pass i k cam dbg c).
Proof.
  unfold_pass. forall_pieces; reflexivity.
Qed.

Lemma events_at_setup (i : Z) :
  events_at i (setup_events w dataset checkpoint sparse_num) = [].
Proof.
  unfold setup_events. destruct (start_checkpoint checkpoint); reflexivity.
Qed.

Lemma events_at_skipped (i : Z) (its : list Z) (t : list event) :
  passes_of its t -> ~ In i its -> events_at i t = [].
Proof.
  induction 1 as [|j its k cam dbg c t _ IH]; intros Hi.
  - reflexivity.
  - rewrite events_at_app, (events_at_tagged i j _ (pass_tagged j k cam dbg c)).
    destruct (Z.eqb_spec j i) as [->|Hne].
    + exfalso. apply Hi. now left.
    + simpl. apply IH. intros Hin. apply Hi. now right.
Qed.

Lemma events_at_loop (i : Z) (its : list Z) (t : list event) :
  passes_of its t -> NoDup its -> In i its ->
  exists k cam dbg c, events_at i t = pass i k cam dbg c.
Proof.
  induction 1 as [|j its k cam dbg c t Ht IH]; intros Hnd Hi.
  - destruct Hi.
  - inversion Hnd as [|? ? Hj Hnd']; subst.
    rewrite events_at_app, (events_at_tagged i j _ (pass_tagged j k cam dbg c)).
    destruct (Z.eqb_spec j i) as [->|Hne].
    + exists k, cam, dbg, c.
      rewrite (events_at_skipped i its t Ht Hj). apply app_nil_r.
    + destruct Hi as [Hi|Hi]; [ contradiction | ].
      simpl. apply IH; assumption.
Qed.

(** In a well configured run, the events of an iteration of the loop are
    one whole pass. *)
Lemma events_at_run (i : Z) :
  well_configured w opt -> In i passes ->
  exists k cam dbg c, events_at i run = pass i k cam dbg c.
Proof.
  intros Hw Hi.
  destruct (training_run w dataset opt pipe testing_iterations
              saving_iterations checkpoint_iterations checkpoint debug_from
              sparse_num num_max Hw) as (t & E & Ht).
  unfold trace. rewrite E. cbn [fst].
  rewrite events_at_app, events_at_setup. cbn [app].
  apply (events_at_loop i _ t Ht); [ apply py_range_NoDup | exact Hi ].
Qed.

Lemma events_at_run_skipped (i : Z) :
  well_configured w opt -> ~ In i passes -> events_at i run = [].
Proof.
  intros Hw Hi.
  destruct (training_run w dataset opt pipe testing_iterations
              saving_iterations checkpoint_iterations checkpoint debug_from
              sparse_num num_max Hw) as (t & E & Ht).
  unfold trace. rewrite E. cbn [fst].
  rewrite events_at_app, events_at_setup. cbn [app].
  apply (events_at_skipped i _ t Ht Hi).
Qed.

(** Where a list has one element of a kind, it splits there in one way. *)
Lemma split_unique (p : event -> bool) (P Q : list event) (x y : event) :
  p x = true -> p y = true ->
  Forall (fun e => p e = false) P ->
  Forall (fun e => p e = false) Q ->
  forall a b, P ++ x :: Q = a ++ y :: b -> a = P /\ b = Q.
Proof.
  intros Hx Hy HP HQ.
  induction HP as [|z P Hz HP IH]; intros a b E.
  - destruct a as [|z a].
    + simpl in E. inversion E. auto.
    + simpl in E. inversion E; subst.
      rewrite Forall_forall in HQ.
      specialize (HQ y (in_elt y a b)). congruence.
  - destruct a as [|z' a].
    + simpl in E. inversion E; subst. congruence.
    + simpl in E. inversion E; subst.
      destruct (IH a b H1) as [-> ->]. auto.
Qed.

(** A well configured run returns. *)
Lemma training_returns :
  well_configured w opt ->
  snd (training w dataset opt pipe testing_iterations saving_iterations
         checkpoint_iterations checkpoint debug_from sparse_num num_max)
  = Returned tt.
Proof.
  intros Hw.
  destruct (training_run w dataset opt pipe testing_iterations
              saving_iterations checkpoint_iterations checkpoint debug_from
              sparse_num num_max Hw) as (t & E & _).
  now rewrite E.
Qed.

End EventsOfAnIteration.

(** * The claims *)

Section GraphClaims.

Context {Camera Snapshot Graph : Type}.
Local Abbreviation event := (@event Camera Snapshot Graph).

Variable w : @World Camera Snapshot Graph.
Variable dataset : ModelParams.
Variable opt : OptimizationParams.
Variable pipe : PipelineParams.
Variables testing_iterations saving_iterations checkpoint_iterations : list Z.
Variable checkpoint : option pystr.
Variable debug_from : Z.
Variable sparse_num : Z.
Variable num_max : option Z.

Local Abbreviation run :=
  (trace w dataset opt pipe testing_iterations saving_iterations
     checkpoint_iterations checkpoint debug_from sparse_num num_max).

(** C5.  The neighbour graph is never used stale.  At every position of the
    trace of a run, however the run ends: a [densify_and_prune] call is
    followed at once by [findKNN], before anything else happens; and the
    geometric term indexes the graph returned by the latest [findKNN], with
    no [densify_and_prune] between that rebuild and the use, so the
    population still has the layout the graph was built from. *)
Theorem graph_never_used_stale (pre post : list event) (e : event) :
  trace w dataset opt pipe testing_iterations saving_iterations
    checkpoint_iterations checkpoint debug_from sparse_num num_max
  = pre ++ e :: post ->
  match e with
  | DensifyAndPrune i _ _ => exists post', post = FindKNN i :: post'
  | SurfaceAlign _ g =>
      exists j, graph_status_after pre = Fresh j /\ g = findKNN w j
  | _ => True
  end.
Proof.
  intros Hrun.
  pose proof (run_discipline w dataset opt pipe testing_iterations
                saving_iterations checkpoint_iterations checkpoint
                debug_from sparse_num num_max) as H.
  rewrite Hrun in H.
  destruct e; try exact I.
  - apply discipline_at_use in H. tauto.
  - apply discipline_at_densify in H. exact H.
Qed.

(** C7.  Every [densify_and_prune] call of a run gets [None] as its size
    threshold when its iteration is at most [opacity_reset_interval], and
    the fixed value 20 when its iteration is past it. *)
Theorem size_threshold_switch (i : Z) (st nm : option Z) :
  In (DensifyAndPrune i st nm)
    (trace w dataset opt pipe testing_iterations saving_iterations
       checkpoint_iterations checkpoint debug_from sparse_num num_max) ->
  (i <= opacity_reset_interval opt -> st = None)
  /\ (opacity_reset_interval opt < i -> st = Some 20).
Proof.
  intros Hin.
  assert (H : Forall
                (fun e : event =>
                   match e with
                   | DensifyAndPrune j st _ =>
                       st = if opacity_reset_interval opt <? j
                            then Some 20 else None
                   | _ => True
                   end) run).
  { apply run_emits_only.
    - unfold setup_events.
      destruct (start_checkpoint checkpoint); repeat constructor.
    - intros j _. apply body_size_threshold. }
  rewrite Forall_forall in H. specialize (H _ Hin). cbv beta iota in H.
  destruct (Z.ltb_spec (opacity_reset_interval opt) i); subst st;
    split; intros; (reflexivity || lia).
Qed.

(** C10, amended.  The geometric term is added to the loss only after a
    first rebuild of the neighbour graph, whichever call of [findKNN] made
    it (the one that follows [densify_and_prune], or the refresh after the
    window), and only at an iteration whose render sees a primitive. *)
Theorem geo_term_after_first_rebuild (pre post : list event) (i : Z) (g : Graph) :
  trace w dataset opt pipe testing_iterations saving_iterations
    checkpoint_iterations checkpoint debug_from sparse_num num_max
  = pre ++ SurfaceAlign i g :: post ->
  (exists j, In (FindKNN j) pre) /\ 0 < visibility_sum w i.
Proof.
  intros Hrun.
  pose proof (run_discipline w dataset opt pipe testing_iterations
                saving_iterations checkpoint_iterations checkpoint
                debug_from sparse_num num_max) as H.
  rewrite Hrun in H. apply discipline_at_use in H.
  destruct H as ((j & Hj & _) & Hvis). split; [ | exact Hvis ].
  exists j. apply fresh_was_built in Hj.
  destruct Hj as [Hj|Hj]; [ discriminate | exact Hj ].
Qed.

End GraphClaims.

(** Turns boolean tests among the hypotheses into arithmetic. *)
Ltac bools :=
  repeat match goal with
    | H : (_ && _) = true |- _ => apply andb_prop in H; destruct H
    | H : (_ || _) = true |- _ => apply orb_prop in H; destruct H
    | H : (_ && _) = false |- _ => apply andb_false_iff in H; destruct H
    | H : (_ || _) = false |- _ => apply orb_false_iff in H; destruct H
    | H : (_ <? _) = true |- _ => apply Z.ltb_lt in H
    | H : (_ <? _) = false |- _ => apply Z.ltb_ge in H
    | H : (_ =? _) = true |- _ => apply Z.eqb_eq in H
    | H : (_ =? _) = false |- _ => apply Z.eqb_neq in H
    end.

(** Follows a hypothesis [In e l] through the pieces of [l]; what is left
    are the places where [e] can be. *)
Ltac in_pieces :=
  repeat match goal with
    | H : In _ (_ ++ _) |- _ => apply in_app_or in H; destruct H as [H|H]
    | H : In _ (_ :: _) |- _ =>
        apply in_inv in H; destruct H as [H|H]; [ try discriminate H | ]
    | H : In _ [] |- _ => destruct H
    | H : In _ (if ?c then _ else _) |- _ => destruct c eqn:?
    | H : In _ (match ?k with _ => _ end) |- _ => destruct k
    end.

Section ScheduleClaims.

Context {Camera Snapshot Graph : Type}.
Local Abbreviation event := (@event Camera Snapshot Graph).

Variable w : @World Camera Snapshot Graph.
Variable dataset : ModelParams.
Variable opt : OptimizationParams.
Variable pipe : PipelineParams.
Variables testing_iterations saving_iterations checkpoint_iterations : list Z.
Variable checkpoint : option pystr.
Variable debug_from : Z.
Variable sparse_num : Z.
Variable num_max : option Z.

Local Abbreviation pass :=
  (pass_events w dataset opt testing_iterations saving_iterations
     checkpoint_iterations num_max).
Local Abbreviation run :=
  (trace w dataset opt pipe testing_iterations saving_iterations
     checkpoint_iterations checkpoint debug_from sparse_num num_max).
Local Abbreviation passes := (loop_iterations w opt checkpoint).
Local Abbreviation events_at_run' :=
  (events_at_run w dataset opt pipe testing_iterations saving_iterations
     checkpoint_iterations checkpoint debug_from sparse_num num_max).

(** What the densification block of a pass emits is in the pass. *)
Lemma densification_in_pass (e : event) (i : Z) k cam dbg c :
  In e (densification_events dataset opt num_max i) ->
  In e (pass i k cam dbg c).
Proof.
  intros H. unfold pass_events, tail_events.
  rewrite !in_app_iff. simpl. rewrite !in_app_iff. simpl.
  rewrite !in_app_iff. tauto.
Qed.

Lemma optimizer_in_pass (e : event) (i : Z) k cam dbg c :
  In e (optimizer_events opt i) -> In e (pass i k cam dbg c).
Proof.
  intros H. unfold pass_events, tail_events.
  rewrite !in_app_iff. simpl. rewrite !in_app_iff. simpl.
  rewrite !in_app_iff. tauto.
Qed.

Lemma checkpoint_in_pass (e : event) (i : Z) k cam dbg c :
  In e (checkpoint_events w dataset checkpoint_iterations i) ->
  In e (pass i k cam dbg c).
Proof.
  intros H. unfold pass_events, tail_events.
  rewrite !in_app_iff. simpl. rewrite !in_app_iff. simpl.
  rewrite !in_app_iff. tauto.
Qed.

(** An event of iteration [i] is in the run when it is in the pass. *)
Lemma in_run_iff (e : event) (i : Z) :
  well_configured w opt -> In i passes -> event_iteration e = Some i ->
  exists k cam dbg c, (In e run <-> In e (pass i k cam dbg c)).
Proof.
  intros Hw Hi He.
  destruct (events_at_run' i Hw Hi) as (k & cam & dbg & c & E).
  exists k, cam, dbg, c. rewrite <- E. split.
  - apply events_at_In. exact He.
  - apply events_at_incl.
Qed.

(** C1, amended.  In every iteration below [densify_until_iter] the
    statistics are updated once (the running maximum of the radii, then
    [add_densification_stats]), after the backward pass and before any
    [densify_and_prune] of the iteration; from [densify_until_iter] on they
    are not updated. *)
Theorem stats_update_until_window_end (i : Z) :
  well_configured w opt -> In i passes ->
  (i < densify_until_iter opt -> stats_update_once i run)
  /\ (densify_until_iter opt <= i ->
      ~ In (MaxRadiiUpdate i) run /\ ~ In (AddDensificationStats i) run).
Proof.
  intros Hw Hi. split.
  - intros Hlt.
    destruct (events_at_run' i Hw Hi) as (k & cam & dbg & c & E).
    exists (schedule_events i
              ++ Render i cam dbg
                   (if random_background opt then RandomColor
                    else bg_color dataset)
              :: geo_events w i k),
      (log_events w dataset opt testing_iterations saving_iterations i),
      (densify_events opt num_max i ++ reset_events dataset opt i
         ++ cum_events w i c ++ optimizer_events opt i
         ++ checkpoint_events w dataset checkpoint_iterations i).
    split; [ | split ].
    + rewrite E. unfold pass_events, tail_events, densification_events.
      apply Z.ltb_lt in Hlt. rewrite Hlt.
      repeat (rewrite <- app_assoc || cbn [app]). reflexivity.
    + unfold schedule_events, geo_events, log_events.
      forall_pieces; split; reflexivity.
    + unfold densify_events, reset_events, cum_events, optimizer_events,
        checkpoint_events.
      forall_pieces; reflexivity.
  - intros Hge.
    destruct (in_run_iff (MaxRadiiUpdate i) i Hw Hi eq_refl)
      as (k & cam & dbg & c & H1).
    destruct (in_run_iff (AddDensificationStats i) i Hw Hi eq_refl)
      as (k' & cam' & dbg' & c' & H2).
    rewrite H1, H2.
    split; intros H; unfold_pass_in H; in_pieces; bools; lia.
Qed.

(** C2, amended.  [densify_and_prune] is called at an iteration exactly
    when the iteration is strictly between [densify_from_iter] and
    [densify_until_iter] and is a multiple of [densification_interval]; at
    [densify_from_iter] itself it is not called. *)
Theorem densify_inside_open_window (i : Z) :
  well_configured w opt -> In i passes ->
  ((exists st nm, In (DensifyAndPrune i st nm) run)
   <-> (densify_from_iter opt < i < densify_until_iter opt
        /\ i mod densification_interval opt = 0)).
Proof.
  intros Hw Hi. split.
  - intros (st & nm & H).
    destruct (in_run_iff (DensifyAndPrune i st nm) i Hw Hi eq_refl)
      as (k & cam & dbg & c & H1).
    apply H1 in H. unfold_pass_in H. in_pieces; bools; lia.
  - intros ((Hfrom & Huntil) & Hmod).
    exists (if opacity_reset_interval opt <? i then Some 20 else None), num_max.
    destruct (in_run_iff
                (DensifyAndPrune i
                   (if opacity_reset_interval opt <? i then Some 20 else None)
                   num_max) i Hw Hi eq_refl)
      as (k & cam & dbg & c & H1).
    apply H1. apply densification_in_pass.
    unfold densification_events, densify_events.
    apply Z.ltb_lt in Hfrom, Huntil. apply Z.eqb_eq in Hmod.
    rewrite Hfrom, Huntil, Hmod. simpl. auto.
Qed.

(** C3, amended.  [reset_opacity] is called at an iteration exactly when
    the iteration is below [densify_until_iter] and either is a multiple of
    [opacity_reset_interval] or, on a white background, equals
    [densify_from_iter]. *)
Theorem reset_opacity_until_window_end (i : Z) :
  well_configured w opt -> In i passes ->
  (In (ResetOpacity i) run
   <-> (i < densify_until_iter opt
        /\ (i mod opacity_reset_interval opt = 0
            \/ (white_background dataset = true
                /\ i = densify_from_iter opt)))).
Proof.
  intros Hw Hi.
  destruct (in_run_iff (ResetOpacity i) i Hw Hi eq_refl)
    as (k & cam & dbg & c & H1).
  rewrite H1. split.
  - intros H. unfold_pass_in H. in_pieces; bools; auto.
  - intros (Huntil & Hwhy). apply densification_in_pass.
    unfold densification_events, reset_events.
    apply Z.ltb_lt in Huntil. rewrite Huntil.
    assert (Hc : (i mod opacity_reset_interval opt =? 0)
                 || white_background dataset && (i =? densify_from_iter opt)
                 = true).
    { apply orb_true_iff. destruct Hwhy as [Hm|(Hwb & Hfrom)].
      - left. now apply Z.eqb_eq.
      - right. rewrite Hwb. now apply Z.eqb_eq. }
    rewrite Hc. right. right. apply in_or_app. right. now left.
Qed.

(** Where a pass calls [densify_and_prune], and with what. *)
Lemma densify_in_pass_inv (i : Z) st nm k cam dbg c :
  In (DensifyAndPrune i st nm) (pass i k cam dbg c) ->
  (i <? densify_until_iter opt) = true
  /\ (densify_from_iter opt <? i)
     && (i mod densification_interval opt =? 0) = true
  /\ st = (if opacity_reset_interval opt <? i then Some 20 else None)
  /\ nm = num_max.
Proof.
  intros H. unfold_pass_in H. in_pieces.
  inversion H. auto.
Qed.

(** C4, amended.  In every iteration before the last one,
    [optimizer.step()] and [zero_grad()] are called once, one after the
    other, after every call of the iteration that changes the population;
    in the last iteration they are not called. *)
Theorem optimizer_steps_before_last (i : Z) :
  well_configured w opt -> In i passes ->
  (i < iterations opt -> optimizer_step_once i run)
  /\ (i = iterations opt ->
      ~ In (OptimizerStep i) run /\ ~ In (ZeroGrad i) run).
Proof.
  intros Hw Hi. split.
  - intros Hlt.
    destruct (events_at_run' i Hw Hi) as (k & cam & dbg & c & E).
    exists (schedule_events i
              ++ Render i cam dbg
                   (if random_background opt then RandomColor
                    else bg_color dataset)
              :: geo_events w i k
              ++ Backward i
              :: log_events w dataset opt testing_iterations saving_iterations i
              ++ densification_events dataset opt num_max i
              ++ cum_events w i c),
      (checkpoint_events w dataset checkpoint_iterations i).
    split; [ | split ].
    + rewrite E. unfold pass_events, tail_events, optimizer_events.
      apply Z.ltb_lt in Hlt. rewrite Hlt.
      repeat (rewrite <- app_assoc || cbn [app]). reflexivity.
    + unfold schedule_events, geo_events, log_events, densification_events,
        densify_events, reset_events, cum_events.
      forall_pieces; reflexivity.
    + unfold checkpoint_events. forall_pieces; split; reflexivity.
  - intros Hlast.
    destruct (in_run_iff (OptimizerStep i) i Hw Hi eq_refl)
      as (k & cam & dbg & c & H1).
    destruct (in_run_iff (ZeroGrad i) i Hw Hi eq_refl)
      as (k' & cam' & dbg' & c' & H2).
    rewrite H1, H2.
    split; intros H; unfold_pass_in H; in_pieces; bools; lia.
Qed.

(** C6.  In an iteration that calls [densify_and_prune], the optimizer has
    not stepped yet when the call is made: no [optimizer.step()] or
    [zero_grad()] of the iteration comes before the call, and when the
    iteration steps at all (it is not the last one) the step comes after
    the call. *)
Theorem mutation_before_optimizer_step (i : Z) (st nm : option Z)
        (l1 l2 : list event) :
  well_configured w opt ->
  run = l1 ++ DensifyAndPrune i st nm :: l2 ->
  ~ In (OptimizerStep i) l1 /\ ~ In (ZeroGrad i) l1
  /\ (i < iterations opt -> In (OptimizerStep i) l2 /\ In (ZeroGrad i) l2).
Proof.
  intros Hw Hrun.
  assert (Hin : In (DensifyAndPrune i st nm) (events_at i run)).
  { apply events_at_In; [ reflexivity | ].
    rewrite Hrun. apply in_elt. }
  assert (Hi : In i passes).
  { destruct (in_dec Z.eq_dec i passes) as [Hi|Hi]; [ exact Hi | exfalso ].
    rewrite (events_at_run_skipped w dataset opt pipe testing_iterations
               saving_iterations checkpoint_iterations checkpoint debug_from
               sparse_num num_max i Hw Hi) in Hin.
    destruct Hin. }
  destruct (events_at_run' i Hw Hi) as (k & cam & dbg & c & E).
  rewrite E in Hin.
  destruct (densify_in_pass_inv _ _ _ _ _ _ _ Hin) as (Hu & Hd & -> & ->).
  assert (Hsplit : events_at i run
                   = events_at i l1
                       ++ DensifyAndPrune i
                            (if opacity_reset_interval opt <? i
                             then Some 20 else None) num_max
                       :: events_at i l2).
  { rewrite Hrun at 1. rewrite events_at_app. f_equal.
    unfold events_at. cbn [filter at_iteration event_iteration].
    now rewrite Z.eqb_refl. }
  rewrite E in Hsplit.
  unfold pass_events, tail_events, densification_events, densify_events
    in Hsplit.
  rewrite Hu, Hd in Hsplit.
  assert (Hshape :
            (schedule_events i
               ++ Render i cam dbg
                    (if random_background opt then RandomColor
                     else bg_color dataset)
               :: geo_events w i k
               ++ Backward i
               :: log_events w dataset opt testing_iterations
                    saving_iterations i
               ++ [MaxRadiiUpdate i; AddDensificationStats i])
            ++ DensifyAndPrune i
                 (if opacity_reset_interval opt <? i then Some 20 else None)
                 num_max
            :: (FindKNN i
                  :: reset_events dataset opt i ++ cum_events w i c
                  ++ optimizer_events opt i
                  ++ checkpoint_events w dataset checkpoint_iterations i)
            = events_at i l1
                ++ DensifyAndPrune i
                     (if opacity_reset_interval opt <? i then Some 20 else None)
                     num_max
                :: events_at i l2).
  { rewrite <- Hsplit.
    repeat (rewrite <- app_assoc || cbn [app]). reflexivity. }
  apply (split_unique is_densify_and_prune) in Hshape;
    [ | reflexivity | reflexivity
      | unfold schedule_events, geo_events, log_events;
        forall_pieces; reflexivity
      | unfold reset_events, cum_events, optimizer_events, checkpoint_events;
        forall_pieces; reflexivity ].
  destruct Hshape as [H1 H2].
  split; [ | split ].
  - intros H. apply (events_at_In i) in H; [ | reflexivity ].
    rewrite H1 in H. unfold schedule_events, geo_events, log_events in H.
    in_pieces.
  - intros H. apply (events_at_In i) in H; [ | reflexivity ].
    rewrite H1 in H. unfold schedule_events, geo_events, log_events in H.
    in_pieces.
  - intros Hlt. apply Z.ltb_lt in Hlt.
    split; apply (events_at_incl i); rewrite H2;
      unfold optimizer_events; rewrite Hlt;
      right; rewrite !in_app_iff; simpl; tauto.
Qed.


End ScheduleClaims.

Section CheckpointClaims.

Context {Camera Snapshot Graph : Type}.
Local Abbreviation event := (@event Camera Snapshot Graph).
Local Abbreviation World := (@World Camera Snapshot Graph).

Variable dataset : ModelParams.
Variable opt : OptimizationParams.
Variable pipe : PipelineParams.
Variables testing_iterations saving_iterations checkpoint_iterations : list Z.
Variable debug_from : Z.
Variable sparse_num : Z.
Variable num_max : option Z.

Local Abbreviation run_of w checkpoint :=
  (trace w dataset opt pipe testing_iterations saving_iterations
     checkpoint_iterations checkpoint debug_from sparse_num num_max).

Lemma py_in_true (x : Z) (l : list Z) : py_in x l = true <-> In x l.
Proof.
  unfold py_in. rewrite existsb_exists. split.
  - intros (y & Hy & E). apply Z.eqb_eq in E. now subst.
  - intros H. exists x. split; [ exact H | apply Z.eqb_refl ].
Qed.

Lemma py_range_cons (a b : Z) :
  a < b -> py_range a b = a :: py_range (a + 1) b.
Proof.
  intros H. unfold py_range.
  replace (Z.to_nat (b - a)) with (S (Z.to_nat (b - (a + 1)))) by lia.
  cbn [seq map]. f_equal; [ lia | ].
  rewrite <- seq_shift, map_map. apply map_ext. intros n. lia.
Qed.

Lemma py_range_snoc (a b : Z) :
  a < b -> py_range a b = py_range a (b - 1) ++ [b - 1].
Proof.
  intros H. unfold py_range.
  replace (Z.to_nat (b - a)) with (S (Z.to_nat (b - 1 - a))) by lia.
  rewrite seq_S, map_app. cbn [map]. do 2 f_equal. lia.
Qed.

(** The path of a checkpoint file is not the empty string. *)
Lemma start_checkpoint_path (path : pystr) (k : Z) :
  start_checkpoint (Some (chkpnt_path path k)) = Some (chkpnt_path path k).
Proof.
  unfold start_checkpoint, chkpnt_path.
  destruct path; reflexivity.
Qed.

Lemma executed_iterations_app (l1 l2 : list event) :
  executed_iterations (l1 ++ l2)
  = executed_iterations l1 ++ executed_iterations l2.
Proof. apply flat_map_app. Qed.

Lemma executed_iterations_none (l : list event) :
  Forall (fun e => match e with UpdateLearningRate _ => False | _ => True end) l ->
  executed_iterations l = [].
Proof.
  induction 1 as [|e l He _ IH]; [ reflexivity | ].
  destruct e; simpl in *; (contradiction || exact IH).
Qed.

Lemma executed_iterations_pass (w : World) (i : Z) k cam dbg c :
  executed_iterations
    (pass_events w dataset opt testing_iterations saving_iterations
       checkpoint_iterations num_max i k cam dbg c)
  = [i].
Proof.
  unfold pass_events, schedule_events.
  cbn [app executed_iterations flat_map]. f_equal.
  apply executed_iterations_none.
  unfold tail_events, geo_events, log_events, densification_events,
    densify_events, reset_events, cum_events, optimizer_events,
    checkpoint_events.
  forall_pieces; exact I.
Qed.

Lemma executed_iterations_loop (w : World) (its : list Z) (t : list event) :
  loop_trace w dataset opt testing_iterations saving_iterations
    checkpoint_iterations num_max its t ->
  executed_iterations t = its.
Proof.
  induction 1 as [|i its k cam dbg c t _ IH]; [ reflexivity | ].
  rewrite executed_iterations_app, executed_iterations_pass, IH.
  reflexivity.
Qed.

(** A well configured run goes through the iterations of the loop, all of
    them and in order. *)
Lemma executed_iterations_run (w : World) (checkpoint : option pystr) :
  well_configured w opt ->
  executed_iterations (run_of w checkpoint) = loop_iterations w opt checkpoint.
Proof.
  intros Hw.
  destruct (training_run w dataset opt pipe testing_iterations
              saving_iterations checkpoint_iterations checkpoint debug_from
              sparse_num num_max Hw) as (t & E & Ht).
  unfold trace. rewrite E. cbn [fst].
  rewrite executed_iterations_app, (executed_iterations_loop w _ t Ht).
  unfold setup_events. destruct (start_checkpoint checkpoint); reflexivity.
Qed.

(** What a pass saves as a checkpoint. *)
Lemma body_saves_pair (w : World) (i : Z) :
  emits_only
    (fun e => match e with
              | TorchSave snap j p =>
                  snap = capture w j
                  /\ p = chkpnt_path (scene_model_path w dataset) j
              | _ => True
              end)
    (iteration_body w dataset opt testing_iterations saving_iterations
       checkpoint_iterations debug_from num_max i).
Proof.
  unfold iteration_body, schedule, pick_camera, render_view, geo_loss,
    log_and_save, densification, densify, opacity_reset, rebuild_graph,
    log_cumulative, optimizer_step, save_checkpoint.
  emits; (exact I || (split; reflexivity)).
Qed.

(** C9.  A checkpoint is the pair of [gaussians.capture()] and the
    iteration counter, written to the file named after the iteration in
    the folder of the scene: the model path given, or, when none was given,
    the folder under [./output/] that [prepare_output_and_logger] made up.
    When [torch.load] gives back what a run saved at iteration [k], a run
    started from that file restores the captured model and goes through the
    iterations [k + 1], ..., [opt.iterations], in order: where [k] is not
    the last iteration itself, the first one is [k + 1] and the last one is
    the same configured total. *)
Theorem checkpoint_save_and_resume
        (w0 w : World) (c0 : option pystr) (k : Z) :
  well_configured w0 opt ->
  well_configured w opt ->
  In k (loop_iterations w0 opt c0) ->
  In k checkpoint_iterations ->
  torch_load w (chkpnt_path (scene_model_path w0 dataset) k)
  = (capture w0 k, k) ->
  let saved := run_of w0 c0 in
  let resumed :=
    run_of w (Some (chkpnt_path (scene_model_path w0 dataset) k)) in
  In (TorchSave (capture w0 k) k
        (chkpnt_path (scene_model_path w0 dataset) k)) saved
  /\ (forall snap j p,
         In (TorchSave snap j p) saved ->
         snap = capture w0 j
         /\ p = chkpnt_path (scene_model_path w0 dataset) j)
  /\ scene_model_path w0 dataset
     = (match model_path dataset with
        | [] => os_path_join (py "./output/")
                  (firstn 10 (unique_str (output_env w0)))
        | _ :: _ => model_path dataset
        end)
  /\ In (Restore (capture w0 k)) resumed
  /\ executed_iterations resumed = py_range (k + 1) (iterations opt + 1)
  /\ (k < iterations opt ->
      hd_error (executed_iterations resumed) = Some (k + 1)
      /\ last (executed_iterations resumed) 0 = iterations opt).
Proof.
  intros Hw0 Hw Hk Hchk Hload saved resumed.
  assert (Hexec : executed_iterations resumed
                  = py_range (k + 1) (iterations opt + 1)).
  { unfold resumed. rewrite (executed_iterations_run w _ Hw).
    unfold loop_iterations, first_iter.
    rewrite start_checkpoint_path, Hload. reflexivity. }
  split; [ | split; [ | split; [ | split; [ | split ] ] ] ].
  - destruct (in_run_iff w0 dataset opt pipe testing_iterations
                saving_iterations checkpoint_iterations c0 debug_from
                sparse_num num_max
                (TorchSave (capture w0 k) k
                   (chkpnt_path (scene_model_path w0 dataset) k)) k
                Hw0 Hk eq_refl) as (g & cam & dbg & c & H).
    apply H. apply checkpoint_in_pass. unfold checkpoint_events.
    apply py_in_true in Hchk. rewrite Hchk. now left.
  - intros snap j p Hin.
    assert (H : Forall
                  (fun e : event =>
                     match e with
                     | TorchSave snap j p =>
                         snap = capture w0 j
                         /\ p = chkpnt_path (scene_model_path w0 dataset) j
                     | _ => True
                     end) saved).
    { apply run_emits_only.
      - unfold setup_events.
        destruct (start_checkpoint c0); repeat constructor.
      - intros i _. apply body_saves_pair. }
    rewrite Forall_forall in H. exact (H _ Hin).
  - unfold scene_model_path, prepare_output_and_logger, output_path.
    destruct (TENSORBOARD_FOUND (output_env w0)), (model_path dataset);
      reflexivity.
  - unfold resumed, trace, training.
    destruct (for_each _ _ _) as [t r]. cbn [fst].
    apply in_or_app. left. unfold setup_events.
    rewrite start_checkpoint_path, Hload. simpl. tauto.
  - exact Hexec.
  - intros Hlt. rewrite Hexec. split.
    + rewrite py_range_cons by lia. reflexivity.
    + rewrite py_range_snoc by lia. rewrite last_last. lia.
Qed.

End CheckpointClaims.

(** * The claims on small runs *)

Lemma demo_well_configured (opt : OptimizationParams) :
  densification_interval opt <> 0 ->
  opacity_reset_interval opt <> 0 ->
  well_configured demo_world opt.
Proof. intros Hd Hr. repeat split; [ discriminate | exact Hd | exact Hr ]. Qed.

(** C1 on [demo_opt], at iteration 3. *)
Lemma stats_update_until_window_end_witness :
  well_configured demo_world demo_opt
  /\ In 3 (loop_iterations demo_world demo_opt None)
  /\ stats_update_once 3 (demo_run demo_opt None).
Proof.
  assert (Hw : well_configured demo_world demo_opt)
    by (apply demo_well_configured; discriminate).
  assert (Hi : In 3 (loop_iterations demo_world demo_opt None))
    by (apply py_range_In; cbn; lia).
  split; [ exact Hw | split; [ exact Hi | ] ].
  apply (stats_update_until_window_end demo_world demo_dataset demo_opt
           demo_pipe [] [] [4] None (-1) 1 None 3 Hw Hi).
  reflexivity.
Defined.

(** C1 as the specification has it fails on [late_window_opt]: iteration 6
    is an iteration of the loop, and updates no statistics. *)
Lemma stats_update_skipped_at_window_end :
  ~ spec_stats_every_iteration demo_world demo_dataset late_window_opt
      demo_pipe [] [] [4] None (-1) 1 None.
Proof.
  intros H.
  assert (Hi : In 6 (loop_iterations demo_world late_window_opt None))
    by (apply py_range_In; cbn; lia).
  destruct (H 6 Hi) as (l1 & l2 & l3 & E & _).
  assert (Hin : In (MaxRadiiUpdate 6)
                  (events_at 6 (demo_run late_window_opt None))).
  { rewrite E.
    apply in_or_app. right. right. apply in_or_app. right. now left. }
  vm_compute in Hin. intuition discriminate.
Qed.

(** C2 on [demo_opt], at iteration 4. *)
Lemma densify_inside_open_window_witness :
  well_configured demo_world demo_opt
  /\ In 4 (loop_iterations demo_world demo_opt None)
  /\ ((exists st nm, In (DensifyAndPrune 4 st nm) (demo_run demo_opt None))
      <-> (1 < 4 < 6 /\ 4 mod 2 = 0)).
Proof.
  assert (Hw : well_configured demo_world demo_opt)
    by (apply demo_well_configured; discriminate).
  assert (Hi : In 4 (loop_iterations demo_world demo_opt None))
    by (apply py_range_In; cbn; lia).
  split; [ exact Hw | split; [ exact Hi | ] ].
  exact (densify_inside_open_window demo_world demo_dataset demo_opt
           demo_pipe [] [] [4] None (-1) 1 None 4 Hw Hi).
Defined.

(** C2 as the specification has it fails on [late_window_opt]: iteration 4
    is [densify_from_iter] and a multiple of the interval, and calls no
    [densify_and_prune]. *)
Lemma densify_not_at_window_start :
  ~ spec_densify_closed_window demo_world demo_dataset late_window_opt
      demo_pipe [] [] [4] None (-1) 1 None.
Proof.
  intros H.
  assert (Hi : In 4 (loop_iterations demo_world late_window_opt None))
    by (apply py_range_In; cbn; lia).
  destruct (proj2 (H 4 Hi)) as (st & nm & Hin).
  { cbn. split; [ lia | reflexivity ]. }
  assert (Hnone : forallb (fun e => negb (is_densify_and_prune e))
                    (demo_run late_window_opt None) = true)
    by (vm_compute; reflexivity).
  rewrite forallb_forall in Hnone.
  specialize (Hnone _ Hin). discriminate Hnone.
Qed.

(** C3 on [demo_opt], at iteration 3. *)
Lemma reset_opacity_until_window_end_witness :
  well_configured demo_world demo_opt
  /\ In 3 (loop_iterations demo_world demo_opt None)
  /\ (In (ResetOpacity 3) (demo_run demo_opt None)
      <-> (3 < 6 /\ (3 mod 3 = 0 \/ (false = true /\ 3 = 1)))).
Proof.
  assert (Hw : well_configured demo_world demo_opt)
    by (apply demo_well_configured; discriminate).
  assert (Hi : In 3 (loop_iterations demo_world demo_opt None))
    by (apply py_range_In; cbn; lia).
  split; [ exact Hw | split; [ exact Hi | ] ].
  exact (reset_opacity_until_window_end demo_world demo_dataset demo_opt
           demo_pipe [] [] [4] None (-1) 1 None 3 Hw Hi).
Defined.

(** C3 as the specification has it fails on [late_window_opt]: iteration 3
    resets the opacity, before the window opens and on a black
    background. *)
Lemma reset_opacity_before_window :
  ~ spec_reset_inside_window demo_world demo_dataset late_window_opt
      demo_pipe [] [] [4] None (-1) 1 None.
Proof.
  intros H.
  assert (Hi : In 3 (loop_iterations demo_world late_window_opt None))
    by (apply py_range_In; cbn; lia).
  assert (Hin : In (ResetOpacity 3) (demo_run late_window_opt None)).
  { apply (nth_error_In _ 31). vm_compute. reflexivity. }
  apply (proj1 (H 3 Hi)) in Hin. cbn in Hin.
  destruct Hin as [((Hfrom & _) & _)|(Hwhite & _)]; [ lia | discriminate ].
Qed.

(** C4 on [demo_opt], at iteration 4. *)
Lemma optimizer_steps_before_last_witness :
  well_configured demo_world demo_opt
  /\ In 4 (loop_iterations demo_world demo_opt None)
  /\ optimizer_step_once 4 (demo_run demo_opt None).
Proof.
  assert (Hw : well_configured demo_world demo_opt)
    by (apply demo_well_configured; discriminate).
  assert (Hi : In 4 (loop_iterations demo_world demo_opt None))
    by (apply py_range_In; cbn; lia).
  split; [ exact Hw | split; [ exact Hi | ] ].
  apply (optimizer_steps_before_last demo_world demo_dataset demo_opt
           demo_pipe [] [] [4] None (-1) 1 None 4 Hw Hi).
  reflexivity.
Defined.

(** C4 as the specification has it fails on [late_window_opt]: the last
    iteration, 6, does not step the optimizer. *)
Lemma optimizer_idle_in_last_iteration :
  ~ spec_optimizer_every_iteration demo_world demo_dataset late_window_opt
      demo_pipe [] [] [4] None (-1) 1 None.
Proof.
  intros H.
  assert (Hi : In 6 (loop_iterations demo_world late_window_opt None))
    by (apply py_range_In; cbn; lia).
  destruct (H 6 Hi) as (l1 & l2 & E & _).
  assert (Hin : In (OptimizerStep 6)
                  (events_at 6 (demo_run late_window_opt None))).
  { rewrite E. apply in_or_app. right. now left. }
  vm_compute in Hin. intuition discriminate.
Qed.

(** C5 on [demo_opt]: the geometric term of iteration 5 reads the graph
    built at iteration 4. *)
Lemma graph_never_used_stale_witness :
  demo_run demo_opt None
  = firstn 54 (demo_run demo_opt None)
      ++ SurfaceAlign 5 4 :: skipn 55 (demo_run demo_opt None)
  /\ exists j,
      graph_status_after (firstn 54 (demo_run demo_opt None)) = Fresh j
      /\ 4 = findKNN demo_world j.
Proof.
  assert (E : demo_run demo_opt None
              = firstn 54 (demo_run demo_opt None)
                  ++ SurfaceAlign 5 4 :: skipn 55 (demo_run demo_opt None)).
  { vm_compute. reflexivity. }
  split; [ exact E | ].
  exact (graph_never_used_stale demo_world demo_dataset demo_opt demo_pipe
           [] [] [4] None (-1) 1 None _ _ _ E).
Defined.

(** C6 on [demo_opt]: the [densify_and_prune] of iteration 4. *)
Lemma mutation_before_optimizer_step_witness :
  well_configured demo_world demo_opt
  /\ demo_run demo_opt None
     = firstn 46 (demo_run demo_opt None)
         ++ DensifyAndPrune 4 (Some 20) None
         :: skipn 47 (demo_run demo_opt None)
  /\ ~ In (OptimizerStep 4) (firstn 46 (demo_run demo_opt None))
  /\ ~ In (ZeroGrad 4) (firstn 46 (demo_run demo_opt None))
  /\ (4 < iterations demo_opt ->
      In (OptimizerStep 4) (skipn 47 (demo_run demo_opt None))
      /\ In (ZeroGrad 4) (skipn 47 (demo_run demo_opt None))).
Proof.
  assert (Hw : well_configured demo_world demo_opt)
    by (apply demo_well_configured; discriminate).
  assert (E : demo_run demo_opt None
              = firstn 46 (demo_run demo_opt None)
                  ++ DensifyAndPrune 4 (Some 20) None
                  :: skipn 47 (demo_run demo_opt None)).
  { vm_compute. reflexivity. }
  split; [ exact Hw | split; [ exact E | ] ].
  exact (mutation_before_optimizer_step demo_world demo_dataset demo_opt
           demo_pipe [] [] [4] None (-1) 1 None 4 (Some 20) None _ _ Hw E).
Defined.

(** C7 on [demo_opt]: iteration 4 is past the reset interval, 3. *)
Lemma size_threshold_switch_witness :
  In (DensifyAndPrune 4 (Some 20) None) (demo_run demo_opt None)
  /\ (4 <= opacity_reset_interval demo_opt -> Some 20 = @None Z)
  /\ (opacity_reset_interval demo_opt < 4 -> Some 20 = Some 20).
Proof.
  assert (Hin : In (DensifyAndPrune 4 (Some 20) None) (demo_run demo_opt None)).
  { apply (nth_error_In _ 46). vm_compute. reflexivity. }
  split; [ exact Hin | ].
  exact (size_threshold_switch demo_world demo_dataset demo_opt demo_pipe
           [] [] [4] None (-1) 1 None 4 (Some 20) None Hin).
Defined.



(** C9 on [demo_opt], without a model path: the checkpoint of iteration 4
    lies in the folder named after the job, and [resume_world] starts from
    it. *)
Lemma checkpoint_save_and_resume_witness :
  well_configured demo_world demo_opt
  /\ well_configured resume_world demo_opt
  /\ In 4 (loop_iterations demo_world demo_opt None)
  /\ In 4 [4]
  /\ chkpnt_path (scene_model_path demo_world unnamed_dataset) 4
     = py "./output/1234567890/chkpnt4.pth"
  /\ torch_load resume_world
       (chkpnt_path (scene_model_path demo_world unnamed_dataset) 4)
     = (capture demo_world 4, 4)
  /\ In (TorchSave 4 4
          (chkpnt_path (scene_model_path demo_world unnamed_dataset) 4))
       (trace demo_world unnamed_dataset demo_opt demo_pipe [] [] [4]
          None (-1) 1 None)
  /\ In (Restore 4)
       (trace resume_world unnamed_dataset demo_opt demo_pipe [] [] [4]
          (Some (chkpnt_path (scene_model_path demo_world unnamed_dataset) 4))
          (-1) 1 None)
  /\ executed_iterations
       (trace resume_world unnamed_dataset demo_opt demo_pipe [] [] [4]
          (Some (chkpnt_path (scene_model_path demo_world unnamed_dataset) 4))
          (-1) 1 None)
     = py_range (4 + 1) (iterations demo_opt + 1).
Proof.
  assert (Hw0 : well_configured demo_world demo_opt)
    by (apply demo_well_configured; discriminate).
  assert (Hw : well_configured resume_world demo_opt)
    by (repeat split; discriminate).
  assert (Hi : In 4 (loop_iterations demo_world demo_opt None))
    by (apply py_range_In; cbn; lia).
  assert (Hc : In 4 [4]) by (now left).
  assert (Hp : chkpnt_path (scene_model_path demo_world unnamed_dataset) 4
               = py "./output/1234567890/chkpnt4.pth") by reflexivity.
  assert (Hl : torch_load resume_world
                 (chkpnt_path (scene_model_path demo_world unnamed_dataset) 4)
               = (capture demo_world 4, 4)) by reflexivity.
  pose proof (checkpoint_save_and_resume unnamed_dataset demo_opt demo_pipe
                [] [] [4] (-1) 1 None demo_world resume_world None 4
                Hw0 Hw Hi Hc Hl) as H.
  cbv zeta in H. destruct H as (Hsave & _ & _ & Hrestore & Hexec & _).
  repeat (split; [ assumption | ]).
  exact Hexec.
Defined.

(** C10 on [resumed_opt]: the geometric term of iteration 3001. *)
Lemma geo_term_after_first_rebuild_witness :
  demo_run resumed_opt demo_checkpoint
  = firstn 27 (demo_run resumed_opt demo_checkpoint)
      ++ SurfaceAlign 3001 3000
      :: skipn 28 (demo_run resumed_opt demo_checkpoint)
  /\ (exists j, In (FindKNN j) (firstn 27 (demo_run resumed_opt demo_checkpoint)))
  /\ 0 < visibility_sum demo_world 3001.
Proof.
  assert (E : demo_run resumed_opt demo_checkpoint
              = firstn 27 (demo_run resumed_opt demo_checkpoint)
                  ++ SurfaceAlign 3001 3000
                  :: skipn 28 (demo_run resumed_opt demo_checkpoint)).
  { vm_compute. reflexivity. }
  split; [ exact E | ].
  exact (geo_term_after_first_rebuild demo_world demo_dataset resumed_opt
           demo_pipe [] [] [4] demo_checkpoint (-1) 1 None _ _ _ _ E).
Defined.

(** C10 as the specification has it fails on [resumed_opt]: the run starts
    past the window, the refresh of iteration 3000 builds the first graph,
    and iteration 3001 adds the geometric term though no
    [densify_and_prune] was ever called. *)
Lemma geo_term_without_densify :
  ~ spec_geo_after_densify demo_world demo_dataset resumed_opt
      demo_pipe [] [] [4] demo_checkpoint (-1) 1 None.
Proof.
  intros H.
  assert (E : demo_run resumed_opt demo_checkpoint
              = firstn 27 (demo_run resumed_opt demo_checkpoint)
                  ++ SurfaceAlign 3001 3000
                  :: skipn 28 (demo_run resumed_opt demo_checkpoint)).
  { vm_compute. reflexivity. }
  destruct (H _ _ _ _ E) as ((j & st & nm & p1 & p2 & Hpre) & _).
  assert (Hin : In (DensifyAndPrune j st nm)
                  (firstn 27 (demo_run resumed_opt demo_checkpoint))).
  { rewrite Hpre. apply in_elt. }
  assert (Hnone : forallb (fun e => negb (is_densify_and_prune e))
                    (firstn 27 (demo_run resumed_opt demo_checkpoint)) = true)
    by (vm_compute; reflexivity).
  rewrite forallb_forall in Hnone.
  specialize (Hnone _ Hin). discriminate Hnone.
Qed.

(** * Beyond the claims: the loop *)

Section Exceptions.

Context {Camera Snapshot Graph : Type}.
Local Abbreviation event := (@event Camera Snapshot Graph).
Local Abbreviation World := (@World Camera Snapshot Graph).
Local Abbreviation M := (@M Camera Snapshot Graph).

Lemma bind_returned_inv {A B : Type} (m : M A) (f : A -> M B) s t x :
  bind m f s = (t, Returned x) ->
  exists t1 a s1 t2,
    m s = (t1, Returned (a, s1)) /\ f a s1 = (t2, Returned x) /\ t = t1 ++ t2.
Proof.
  unfold bind. intros H.
  destruct (m s) as [t1 [[a s1]|e]]; [ | discriminate ].
  destruct (f a s1) as [t2 r] eqn:E.
  inversion H; subst. exists t1, a, s1, t2. auto.
Qed.

Lemma bind_raised (A B : Type) (m : M A) (f : A -> M B) s t e :
  m s = (t, Raised e) -> bind m f s = (t, Raised e).
Proof. intros H. unfold bind. now rewrite H. Qed.

Lemma raises_only_ret {A : Type} P (a : A) : raises_only P (ret a : M A).
Proof. intros s t e H. discriminate H. Qed.

Lemma raises_only_raise {A : Type} (P : exn -> Prop) e :
  P e -> raises_only P (raise e : M A).
Proof. intros He s t e' H. inversion H. now subst. Qed.

Lemma raises_only_get P : raises_only P (get : M _).
Proof. intros s t e H. discriminate H. Qed.

Lemma raises_only_modify P f : raises_only P (modify f : M _).
Proof. intros s t e H. discriminate H. Qed.

Lemma raises_only_emit P e : raises_only P (emit e : M _).
Proof. intros s t e' H. discriminate H. Qed.

Lemma raises_only_bind {A B : Type} P (m : M A) (f : A -> M B) :
  raises_only P m -> (forall a, raises_only P (f a)) ->
  raises_only P (bind m f).
Proof.
  intros Hm Hf s t e H. unfold bind in H.
  destruct (m s) as [t1 [[a s1]|e1]] eqn:E1.
  - destruct (f a s1) as [t2 r] eqn:E2. inversion H; subst.
    apply (Hf a s1 t2 e E2).
  - inversion H; subst. apply (Hm s t e E1).
Qed.

Lemma raises_only_when P b (m : M unit) :
  raises_only P m -> raises_only P (when b m).
Proof. intros H. destruct b; simpl; [ exact H | apply raises_only_ret ]. Qed.

Lemma raises_only_py_mod (P : exn -> Prop) a b :
  P ZeroDivisionError -> raises_only P (py_mod a b : M Z).
Proof.
  intros H. unfold py_mod.
  destruct (b =? 0); [ now apply raises_only_raise | apply raises_only_ret ].
Qed.

Lemma raises_only_for_each P its (body : Z -> M unit) :
  (forall i, raises_only P (body i)) -> raises_only P (for_each its body).
Proof.
  intros H. induction its as [|i its IH]; simpl.
  - apply raises_only_ret.
  - apply raises_only_bind; auto.
Qed.

Lemma remove_nth_Permutation {A : Type} (l : list A) :
  forall k x, nth_error l k = Some x -> Permutation (x :: remove_nth k l) l.
Proof.
  induction l as [|y l IH]; intros [|k] x H; simpl in H; try discriminate.
  - inversion H. subst. unfold remove_nth. simpl. apply Permutation_refl.
  - unfold remove_nth in *. simpl.
    apply Permutation_trans with (y :: x :: firstn k l ++ skipn (S k) l).
    + apply perm_swap.
    + apply perm_skip. apply IH. exact H.
Qed.

End Exceptions.

(** Splits a goal [raises_only P m] along the structure of [m], down to the
    places that raise. *)
Ltac raises_step :=
  first
    [ apply raises_only_ret | apply raises_only_get | apply raises_only_modify
    | apply raises_only_emit | apply raises_only_when
    | apply raises_only_bind; [ | intros ? ]
    | match goal with
      | |- raises_only _ (if ?c then _ else _) => destruct c
      | |- raises_only _ (match ?x with _ => _ end) => destruct x
      end ].

Section LoopStates.

Context {Camera Snapshot Graph : Type}.
Local Abbreviation event := (@event Camera Snapshot Graph).
Local Abbreviation loop_state := (@loop_state Camera Graph).

Variable w : @World Camera Snapshot Graph.
Variable dataset : ModelParams.
Variable opt : OptimizationParams.
Variable pipe : PipelineParams.
Variables testing_iterations saving_iterations checkpoint_iterations : list Z.
Variable checkpoint : option pystr.
Variable debug_from : Z.
Variable sparse_num : Z.
Variable num_max : option Z.

Local Abbreviation body :=
  (iteration_body w dataset opt testing_iterations saving_iterations
     checkpoint_iterations debug_from num_max).
Local Abbreviation pass :=
  (pass_events w dataset opt testing_iterations saving_iterations
     checkpoint_iterations num_max).
Local Abbreviation passes := (loop_iterations w opt checkpoint).

Lemma refill_nonempty (l : list Camera) :
  getTrainCameras w <> [] -> refill w l <> [].
Proof. intros H. destruct l; simpl; [ exact H | discriminate ]. Qed.

Lemma refill_empty (l : list Camera) :
  refill w l = [] -> l = [] /\ getTrainCameras w = [].
Proof. destruct l; simpl; intros H; [ auto | discriminate ]. Qed.

(** Line 81 on a list that is not empty: some camera of the list is popped. *)
Lemma pick_camera_pops (i : Z) (s : loop_state) :
  refill w (viewpoint_stack s) <> [] ->
  exists k cam,
    nth_error (refill w (viewpoint_stack s)) k = Some cam
    /\ pick_camera w i s
       = ([], Returned
                (cam,
                 set_viewpoint_stack
                   (remove_nth k (refill w (viewpoint_stack s))) s)).
Proof.
  intros Hne. unfold pick_camera, bind, get. cbv zeta.
  change (match viewpoint_stack s with
          | [] => getTrainCameras w
          | _ :: _ => viewpoint_stack s
          end) with (refill w (viewpoint_stack s)).
  set (stack := refill w (viewpoint_stack s)) in *.
  assert (Hlen : (0 < List.length stack)%nat)
    by (destruct stack; [ congruence | simpl; lia ]).
  unfold py_randint.
  destruct (Z.of_nat (List.length stack) - 1 <? 0) eqn:Hlt;
    [ apply Z.ltb_lt in Hlt; lia | ].
  unfold ret at 1. cbv iota beta.
  set (k := 0 + random_draw w i mod (Z.of_nat (List.length stack) - 1 - 0 + 1)).
  assert (Hk : (Z.to_nat k < List.length stack)%nat).
  { subst k.
    pose proof (Z.mod_pos_bound (random_draw w i)
                  (Z.of_nat (List.length stack) - 1 - 0 + 1)).
    lia. }
  destruct (nth_error stack (Z.to_nat k)) as [cam|] eqn:Hnth.
  - exists (Z.to_nat k), cam. split; [ exact Hnth | reflexivity ].
  - apply nth_error_None in Hnth. lia.
Qed.

(** Line 81 on an empty list: [randint(0, -1)]. *)
Lemma pick_camera_empty (i : Z) (s : loop_state) :
  refill w (viewpoint_stack s) = [] ->
  pick_camera w i s = ([], Raised ValueError).
Proof.
  intros He. unfold pick_camera, bind, get. cbv zeta.
  change (match viewpoint_stack s with
          | [] => getTrainCameras w
          | _ :: _ => viewpoint_stack s
          end) with (refill w (viewpoint_stack s)).
  rewrite He. reflexivity.
Qed.

Lemma pick_camera_raises (i : Z) :
  raises_only
    (fun e => e = ZeroDivisionError
              \/ (e = ValueError /\ getTrainCameras w = []))
    (pick_camera w i).
Proof.
  intros s t e H.
  destruct (refill w (viewpoint_stack s)) as [|c l] eqn:E.
  - rewrite (pick_camera_empty i s E) in H. inversion H; subst.
    right. split; [ reflexivity | ]. now apply refill_empty in E.
  - destruct (pick_camera_pops i s) as (k & cam & _ & E');
      [ rewrite E; discriminate | ].
    rewrite E' in H. discriminate H.
Qed.

(** The call of [training_report] raises nothing. *)
Lemma report_raises (P : exn -> Prop) (i : Z) :
  raises_only P (report w dataset testing_iterations i).
Proof.
  intros s t e H. rewrite report_run in H. discriminate H.
Qed.

(** A pass raises [ZeroDivisionError], or [ValueError] for want of a
    camera, and nothing else. *)
Lemma body_raises (i : Z) :
  raises_only
    (fun e => e = ZeroDivisionError
              \/ (e = ValueError /\ getTrainCameras w = []))
    (body i).
Proof.
  unfold iteration_body, schedule, render_view, geo_loss, log_and_save,
    densification, densify, opacity_reset, rebuild_graph, log_cumulative,
    optimizer_step, save_checkpoint.
  cbv zeta.
  repeat (first [ apply pick_camera_raises | apply report_raises
                | apply raises_only_py_mod; left; reflexivity
                | raises_step ]; cbv zeta).
Qed.

Lemma render_view_full (i : Z) (cam : Camera) (s : loop_state) :
  exists s',
    @render_view Camera Snapshot Graph dataset opt debug_from i cam s
    = ([Render i cam (pipe_debug s || (i - 1 =? debug_from))
          (if random_background opt then RandomColor else bg_color dataset)],
       Returned (tt, s'))
    /\ KNN_index s' = KNN_index s
    /\ viewpoint_stack s' = viewpoint_stack s
    /\ pipe_debug s' = pipe_debug s || (i - 1 =? debug_from)
    /\ cum_deleted s' = cum_deleted s
    /\ cum_created s' = cum_created s.
Proof.
  unfold render_view, bind, when, get, emit, modify, ret.
  destruct (i - 1 =? debug_from).
  - exists (set_pipe_debug true s). rewrite orb_true_r. simpl. auto 10.
  - exists s. rewrite orb_false_r. simpl. auto 10.
Qed.

Lemma densification_full (i : Z) (s : loop_state) :
  divides_safely opt i ->
  exists s',
    densification w dataset opt num_max i s
    = (densification_events dataset opt num_max i,
       Returned (counts_of w opt i, s'))
    /\ viewpoint_stack s' = viewpoint_stack s
    /\ pipe_debug s' = pipe_debug s
    /\ cum_deleted s' = cum_deleted s
    /\ cum_created s' = cum_created s.
Proof.
  intros Hsafe.
  unfold densification, densification_events, counts_of, densify,
    densify_events, opacity_reset, reset_events, rebuild_graph, py_mod,
    bind, when, emit, modify, ret.
  destruct (i <? densify_until_iter opt) eqn:Hu.
  - apply Z.ltb_lt in Hu. destruct (Hsafe Hu) as [Hr Hd].
    apply Z.eqb_neq in Hr. rewrite Hr.
    destruct (densify_from_iter opt <? i) eqn:Hf.
    + apply Z.ltb_lt in Hf. specialize (Hd Hf).
      apply Z.eqb_neq in Hd. rewrite Hd.
      destruct (i mod densification_interval opt =? 0); cbn;
        destruct ((i mod opacity_reset_interval opt =? 0)
                  || white_background dataset && (i =? densify_from_iter opt));
        eexists; (split; [ reflexivity | simpl; auto ]).
    + cbn.
      destruct ((i mod opacity_reset_interval opt =? 0)
                || white_background dataset && (i =? densify_from_iter opt));
        eexists; (split; [ reflexivity | simpl; auto ]).
  - cbn [andb].
    destruct (densify_until_iter opt <? i);
      [ destruct (i mod 3000 =? 0) | ];
      eexists; (split; [ reflexivity | simpl; auto ]).
Qed.

Lemma densification_returned_inv (i : Z) (s : loop_state) t x :
  densification w dataset opt num_max i s = (t, Returned x) ->
  divides_safely opt i.
Proof.
  intros H Hu. apply Z.ltb_lt in Hu.
  unfold densification, densify, opacity_reset, rebuild_graph, py_mod,
    bind, when, emit, modify, ret, raise in H.
  rewrite Hu in H.
  destruct (opacity_reset_interval opt =? 0) eqn:Hr;
    destruct (densify_from_iter opt <? i) eqn:Hf;
    try destruct (densification_interval opt =? 0) eqn:Hd;
    try destruct (i mod densification_interval opt =? 0);
    cbn in H; try discriminate H;
    bools; split; (assumption || (intros; lia || assumption)).
Qed.

Lemma log_cumulative_full (i : Z) (c : Z * Z) (s : loop_state) :
  exists s',
    log_cumulative w i c s
    = (cum_events w i (cum_deleted s', cum_created s'), Returned (tt, s'))
    /\ KNN_index s' = KNN_index s
    /\ viewpoint_stack s' = viewpoint_stack s
    /\ pipe_debug s' = pipe_debug s
    /\ (cum_deleted s', cum_created s')
       = (if WANDB_FOUND w
          then (cum_deleted s + snd c, cum_created s + fst c)
          else (cum_deleted s, cum_created s)).
Proof.
  unfold log_cumulative, cum_events, bind, when, get, modify, emit, ret.
  destruct (WANDB_FOUND w).
  - exists (set_cum (cum_deleted s + snd c) (cum_created s + fst c) s).
    simpl. auto.
  - exists s. auto.
Qed.

(** One pass, with what it does to the variables of the loop. *)
Lemma body_run_full (i : Z) (s : loop_state) :
  refill w (viewpoint_stack s) <> [] ->
  divides_safely opt i ->
  exists k cam s',
    nth_error (refill w (viewpoint_stack s)) k = Some cam
    /\ body i s
       = (pass i (KNN_index s) cam (pipe_debug s || (i - 1 =? debug_from))
            (cum_deleted s', cum_created s'),
          Returned (tt, s'))
    /\ viewpoint_stack s' = remove_nth k (refill w (viewpoint_stack s))
    /\ pipe_debug s' = pipe_debug s || (i - 1 =? debug_from)
    /\ (cum_deleted s', cum_created s')
       = (if WANDB_FOUND w
          then (cum_deleted s + snd (counts_of w opt i),
                cum_created s + fst (counts_of w opt i))
          else (cum_deleted s, cum_created s)).
Proof.
  intros Hne Hsafe.
  destruct (pick_camera_pops i s Hne) as (k & cam & Hnth & E1).
  set (s1 := set_viewpoint_stack
               (remove_nth k (refill w (viewpoint_stack s))) s) in *.
  destruct (render_view_full i cam s1) as (s2 & E2 & Hk2 & Hv2 & Hd2 & Hcd2 & Hcc2).
  destruct (densification_full i s2 Hsafe) as (s3 & E3 & Hv3 & Hd3 & Hcd3 & Hcc3).
  destruct (log_cumulative_full i (counts_of w opt i) s3)
    as (s4 & E4 & _ & Hv4 & Hd4 & Hc4).
  exists k, cam, s4.
  split; [ exact Hnth | split; [ | split; [ | split ] ] ].
  - unfold iteration_body.
    change (pass i (KNN_index s) cam (pipe_debug s || (i - 1 =? debug_from))
              (cum_deleted s4, cum_created s4))
      with (schedule_events i
              ++ [] ++ [Render i cam (pipe_debug s1 || (i - 1 =? debug_from))
                          (if random_background opt then RandomColor
                           else bg_color dataset)]
              ++ geo_events w i (KNN_index s1) ++ [Backward i]
              ++ log_events w dataset opt testing_iterations saving_iterations i
              ++ densification_events dataset opt num_max i
              ++ cum_events w i (cum_deleted s4, cum_created s4)
              ++ optimizer_events opt i
              ++ checkpoint_events w dataset checkpoint_iterations i).
    rewrite <- Hk2.
    eapply bind_returned; [ apply schedule_run | ].
    eapply bind_returned; [ exact E1 | ].
    eapply bind_returned; [ exact E2 | ].
    eapply bind_returned; [ apply geo_loss_run | ].
    eapply bind_returned; [ reflexivity | ].
    eapply bind_returned; [ apply log_and_save_run | ].
    eapply bind_returned; [ exact E3 | ].
    eapply bind_returned; [ exact E4 | ].
    eapply bind_returned; [ apply optimizer_step_run | ].
    apply save_checkpoint_run.
  - rewrite Hv4, Hv3, Hv2. reflexivity.
  - rewrite Hd4, Hd3, Hd2. reflexivity.
  - rewrite Hc4, Hcd3, Hcc3, Hcd2, Hcc2. reflexivity.
Qed.

(** A pass that returns had a camera to pop and divided safely. *)
Lemma body_returned_inv (i : Z) (s : loop_state) t x :
  body i s = (t, Returned x) ->
  refill w (viewpoint_stack s) <> [] /\ divides_safely opt i.
Proof.
  intros H. unfold iteration_body in H.
  apply bind_returned_inv in H as (t1 & a1 & s1 & t1' & Hsched & H & _).
  rewrite schedule_run in Hsched.
  assert (s1 = s) by congruence. subst s1.
  apply bind_returned_inv in H as (t2 & cam & s2 & t2' & Hpick & H & _).
  split.
  - intros He. rewrite (pick_camera_empty i s He) in Hpick.
    discriminate Hpick.
  - apply bind_returned_inv in H as (t3 & a3 & s3 & t3' & _ & H & _).
    apply bind_returned_inv in H as (t4 & a4 & s4 & t4' & _ & H & _).
    apply bind_returned_inv in H as (t5 & a5 & s5 & t5' & _ & H & _).
    apply bind_returned_inv in H as (t6 & a6 & s6 & t6' & _ & H & _).
    apply bind_returned_inv in H as (t7 & a7 & s7 & t7' & H7 & _ & _).
    apply (densification_returned_inv i s6 t7 _ H7).
Qed.

(** The loop returns when every pass has a camera and divides safely. *)
Lemma for_each_returns (its : list Z) :
  getTrainCameras w <> [] ->
  (forall i, In i its -> divides_safely opt i) ->
  forall s, exists t s', for_each its body s = (t, Returned (tt, s')).
Proof.
  intros Hc. induction its as [|i its IH]; intros Hs s.
  - exists [], s. reflexivity.
  - destruct (body_run_full i s (refill_nonempty _ Hc) (Hs i (or_introl eq_refl)))
      as (k & cam & s1 & _ & E1 & _).
    destruct (IH (fun j Hj => Hs j (or_intror Hj)) s1) as (t & s' & E).
    eexists. exists s'. cbn [for_each].
    eapply bind_returned; eassumption.
Qed.

Lemma for_each_returned_inv (its : list Z) :
  forall s t x,
    for_each its body s = (t, Returned x) ->
    (forall i, In i its -> divides_safely opt i)
    /\ (its <> [] -> refill w (viewpoint_stack s) <> []).
Proof.
  induction its as [|i its IH]; intros s t x H.
  - split; [ intros i [] | congruence ].
  - cbn [for_each] in H.
    apply bind_returned_inv in H as (t1 & a & s1 & t2 & H1 & H2 & _).
    apply body_returned_inv in H1. destruct H1 as [Hne Hsafe].
    apply IH in H2. destruct H2 as [Hrest _].
    split; [ | auto ].
    intros j [<-|Hj]; auto.
Qed.

End LoopStates.

Section Outcome.

Context {Camera Snapshot Graph : Type}.
Local Abbreviation event := (@event Camera Snapshot Graph).

Variable w : @World Camera Snapshot Graph.
Variable dataset : ModelParams.
Variable opt : OptimizationParams.
Variable pipe : PipelineParams.
Variables testing_iterations saving_iterations checkpoint_iterations : list Z.
Variable checkpoint : option pystr.
Variable debug_from : Z.
Variable sparse_num : Z.
Variable num_max : option Z.

Local Abbreviation body :=
  (iteration_body w dataset opt testing_iterations saving_iterations
     checkpoint_iterations debug_from num_max).
Local Abbreviation passes := (loop_iterations w opt checkpoint).

Lemma divides_safely_dec (i : Z) :
  {divides_safely opt i} + {~ divides_safely opt i}.
Proof.
  unfold divides_safely.
  destruct (Z_lt_dec i (densify_until_iter opt)) as [Hu|Hu];
    [ | left; intros; contradiction ].
  destruct (Z.eq_dec (opacity_reset_interval opt) 0) as [Hr|Hr];
    [ right; intros H; destruct (H Hu) as [H' _]; contradiction | ].
  destruct (Z_lt_dec (densify_from_iter opt) i) as [Hf|Hf];
    [ | left; intros _; split; [ assumption | intros; contradiction ] ].
  destruct (Z.eq_dec (densification_interval opt) 0) as [Hd|Hd].
  - right. intros H. destruct (H Hu) as [_ H']. apply (H' Hf). exact Hd.
  - left. intros _. split; [ assumption | intros _; assumption ].
Qed.

(** Without a training camera the first pass stops at line 81. *)
Lemma for_each_no_camera (i : Z) (rest : list Z) s :
  refill w (viewpoint_stack s) = [] ->
  for_each (i :: rest) body s = (schedule_events i, Raised ValueError).
Proof.
  intros He. cbn [for_each]. apply bind_raised.
  unfold iteration_body.
  rewrite <- (app_nil_r (schedule_events i)).
  eapply bind_returned; [ apply schedule_run | ].
  apply bind_raised. apply pick_camera_empty. exact He.
Qed.

Lemma training_outcome :
  exists t r,
    for_each passes body (initial_state pipe) = (t, r)
    /\ training w dataset opt pipe testing_iterations saving_iterations
         checkpoint_iterations checkpoint debug_from sparse_num num_max
       = (setup_events w dataset checkpoint sparse_num ++ t,
          match r with
          | Returned _ => Returned tt
          | Raised e => Raised e
          end).
Proof.
  unfold training.
  destruct (for_each passes body (initial_state pipe)) as [t r].
  exists t, r. split; reflexivity.
Qed.

(** X1.  [training] returns exactly when the loop has no iteration to run,
    or the scene has a training camera and every iteration of the loop
    divides safely: zero intervals only matter to the iterations below
    [densify_until_iter], and a zero [densification_interval] only past
    [densify_from_iter]. *)
Theorem training_returns_exactly :
  snd (training w dataset opt pipe testing_iterations saving_iterations
         checkpoint_iterations checkpoint debug_from sparse_num num_max)
  = Returned tt
  <-> (loop_iterations w opt checkpoint = []
       \/ (getTrainCameras w <> []
           /\ forall i, In i (loop_iterations w opt checkpoint) ->
                        divides_safely opt i)).
Proof.
  destruct training_outcome as (t & r & E & ->). cbn [snd]. split.
  - intros H. destruct r as [[[] s']|e]; [ | discriminate H ].
    apply for_each_returned_inv in E. destruct E as [Hsafe Hne].
    destruct passes as [|i rest] eqn:Hp; [ now left | right ].
    split; [ | exact Hsafe ].
    apply Hne. discriminate.
  - intros [Hp|[Hc Hsafe]].
    + rewrite Hp in E. inversion E. reflexivity.
    + destruct (for_each_returns w dataset opt testing_iterations
                  saving_iterations checkpoint_iterations debug_from num_max
                  passes Hc Hsafe (initial_state pipe)) as (t' & s' & E').
      rewrite E' in E. inversion E. reflexivity.
Qed.

(** X2.  [training] raises [ValueError] exactly when the loop has an
    iteration to run and the scene has no training camera; the run then
    stops in its first iteration, after the learning-rate update (and the
    SH step, if due) and before anything is rendered. *)
Theorem training_value_error :
  (snd (training w dataset opt pipe testing_iterations saving_iterations
          checkpoint_iterations checkpoint debug_from sparse_num num_max)
   = Raised ValueError
   <-> (loop_iterations w opt checkpoint <> [] /\ getTrainCameras w = []))
  /\ (forall i rest,
         loop_iterations w opt checkpoint = i :: rest ->
         getTrainCameras w = [] ->
         trace w dataset opt pipe testing_iterations saving_iterations
           checkpoint_iterations checkpoint debug_from sparse_num num_max
         = setup_events w dataset checkpoint sparse_num ++ schedule_events i).
Proof.
  destruct training_outcome as (t & r & E & Et).
  unfold trace. rewrite Et. cbn [fst snd]. split; [ split | ].
  - intros H. destruct r as [x|e]; [ discriminate H | ].
    inversion H; subst e.
    assert (HP : ValueError = ZeroDivisionError
                 \/ (ValueError = ValueError /\ getTrainCameras w = [])).
    { apply (raises_only_for_each _ passes body
               (body_raises w dataset opt testing_iterations saving_iterations
                  checkpoint_iterations debug_from num_max) _ _ _ E). }
    destruct HP as [HP|[_ HP]]; [ discriminate HP | ].
    split; [ | exact HP ].
    intros Hp. rewrite Hp in E. discriminate E.
  - intros [Hp Hc]. destruct passes as [|i rest]; [ congruence | ].
    rewrite for_each_no_camera in E by exact Hc.
    inversion E. reflexivity.
  - intros i rest Hp Hc. rewrite Hp in E.
    rewrite for_each_no_camera in E by exact Hc.
    inversion E. reflexivity.
Qed.

(** X3.  [training] raises [ZeroDivisionError] exactly when the scene has
    a training camera and some iteration of the loop divides by a zero
    interval; and it never raises [IndexError]: the index handed to [pop]
    is always in range. *)
Theorem training_zero_division :
  (snd (training w dataset opt pipe testing_iterations saving_iterations
          checkpoint_iterations checkpoint debug_from sparse_num num_max)
   = Raised ZeroDivisionError
   <-> (getTrainCameras w <> []
        /\ exists i, In i (loop_iterations w opt checkpoint)
                     /\ ~ divides_safely opt i))
  /\ snd (training w dataset opt pipe testing_iterations saving_iterations
            checkpoint_iterations checkpoint debug_from sparse_num num_max)
     <> Raised IndexError.
Proof.
  destruct training_outcome as (t & r & E & ->). cbn [snd].
  assert (HP : forall e, r = Raised e ->
                 e = ZeroDivisionError
                 \/ (e = ValueError /\ getTrainCameras w = [])).
  { intros e ->.
    apply (raises_only_for_each _ passes body
             (body_raises w dataset opt testing_iterations saving_iterations
                checkpoint_iterations debug_from num_max) _ _ _ E). }
  split; [ split | ].
  - intros H. destruct r as [x|e]; [ discriminate H | ].
    inversion H; subst e. split.
    + intros Hc. destruct passes as [|i rest]; [ discriminate E | ].
      rewrite for_each_no_camera in E by exact Hc. discriminate E.
    + destruct (Forall_Exists_dec (divides_safely opt) divides_safely_dec passes)
        as [Hall|Hex].
      * rewrite Forall_forall in Hall.
        destruct (getTrainCameras w) as [|c l] eqn:Hc.
        -- destruct passes as [|i rest]; [ discriminate E | ].
           rewrite for_each_no_camera in E by exact Hc. discriminate E.
        -- assert (Hne : getTrainCameras w <> [])
             by (rewrite Hc; discriminate).
           destruct (for_each_returns w dataset opt testing_iterations
                       saving_iterations checkpoint_iterations debug_from
                       num_max passes Hne Hall
                       (@initial_state Camera Graph pipe))
             as (t' & s' & E').
           rewrite E' in E. discriminate E.
      * apply Exists_exists in Hex. exact Hex.
  - intros (Hc & i & Hi & Hunsafe).
    destruct r as [x|e].
    + apply for_each_returned_inv in E. destruct E as [Hsafe _].
      exfalso. apply Hunsafe. apply Hsafe. exact Hi.
    + destruct (HP e eq_refl) as [->|[_ Hc']];
        [ reflexivity | contradiction ].
  - destruct r as [x|e]; [ discriminate | ].
    destruct (HP e eq_refl) as [->|[-> _]]; discriminate.
Qed.

End Outcome.

(** X1 on [zero_interval_opt]: resumed at 2998, past the window that closed
    at 2000, the run returns though both intervals are zero. *)
Lemma training_returns_exactly_witness :
  snd (training demo_world demo_dataset zero_interval_opt demo_pipe [] [] [4]
         demo_checkpoint (-1) 1 None)
  = Returned tt.
Proof.
  apply (training_returns_exactly demo_world demo_dataset zero_interval_opt
           demo_pipe [] [] [4] demo_checkpoint (-1) 1 None).
  right. split; [ discriminate | ].
  intros i Hi Hlt. apply py_range_In in Hi. cbn in Hi, Hlt. lia.
Defined.

(** X2 on [empty_world]: no camera, eight iterations to run. *)
Lemma training_value_error_witness :
  snd (training empty_world demo_dataset demo_opt demo_pipe [] [] [4]
         None (-1) 1 None)
  = Raised ValueError.
Proof.
  apply (proj1 (training_value_error empty_world demo_dataset demo_opt
                  demo_pipe [] [] [4] None (-1) 1 None)).
  split; [ discriminate | reflexivity ].
Defined.

(** X3 on [zero_interval_opt], from scratch: iteration 1 is below the end
    of the window and divides by the zero reset interval. *)
Lemma training_zero_division_witness :
  snd (training demo_world demo_dataset zero_interval_opt demo_pipe [] [] [4]
         None (-1) 1 None)
  = Raised ZeroDivisionError.
Proof.
  apply (proj1 (training_zero_division demo_world demo_dataset
                  zero_interval_opt demo_pipe [] [] [4] None (-1) 1 None)).
  split; [ discriminate | ].
  exists 1. split.
  - apply py_range_In. cbn. lia.
  - intros H. destruct H as [H _]; [ cbn; lia | ]. apply H. reflexivity.
Defined.

Section ListFacts.

Context {A : Type}.

(** The [k]-th block of [n] elements of a list that starts with whole
    blocks of [n]. *)
Lemma block_of_concat (n : nat) (es : list (list A)) (rest : list A) :
  Forall (fun e => List.length e = n) es ->
  forall k, (k < List.length es)%nat ->
            firstn n (skipn (k * n) (List.concat es ++ rest)) = nth k es [].
Proof.
  induction 1 as [|e es He _ IH]; intros k Hk; simpl in Hk; [ lia | ].
  simpl List.concat. rewrite <- app_assoc. destruct k as [|k].
  - simpl. rewrite <- He. rewrite firstn_app, Nat.sub_diag, firstn_all.
    simpl. apply app_nil_r.
  - simpl nth. rewrite <- (IH k) by lia.
    f_equal. replace (S k * n)%nat with (List.length e + k * n)%nat by lia.
    rewrite skipn_app.
    replace (List.length e + k * n - List.length e)%nat with (k * n)%nat by lia.
    rewrite skipn_all2 by lia. reflexivity.
Qed.

Lemma length_concat_blocks (n : nat) (es : list (list A)) :
  Forall (fun e => List.length e = n) es ->
  List.length (List.concat es) = (List.length es * n)%nat.
Proof.
  induction 1 as [|e es He _ IH]; simpl; [ reflexivity | ].
  rewrite length_app, IH, He. reflexivity.
Qed.

End ListFacts.

Section Cameras.

Context {Camera Snapshot Graph : Type}.
Local Abbreviation event := (@event Camera Snapshot Graph).
Local Abbreviation loop_state := (@loop_state Camera Graph).

Variable w : @World Camera Snapshot Graph.
Variable dataset : ModelParams.
Variable opt : OptimizationParams.
Variable pipe : PipelineParams.
Variables testing_iterations saving_iterations checkpoint_iterations : list Z.
Variable checkpoint : option pystr.
Variable debug_from : Z.
Variable sparse_num : Z.
Variable num_max : option Z.

Local Abbreviation body :=
  (iteration_body w dataset opt testing_iterations saving_iterations
     checkpoint_iterations debug_from num_max).
Local Abbreviation pass :=
  (pass_events w dataset opt testing_iterations saving_iterations
     checkpoint_iterations num_max).
Local Abbreviation passes := (loop_iterations w opt checkpoint).

Lemma loop_renders_app (l1 l2 : list event) :
  loop_renders (l1 ++ l2) = loop_renders l1 ++ loop_renders l2.
Proof. apply flat_map_app. Qed.

Lemma loop_renders_none (l : list event) :
  Forall (fun e => match e with Render _ _ _ _ => False | _ => True end) l ->
  loop_renders l = [].
Proof.
  induction 1 as [|e l He _ IH]; [ reflexivity | ].
  destruct e; simpl in *; (contradiction || exact IH).
Qed.

(** A pass renders once for its training step: the camera it popped. *)
Lemma loop_renders_pass (i : Z) k cam dbg c :
  loop_renders (pass i k cam dbg c) = [(i, cam)].
Proof.
  unfold pass_events.
  rewrite loop_renders_app.
  rewrite (loop_renders_none (schedule_events i))
    by (unfold schedule_events; forall_pieces; exact I).
  cbn [app loop_renders flat_map]. f_equal.
  apply loop_renders_none.
  unfold tail_events, geo_events, log_events, densification_events,
    densify_events, reset_events, cum_events, optimizer_events,
    checkpoint_events.
  forall_pieces; exact I.
Qed.

Lemma rendered_cameras_app (l1 l2 : list event) :
  rendered_cameras (l1 ++ l2) = rendered_cameras l1 ++ rendered_cameras l2.
Proof. unfold rendered_cameras. now rewrite loop_renders_app, map_app. Qed.

Lemma rendered_cameras_pass (i : Z) k cam dbg c :
  rendered_cameras (pass i k cam dbg c) = [cam].
Proof. unfold rendered_cameras. now rewrite loop_renders_pass. Qed.

(** A pass that returns is the pass that [body_run_full] describes. *)
Lemma body_returned_full (i : Z) (s : loop_state) t s1 :
  body i s = (t, Returned (tt, s1)) ->
  exists k cam,
    nth_error (refill w (viewpoint_stack s)) k = Some cam
    /\ t = pass i (KNN_index s) cam (pipe_debug s || (i - 1 =? debug_from))
             (cum_deleted s1, cum_created s1)
    /\ viewpoint_stack s1 = remove_nth k (refill w (viewpoint_stack s))
    /\ pipe_debug s1 = pipe_debug s || (i - 1 =? debug_from)
    /\ (cum_deleted s1, cum_created s1)
       = (if WANDB_FOUND w
          then (cum_deleted s + snd (counts_of w opt i),
                cum_created s + fst (counts_of w opt i))
          else (cum_deleted s, cum_created s)).
Proof.
  intros H.
  destruct (body_returned_inv w dataset opt testing_iterations
              saving_iterations checkpoint_iterations debug_from num_max
              i s t _ H) as [Hne Hsafe].
  destruct (body_run_full w dataset opt testing_iterations saving_iterations
              checkpoint_iterations debug_from num_max i s Hne Hsafe)
    as (k & cam & s' & Hnth & E & Hv & Hd & Hc).
  rewrite E in H. inversion H; subst.
  exists k, cam. auto.
Qed.

(** The renders of a loop that returns: whole epochs, each a permutation
    of the training cameras, then the cameras popped since the last
    refill, which with the stack make up the training cameras. *)
Lemma for_each_epochs (its : list Z) :
  forall s t s' (es : list (list Camera)) (partial : list Camera),
    for_each its body s = (t, Returned (tt, s')) ->
    Forall (fun e => Permutation e (getTrainCameras w)) es ->
    ((partial = [] /\ viewpoint_stack s = [])
     \/ (viewpoint_stack s <> []
         /\ Permutation (partial ++ viewpoint_stack s) (getTrainCameras w))) ->
    exists es' partial',
      List.concat es ++ partial ++ rendered_cameras t = List.concat es' ++ partial'
      /\ Forall (fun e => Permutation e (getTrainCameras w)) es'
      /\ ((partial' = [] /\ viewpoint_stack s' = [])
          \/ (viewpoint_stack s' <> []
              /\ Permutation (partial' ++ viewpoint_stack s')
                   (getTrainCameras w))).
Proof.
  induction its as [|i its IH]; intros s t s' es partial H Hes Hst.
  - inversion H; subst. exists es, partial.
    simpl. rewrite app_nil_r. auto.
  - cbn [for_each] in H.
    apply bind_returned_inv in H as (t1 & [] & s1 & t2 & H1 & H2 & ->).
    apply body_returned_full in H1.
    destruct H1 as (k & cam & Hnth & -> & Hv & _).
    apply remove_nth_Permutation in Hnth. rewrite <- Hv in Hnth.
    rewrite rendered_cameras_app, rendered_cameras_pass.
    assert (Hnext :
              exists es1 partial1,
                List.concat es ++ partial ++ [cam] = List.concat es1 ++ partial1
                /\ Forall (fun e => Permutation e (getTrainCameras w)) es1
                /\ ((partial1 = [] /\ viewpoint_stack s1 = [])
                    \/ (viewpoint_stack s1 <> []
                        /\ Permutation (partial1 ++ viewpoint_stack s1)
                             (getTrainCameras w)))).
    { assert (Hall : Permutation ((partial ++ [cam]) ++ viewpoint_stack s1)
                       (getTrainCameras w)).
      { rewrite <- app_assoc. simpl.
        destruct Hst as [[-> Hs]|[Hs Hp]].
        - rewrite Hs in Hnth. exact Hnth.
        - apply Permutation_trans with (partial ++ viewpoint_stack s);
            [ | exact Hp ].
          apply Permutation_app_head.
          destruct (viewpoint_stack s); [ congruence | exact Hnth ]. }
      destruct (viewpoint_stack s1) as [|c1 l1] eqn:Hs1.
      - exists (es ++ [partial ++ [cam]]), [].
        split; [ | split ].
        + rewrite concat_app. simpl. now rewrite !app_nil_r, app_assoc.
        + apply Forall_app. split; [ exact Hes | ].
          constructor; [ | constructor ].
          now rewrite app_nil_r in Hall.
        + left. auto.
      - exists es, (partial ++ [cam]).
        split; [ reflexivity | split; [ exact Hes | ] ].
        right. split; [ discriminate | exact Hall ]. }
    destruct Hnext as (es1 & partial1 & E1 & Hes1 & Hst1).
    destruct (IH s1 t2 s' es1 partial1 H2 Hes1 Hst1)
      as (es' & partial' & E' & Hes' & Hst').
    exists es', partial'. split; [ | auto ].
    rewrite <- E'. rewrite !app_assoc. f_equal.
    rewrite <- !app_assoc. exact E1.
Qed.

Lemma loop_renders_loop (its : list Z) (t : list event) :
  loop_trace w dataset opt testing_iterations saving_iterations
    checkpoint_iterations num_max its t ->
  map fst (loop_renders t) = its.
Proof.
  induction 1 as [|i its k cam dbg c t _ IH]; [ reflexivity | ].
  rewrite loop_renders_app, loop_renders_pass. simpl. now rewrite IH.
Qed.

(** X4.  Cameras are drawn without replacement (lines 79-81).  In a well
    configured run over a scene with [n] training cameras, the loop itself
    calls [render] once in each iteration, in the order of the iterations
    (line 90; the renders that [training_report] adds at a testing
    iteration are calls of that function, kept with its event), and the
    cameras of the [k]-th block of [n] consecutive iterations of the loop,
    counted from its first iteration, are a permutation of the training
    cameras: every camera is used once before any is used again. *)
Theorem cameras_by_epochs (k : nat) :
  well_configured w opt ->
  ((k + 1) * List.length (getTrainCameras w)
   <= List.length (loop_iterations w opt checkpoint))%nat ->
  map fst
    (loop_renders
       (trace w dataset opt pipe testing_iterations saving_iterations
          checkpoint_iterations checkpoint debug_from sparse_num num_max))
  = loop_iterations w opt checkpoint
  /\ Permutation
       (firstn (List.length (getTrainCameras w))
          (skipn (k * List.length (getTrainCameras w))
             (rendered_cameras
                (trace w dataset opt pipe testing_iterations
                   saving_iterations checkpoint_iterations checkpoint
                   debug_from sparse_num num_max))))
       (getTrainCameras w).
Proof.
  intros Hw Hk.
  destruct (for_each_run w dataset opt testing_iterations saving_iterations
              checkpoint_iterations debug_from num_max passes Hw
              (initial_state pipe)) as (t & s' & E & Ht).
  assert (Hrun : loop_renders
                   (trace w dataset opt pipe testing_iterations
                      saving_iterations checkpoint_iterations checkpoint
                      debug_from sparse_num num_max)
                 = loop_renders t).
  { unfold trace, training. rewrite E. cbn [fst].
    rewrite loop_renders_app. unfold setup_events.
    destruct (start_checkpoint checkpoint); reflexivity. }
  unfold rendered_cameras. rewrite Hrun.
  pose proof (loop_renders_loop _ _ Ht) as Hits.
  split; [ exact Hits | ].
  assert (Hlen : List.length (rendered_cameras t) = List.length passes).
  { unfold rendered_cameras. rewrite <- Hits. now rewrite !length_map. }
  fold (rendered_cameras t).
  destruct (for_each_epochs passes (initial_state pipe) t s' [] [] E
              (Forall_nil _) (or_introl (conj eq_refl eq_refl)))
    as (es & partial & Eq & Hes & Hst).
  simpl in Eq. rewrite Eq in *.
  set (n := List.length (getTrainCameras w)) in *.
  assert (Hn : Forall (fun e : list Camera => List.length e = n) es).
  { eapply Forall_impl; [ | exact Hes ].
    intros e He. now apply Permutation_length in He. }
  assert (Hpos : (0 < n)%nat).
  { destruct Hw as (Hc & _). subst n.
    destruct (getTrainCameras w); [ congruence | simpl; lia ]. }
  assert (Hpartial : (List.length partial < n)%nat).
  { destruct Hst as [[-> _]|[Hs Hp]]; [ exact Hpos | ].
    apply Permutation_length in Hp. rewrite length_app in Hp.
    destruct (viewpoint_stack s'); [ congruence | ].
    simpl in Hp. subst n. lia. }
  assert (Hkes : (k < List.length es)%nat).
  { rewrite length_app, (length_concat_blocks n es Hn) in Hlen. nia. }
  rewrite (block_of_concat n es partial Hn k Hkes).
  rewrite Forall_forall in Hes. apply Hes. now apply nth_In.
Qed.

End Cameras.

(** X4 on [demo_opt], with a report that evaluates at iteration 2: three
    cameras, eight iterations; the second block of three renders. *)
Lemma cameras_by_epochs_witness :
  well_configured demo_world demo_opt
  /\ ((1 + 1) * 3 <= 8)%nat
  /\ map fst
       (loop_renders
          (trace demo_world demo_dataset demo_opt demo_pipe [2] [] [4]
             None (-1) 1 None))
     = [1; 2; 3; 4; 5; 6; 7; 8]
  /\ Permutation
       (firstn 3
          (skipn 3
             (rendered_cameras
                (trace demo_world demo_dataset demo_opt demo_pipe [2] [] [4]
                   None (-1) 1 None))))
       [0%nat; 1%nat; 2%nat].
Proof.
  assert (Hw : well_configured demo_world demo_opt)
    by (apply demo_well_configured; discriminate).
  assert (Hk : ((1 + 1) * 3 <= 8)%nat) by lia.
  split; [ exact Hw | split; [ exact Hk | ] ].
  exact (cameras_by_epochs demo_world demo_dataset demo_opt demo_pipe
           [2] [] [4] None (-1) 1 None 1%nat Hw Hk).
Defined.

(** Decides the comparisons of a goal on booleans of integers. *)
Ltac compare_all :=
  repeat match goal with
    | |- context [?a <=? ?b] => destruct (Z.leb_spec a b)
    | |- context [?a <? ?b] => destruct (Z.ltb_spec a b)
    | |- context [?a =? ?b] => destruct (Z.eqb_spec a b)
    end.

Section Ranges.

Context {Camera Snapshot Graph : Type}.
Local Abbreviation event := (@event Camera Snapshot Graph).
Local Abbreviation loop_state := (@loop_state Camera Graph).

Variable w : @World Camera Snapshot Graph.
Variable dataset : ModelParams.
Variable opt : OptimizationParams.
Variable pipe : PipelineParams.
Variables testing_iterations saving_iterations checkpoint_iterations : list Z.
Variable checkpoint : option pystr.
Variable debug_from : Z.
Variable sparse_num : Z.
Variable num_max : option Z.

Local Abbreviation body :=
  (iteration_body w dataset opt testing_iterations saving_iterations
     checkpoint_iterations debug_from num_max).
Local Abbreviation pass :=
  (pass_events w dataset opt testing_iterations saving_iterations
     checkpoint_iterations num_max).
Local Abbreviation passes := (loop_iterations w opt checkpoint).

Lemma py_range_nat (a b : Z) :
  py_range a b = py_range a (a + Z.of_nat (Z.to_nat (b - a))).
Proof. unfold py_range. do 2 f_equal. lia. Qed.

Lemma py_range_succ (a : Z) (n : nat) :
  py_range a (a + Z.of_nat (S n))
  = a :: py_range (a + 1) (a + 1 + Z.of_nat n).
Proof.
  rewrite py_range_cons by lia. do 2 f_equal. lia.
Qed.

(** The events of a loop carry iterations of the loop. *)
Lemma for_each_tagged (its : list Z) (s : loop_state) :
  Forall (fun e => exists j, In j its /\ event_iteration e = Some j)
    (fst (for_each its body s)).
Proof.
  apply emits_only_for_each. intros i Hi s'.
  eapply Forall_impl; [ | apply body_tagged ].
  intros e He. exists i. auto.
Qed.

Lemma for_range_debug (n : nat) :
  forall a s t s',
    for_each (py_range a (a + Z.of_nat n)) body s = (t, Returned (tt, s')) ->
    forall i cam dbg bg,
      In (Render i cam dbg bg) t ->
      dbg = pipe_debug s
            || ((a <=? debug_from + 1) && (debug_from + 1 <=? i)).
Proof.
  induction n as [|n IH]; intros a s t s' H i cam dbg bg Hin.
  - replace (a + Z.of_nat 0) with a in H by lia.
    unfold py_range in H. rewrite Z.sub_diag in H. inversion H; subst.
    destruct Hin.
  - rewrite py_range_succ in H. cbn [for_each] in H.
    apply bind_returned_inv in H as (t1 & [] & s1 & t2 & H1 & H2 & ->).
    apply body_returned_full in H1.
    destruct H1 as (k & cam1 & _ & -> & _ & Hd & _).
    apply in_app_or in Hin. destruct Hin as [Hin|Hin].
    + unfold_pass_in Hin. in_pieces. inversion Hin; subst.
      destruct (pipe_debug s); [ reflexivity | ].
      cbn [orb]. compare_all; simpl; (reflexivity || lia).
    + pose proof (for_each_tagged (py_range (a + 1) (a + 1 + Z.of_nat n)) s1)
        as Htag.
      rewrite H2 in Htag. cbn [fst] in Htag.
      rewrite Forall_forall in Htag.
      destruct (Htag _ Hin) as (j & Hj & Ej).
      apply py_range_In in Hj. inversion Ej; subst j.
      rewrite (IH _ _ _ _ H2 _ _ _ _ Hin), Hd.
      destruct (pipe_debug s); [ reflexivity | ].
      cbn [orb]. compare_all; simpl; (reflexivity || lia).
Qed.

Lemma sum_over_range_cons (f : Z -> Z) (a b : Z) :
  a < b -> sum_over f (py_range a b) = f a + sum_over f (py_range (a + 1) b).
Proof. intros H. rewrite py_range_cons by exact H. reflexivity. Qed.

Lemma sum_over_single (f : Z -> Z) (a : Z) :
  sum_over f (py_range a (a + 1)) = f a.
Proof.
  unfold py_range. replace (a + 1 - a) with 1 by lia.
  simpl. rewrite !Z.add_0_r. reflexivity.
Qed.

Lemma for_range_cum (n : nat) :
  forall a s t s',
    for_each (py_range a (a + Z.of_nat n)) body s = (t, Returned (tt, s')) ->
    forall i d c,
      In (WandbLogCum i d c) t ->
      WANDB_FOUND w = true
      /\ d = cum_deleted s
             + sum_over (fun j => snd (counts_of w opt j)) (py_range a (i + 1))
      /\ c = cum_created s
             + sum_over (fun j => fst (counts_of w opt j)) (py_range a (i + 1)).
Proof.
  induction n as [|n IH]; intros a s t s' H i d c Hin.
  - replace (a + Z.of_nat 0) with a in H by lia.
    unfold py_range in H. rewrite Z.sub_diag in H. inversion H; subst.
    destruct Hin.
  - rewrite py_range_succ in H. cbn [for_each] in H.
    apply bind_returned_inv in H as (t1 & [] & s1 & t2 & H1 & H2 & ->).
    apply body_returned_full in H1.
    destruct H1 as (k & cam1 & _ & -> & _ & _ & Hc).
    apply in_app_or in Hin. destruct Hin as [Hin|Hin].
    + unfold_pass_in Hin. in_pieces. inversion Hin; subst.
      inversion Hc.
      rewrite !sum_over_single.
      split; [ reflexivity | split; lia ].
    + pose proof (for_each_tagged (py_range (a + 1) (a + 1 + Z.of_nat n)) s1)
        as Htag.
      rewrite H2 in Htag. cbn [fst] in Htag.
      rewrite Forall_forall in Htag.
      destruct (Htag _ Hin) as (j & Hj & Ej).
      apply py_range_In in Hj. inversion Ej; subst j.
      destruct (IH _ _ _ _ H2 _ _ _ Hin) as (Hw & -> & ->).
      rewrite Hw in Hc. inversion Hc.
      rewrite !(sum_over_range_cons _ a) by lia.
      split; [ exact Hw | split; lia ].
Qed.

Lemma run_of_loop (t : list event) r :
  for_each passes body (initial_state pipe) = (t, r) ->
  trace w dataset opt pipe testing_iterations saving_iterations
    checkpoint_iterations checkpoint debug_from sparse_num num_max
  = setup_events w dataset checkpoint sparse_num ++ t.
Proof. intros E. unfold trace, training. now rewrite E. Qed.

Lemma in_loop_of_run (e : event) (t : list event) :
  event_iteration e <> None ->
  In e (setup_events w dataset checkpoint sparse_num ++ t) -> In e t.
Proof.
  intros He Hin. apply in_app_or in Hin. destruct Hin as [Hin|Hin]; [ | exact Hin ].
  exfalso. apply He. unfold setup_events in Hin.
  destruct (start_checkpoint checkpoint); simpl in Hin;
    intuition (subst; reflexivity).
Qed.

(** X5.  In a well configured run, [render] works in debug mode when
    [pipe.debug] was set from the start, and otherwise from iteration
    [debug_from + 1] on, provided the loop runs that iteration: a run
    resumed from a checkpoint taken after [debug_from] never switches
    debugging on, because line 85 tests for equality. *)
Theorem debug_from_switch (i : Z) (cam : Camera) (dbg : bool) (bg : background) :
  well_configured w opt ->
  In (Render i cam dbg bg)
    (trace w dataset opt pipe testing_iterations saving_iterations
       checkpoint_iterations checkpoint debug_from sparse_num num_max) ->
  dbg = debug pipe
        || ((first_iter w checkpoint <=? debug_from) && (debug_from <? i)).
Proof.
  intros Hw Hin.
  destruct (for_each_run w dataset opt testing_iterations saving_iterations
              checkpoint_iterations debug_from num_max passes Hw
              (initial_state pipe)) as (t & s' & E & _).
  rewrite (run_of_loop t _ E) in Hin.
  apply in_loop_of_run in Hin; [ | discriminate ].
  unfold loop_iterations in E. rewrite py_range_nat in E.
  rewrite (for_range_debug _ _ _ _ _ E _ _ _ _ Hin).
  cbn [pipe_debug initial_state].
  destruct (debug pipe); [ reflexivity | ].
  cbn [orb]. compare_all; simpl; (reflexivity || lia).
Qed.

(** X6.  In a well configured run, the counters logged at an iteration
    ([cum_deleted], [cum_created]) are the sums, over the iterations of
    this run up to that one, of what [densify_and_prune] returned (nothing
    for the iterations that did not call it); a resumed run counts from
    zero again.  They are logged only when [wandb] was found. *)
Theorem cumulative_counts (i d c : Z) :
  well_configured w opt ->
  In (WandbLogCum i d c)
    (trace w dataset opt pipe testing_iterations saving_iterations
       checkpoint_iterations checkpoint debug_from sparse_num num_max) ->
  WANDB_FOUND w = true
  /\ d = sum_over (fun j => snd (counts_of w opt j))
           (py_range (first_iter w checkpoint + 1) (i + 1))
  /\ c = sum_over (fun j => fst (counts_of w opt j))
           (py_range (first_iter w checkpoint + 1) (i + 1)).
Proof.
  intros Hw Hin.
  destruct (for_each_run w dataset opt testing_iterations saving_iterations
              checkpoint_iterations debug_from num_max passes Hw
              (initial_state pipe)) as (t & s' & E & _).
  rewrite (run_of_loop t _ E) in Hin.
  apply in_loop_of_run in Hin; [ | discriminate ].
  unfold loop_iterations in E. rewrite py_range_nat in E.
  destruct (for_range_cum _ _ _ _ _ E _ _ _ Hin) as (Hf & -> & ->).
  cbn [cum_deleted cum_created initial_state].
  split; [ exact Hf | split; lia ].
Qed.

End Ranges.

(** X5 with [debug_from = 2]: iteration 4 renders in debug mode. *)
Lemma debug_from_switch_witness :
  well_configured demo_world demo_opt
  /\ In (Render 4 1%nat true Black)
       (trace demo_world demo_dataset demo_opt demo_pipe [] [] [4] None 2 1 None)
  /\ true = debug demo_pipe
            || ((first_iter demo_world None <=? 2) && (2 <? 4)).
Proof.
  assert (Hw : well_configured demo_world demo_opt)
    by (apply demo_well_configured; discriminate).
  assert (Hin : In (Render 4 1%nat true Black)
                  (trace demo_world demo_dataset demo_opt demo_pipe [] [] [4]
                     None 2 1 None)).
  { apply (nth_error_In _ 39). vm_compute. reflexivity. }
  split; [ exact Hw | split; [ exact Hin | ] ].
  exact (debug_from_switch demo_world demo_dataset demo_opt demo_pipe
           [] [] [4] None 2 1 None 4 1%nat true Black Hw Hin).
Defined.

(** X6 on [demo_opt]: the counters logged at iteration 4, after the calls
    of iterations 2 and 4. *)
Lemma cumulative_counts_witness :
  well_configured demo_world demo_opt
  /\ In (WandbLogCum 4 2 4) (demo_run demo_opt None)
  /\ 2 = sum_over (fun j => snd (counts_of demo_world demo_opt j))
           (py_range (first_iter demo_world None + 1) (4 + 1))
  /\ 4 = sum_over (fun j => fst (counts_of demo_world demo_opt j))
           (py_range (first_iter demo_world None + 1) (4 + 1)).
Proof.
  assert (Hw : well_configured demo_world demo_opt)
    by (apply demo_well_configured; discriminate).
  assert (Hin : In (WandbLogCum 4 2 4) (demo_run demo_opt None)).
  { apply (nth_error_In _ 48). vm_compute. reflexivity. }
  split; [ exact Hw | split; [ exact Hin | ] ].
  exact (proj2 (cumulative_counts demo_world demo_dataset demo_opt demo_pipe
                  [] [] [4] None (-1) 1 None 4 2 4 Hw Hin)).
Defined.

Section MoreOfThePass.

Context {Camera Snapshot Graph : Type}.
Local Abbreviation event := (@event Camera Snapshot Graph).
Local Abbreviation M := (@M Camera Snapshot Graph).

Variable w : @World Camera Snapshot Graph.
Variable dataset : ModelParams.
Variable opt : OptimizationParams.
Variable pipe : PipelineParams.
Variables testing_iterations saving_iterations checkpoint_iterations : list Z.
Variable checkpoint : option pystr.
Variable debug_from : Z.
Variable sparse_num : Z.
Variable num_max : option Z.

Local Abbreviation body :=
  (iteration_body w dataset opt testing_iterations saving_iterations
     checkpoint_iterations debug_from num_max).
Local Abbreviation passes := (loop_iterations w opt checkpoint).

Lemma emits_only_when_cond P b (m : M unit) :
  (b = true -> emits_only P m) -> emits_only P (when b m).
Proof.
  intros H. destruct b; simpl; [ now apply H | apply emits_only_ret ].
Qed.

(** X7.  Telemetry tolerates the absence of [wandb]: when the import
    failed, no run, however it ends, makes a [wandb.log] call, neither in
    the loop (lines 152 and 179) nor inside [training_report] (lines 222
    and 271), which reads the same flag. *)
Theorem no_wandb_call_when_missing (e : event) :
  WANDB_FOUND w = false ->
  In e (trace w dataset opt pipe testing_iterations saving_iterations
          checkpoint_iterations checkpoint debug_from sparse_num num_max) ->
  is_wandb_log e = false.
Proof.
  intros Hoff. revert e. apply Forall_forall. apply run_emits_only.
  - unfold setup_events.
    destruct (start_checkpoint checkpoint); repeat constructor.
  - intros i _.
    unfold iteration_body, schedule, pick_camera, render_view, geo_loss,
      log_and_save, report, densification, densify, opacity_reset,
      rebuild_graph, log_cumulative, optimizer_step, save_checkpoint.
    cbv zeta.
    repeat (first [ apply emits_only_when_cond; intros ?
                  | emits_step ]; cbv zeta);
      first [ apply report_without_wandb; exact Hoff
            | reflexivity
            | congruence ].
Qed.

(** X8.  In a well configured run every iteration starts with the
    learning-rate update, raises the SH degree right after it exactly when
    the iteration is a multiple of 1000, and then renders; neither call is
    made again in the iteration. *)
Theorem sh_degree_schedule (i : Z) :
  well_configured w opt ->
  In i (loop_iterations w opt checkpoint) ->
  exists cam dbg bg rest,
    events_at i
      (trace w dataset opt pipe testing_iterations saving_iterations
         checkpoint_iterations checkpoint debug_from sparse_num num_max)
    = UpdateLearningRate i
      :: (if i mod 1000 =? 0 then [OneupSHdegree i] else [])
      ++ Render i cam dbg bg :: rest
    /\ Forall (fun e => match e with
                        | UpdateLearningRate _ | OneupSHdegree _ => False
                        | _ => True
                        end) rest.
Proof.
  intros Hw Hi.
  destruct (events_at_run w dataset opt pipe testing_iterations
              saving_iterations checkpoint_iterations checkpoint debug_from
              sparse_num num_max i Hw Hi) as (k & cam & dbg & c & E).
  exists cam, dbg,
    (if random_background opt then RandomColor else bg_color dataset),
    (geo_events w i k
       ++ Backward i
       :: tail_events w dataset opt testing_iterations saving_iterations
            checkpoint_iterations num_max i c).
  split.
  - rewrite E. reflexivity.
  - unfold_pass. forall_pieces; exact I.
Qed.

(** X9.  At an iteration that is both a saving and a checkpoint iteration
    of a well configured run, [scene.save] comes before every call of the
    iteration that changes the population or steps the optimizer, while
    [torch.save] is the last call of the iteration, after the optimizer
    step when there is one: the saved scene is the model the iteration
    rendered, the checkpoint the model it leaves.  The checkpoint goes to
    the folder of the scene, which is the one
    [prepare_output_and_logger] chose when no model path was given. *)
Theorem saves_around_update (i : Z) :
  well_configured w opt ->
  In i (loop_iterations w opt checkpoint) ->
  In i saving_iterations ->
  In i checkpoint_iterations ->
  exists l1 l2,
    events_at i
      (trace w dataset opt pipe testing_iterations saving_iterations
         checkpoint_iterations checkpoint debug_from sparse_num num_max)
    = l1 ++ SceneSave i
      :: l2 ++ [TorchSave (capture w i) i
                  (chkpnt_path (scene_model_path w dataset) i)]
    /\ Forall (fun e => is_mutation e = false
                        /\ is_optimizer_call e = false) l1
    /\ (i < iterations opt -> In (OptimizerStep i) l2).
Proof.
  intros Hw Hi Hs Hc.
  destruct (events_at_run w dataset opt pipe testing_iterations
              saving_iterations checkpoint_iterations checkpoint debug_from
              sparse_num num_max i Hw Hi) as (k & cam & dbg & c & E).
  apply py_in_true in Hs, Hc.
  exists (schedule_events i
            ++ Render i cam dbg
                 (if random_background opt then RandomColor
                  else bg_color dataset)
            :: geo_events w i k
            ++ Backward i
            :: (if i mod 10 =? 0 then [ProgressUpdate i] else [])
            ++ (if i =? iterations opt then [ProgressClose i] else [])
            ++ [TrainingReport i
                  (report_calls w dataset testing_iterations i)]),
    ((if WANDB_FOUND w then [WandbLogMetrics i] else [])
       ++ densification_events dataset opt num_max i
       ++ cum_events w i c ++ optimizer_events opt i).
  split; [ | split ].
  - rewrite E.
    unfold pass_events, tail_events, log_events, checkpoint_events.
    rewrite Hs, Hc.
    repeat (rewrite <- app_assoc || cbn [app]). reflexivity.
  - unfold schedule_events, geo_events.
    forall_pieces; split; reflexivity.
  - intros Hlt. apply Z.ltb_lt in Hlt.
    unfold optimizer_events. rewrite Hlt.
    rewrite !in_app_iff. simpl. tauto.
Qed.

End MoreOfThePass.

Section Paths.

Lemma py_injective (a b : string) : py a = py b -> a = b.
Proof.
  unfold py. intros H.
  assert (E : list_ascii_of_string a = list_ascii_of_string b).
  { revert H. generalize (list_ascii_of_string a) (list_ascii_of_string b).
    induction l as [|c l IH]; intros [|d l'] H; simpl in H;
      try discriminate; [ reflexivity | ].
    inversion H as [[Hc Hl]]. f_equal; [ | now apply IH ].
    rewrite <- (ascii_N_embedding c), <- (ascii_N_embedding d).
    now rewrite Hc. }
  rewrite <- (string_of_list_ascii_of_string a),
    <- (string_of_list_ascii_of_string b).
  now rewrite E.
Qed.

Lemma str_injective (a b : Z) : str a = str b -> a = b.
Proof.
  unfold str. intros H. apply py_injective in H.
  apply DecimalZ.to_int_inj.
  assert (Hnil : forall z, Z.to_int z <> Decimal.Pos Decimal.Nil
                           /\ Z.to_int z <> Decimal.Neg Decimal.Nil).
  { intros [|p|p]; simpl; split; try discriminate;
      intros E; inversion E as [E'];
      now apply DecimalPos.Unsigned.to_uint_nonnil in E'. }
  apply (f_equal NilZero.int_of_string) in H.
  rewrite !NilZero.isi in H by apply Hnil.
  now inversion H.
Qed.

(** X10.  The name of a checkpoint file determines its iteration: two
    iterations never write the same file, whatever the folder of the
    scene. *)
Theorem chkpnt_path_injective (folder : pystr) (i j : Z) :
  chkpnt_path folder i = chkpnt_path folder j -> i = j.
Proof.
  unfold chkpnt_path. intros H.
  apply app_inv_head in H. apply app_inv_head in H.
  apply app_inv_tail in H. now apply str_injective.
Qed.

End Paths.

(** X7 on [quiet_world], with a report that evaluates at iteration 2:
    no [wandb.log] inside the report, and no cumulative log at iteration
    4. *)
Lemma no_wandb_call_when_missing_witness :
  WANDB_FOUND quiet_world = false
  /\ In (TrainingReport 2 (report_calls quiet_world demo_dataset [2] 2))
       (trace quiet_world demo_dataset demo_opt demo_pipe [2] [] [4]
          None (-1) 1 None)
  /\ @is_wandb_log nat Z Z
       (TrainingReport 2 (report_calls quiet_world demo_dataset [2] 2))
     = false
  /\ ~ In (WandbLogCum 4 2 4)
         (trace quiet_world demo_dataset demo_opt demo_pipe [2] [] [4]
            None (-1) 1 None).
Proof.
  assert (Hin : In (TrainingReport 2
                      (report_calls quiet_world demo_dataset [2] 2))
                  (trace quiet_world demo_dataset demo_opt demo_pipe
                     [2] [] [4] None (-1) 1 None)).
  { vm_compute. repeat (first [ left; reflexivity | right ]). }
  split; [ reflexivity | split; [ exact Hin | split ] ].
  - exact (no_wandb_call_when_missing quiet_world demo_dataset demo_opt
             demo_pipe [2] [] [4] None (-1) 1 None _ eq_refl Hin).
  - intros Hc.
    pose proof (no_wandb_call_when_missing quiet_world demo_dataset demo_opt
                  demo_pipe [2] [] [4] None (-1) 1 None _ eq_refl Hc) as H.
    discriminate H.
Defined.

(** X8 on [resumed_opt]: iteration 3000. *)
Lemma sh_degree_schedule_witness :
  well_configured demo_world resumed_opt
  /\ In 3000 (loop_iterations demo_world resumed_opt demo_checkpoint)
  /\ exists cam dbg bg rest,
      events_at 3000 (demo_run resumed_opt demo_checkpoint)
      = UpdateLearningRate 3000 :: [OneupSHdegree 3000]
        ++ Render 3000 cam dbg bg :: rest.
Proof.
  assert (Hw : well_configured demo_world resumed_opt)
    by (apply demo_well_configured; discriminate).
  assert (Hi : In 3000 (loop_iterations demo_world resumed_opt demo_checkpoint))
    by (apply py_range_In; cbn; lia).
  split; [ exact Hw | split; [ exact Hi | ] ].
  destruct (sh_degree_schedule demo_world demo_dataset resumed_opt demo_pipe
              [] [] [4] demo_checkpoint (-1) 1 None 3000 Hw Hi)
    as (cam & dbg & bg & rest & E & _).
  exists cam, dbg, bg, rest. exact E.
Defined.

(** X9 on [demo_opt] without a model path, with iteration 4 saved and
    checkpointed: the file lies in the folder named after the job. *)
Lemma saves_around_update_witness :
  well_configured demo_world demo_opt
  /\ In 4 (loop_iterations demo_world demo_opt None)
  /\ In 4 [4]
  /\ exists l1 l2,
      events_at 4
        (trace demo_world unnamed_dataset demo_opt demo_pipe [] [4] [4]
           None (-1) 1 None)
      = l1 ++ SceneSave 4
        :: l2 ++ [TorchSave 4 4 (py "./output/1234567890/chkpnt4.pth")]
      /\ In (OptimizerStep 4) l2.
Proof.
  assert (Hw : well_configured demo_world demo_opt)
    by (apply demo_well_configured; discriminate).
  assert (Hi : In 4 (loop_iterations demo_world demo_opt None))
    by (apply py_range_In; cbn; lia).
  assert (Hs : In 4 [4]) by (now left).
  split; [ exact Hw | split; [ exact Hi | split; [ exact Hs | ] ] ].
  destruct (saves_around_update demo_world unnamed_dataset demo_opt demo_pipe
              [] [4] [4] None (-1) 1 None 4 Hw Hi Hs Hs)
    as (l1 & l2 & E & _ & Hstep).
  exists l1, l2. split; [ exact E | ].
  apply Hstep. reflexivity.
Defined.

(** X10 on two file names. *)
Lemma chkpnt_path_injective_witness :
  chkpnt_path (py "out") 7000 = chkpnt_path (py "out") (3500 + 3500)
  /\ 7000 = 3500 + 3500.
Proof.
  assert (E : chkpnt_path (py "out") 7000
              = chkpnt_path (py "out") (3500 + 3500)) by reflexivity.
  split; [ exact E | ].
  exact (chkpnt_path_injective (py "out") 7000 (3500 + 3500) E).
Defined.

(** * Beyond the claims: the script *)

Section MainFacts.

Context {Camera Snapshot Graph : Type}.
Local Abbreviation event := (@event Camera Snapshot Graph).
Local Abbreviation main_event := (@main_event Camera Snapshot Graph).

Variable w : @World Camera Snapshot Graph.
Variable args : Args.



(** X12.  The script raises [AttributeError] exactly when [wandb] was
    found and no run name was given (the default): [init_wandb] then fails
    on [wandb_run_name.encode] right after the login, outside the [try],
    and [training] is never called. *)
Theorem missing_run_name_aborts :
  (snd (main w args) = MainRaised AttributeError
   <-> (WANDB_FOUND w = true /\ wandb_run_name args = None))
  /\ (WANDB_FOUND w = true -> wandb_run_name args = None ->
      fst (main w args) = [WandbLogin]).
Proof.
  unfold main, init_wandb. split.
  - destruct (WANDB_FOUND w); [ destruct (wandb_run_name args) | ];
      try destruct (main_training w args) as [t [x|e]]; cbn [snd];
      split; intros H; try discriminate H;
      try (destruct H; discriminate); auto.
  - intros -> ->. reflexivity.
Qed.



End MainFacts.


(** X12 on [demo_args]: [wandb] found, no run name. *)
Lemma missing_run_name_aborts_witness :
  WANDB_FOUND demo_world = true
  /\ wandb_run_name demo_args = None
  /\ fst (main demo_world demo_args) = [WandbLogin].
Proof.
  split; [ reflexivity | split; [ reflexivity | ] ].
  exact (proj2 (missing_run_name_aborts demo_world demo_args)
           eq_refl eq_refl).
Defined.


Section OutputFacts.

Lemma starts_with_slash_firstn (n : nat) (s : pystr) :
  starts_with_slash (firstn (S n) s) = starts_with_slash s.
Proof. destruct s; reflexivity. Qed.

Lemma output_path_nonempty (env : OutputEnv) (path : pystr) :
  output_path env path <> [].
Proof.
  unfold output_path, os_path_join. destruct path; [ | discriminate ].
  destruct (firstn 10 (unique_str env)) as [|c s] eqn:E.
  - discriminate.
  - simpl. destruct (c =? slash)%N; discriminate.
Qed.

Lemma output_path_keeps (env : OutputEnv) (path : pystr) :
  path <> [] -> output_path env path = path.
Proof. destruct path; [ congruence | reflexivity ]. Qed.

(** X14.  [prepare_output_and_logger] never creates a folder with an empty
    name: the model path it leaves in [args] is not empty, it is the path
    given when one was given, the folder created is that path, and calling
    the function again on its result keeps the path. *)
Theorem output_path_stable (env env' : OutputEnv) (path : pystr) :
  let path' := fst (fst (prepare_output_and_logger env path)) in
  path' <> []
  /\ (path <> [] -> path' = path)
  /\ In (MakeDirs path') (snd (fst (prepare_output_and_logger env path)))
  /\ fst (fst (prepare_output_and_logger env' path')) = path'.
Proof.
  assert (E : forall e p, fst (fst (prepare_output_and_logger e p))
                          = output_path e p).
  { intros e p. unfold prepare_output_and_logger.
    destruct (TENSORBOARD_FOUND e); reflexivity. }
  cbv zeta. rewrite !E. split; [ | split; [ | split ] ].
  - apply output_path_nonempty.
  - apply output_path_keeps.
  - unfold prepare_output_and_logger.
    destruct (TENSORBOARD_FOUND env); simpl; tauto.
  - apply output_path_keeps. apply output_path_nonempty.
Qed.

(** X15.  Without a model path, the folder is named after the first ten
    characters of the job identifier, or of the uuid when the variable is
    unset or empty: it lies under [./output/] unless those characters
    start with a slash, in which case [os.path.join] drops [./output/];
    either way the path has at most 19 characters.  Strings are sequences
    of characters, so this counts characters whatever their encoding. *)
Theorem default_output_path (env : OutputEnv) :
  let id := unique_str env in
  output_path env []
  = (if starts_with_slash id then firstn 10 id
     else py "./output/" ++ firstn 10 id)
  /\ (List.length (output_path env []) <= 19)%nat
  /\ (forall job, OAR_JOB_ID env = Some job -> job <> [] -> id = job)
  /\ (OAR_JOB_ID env = None \/ OAR_JOB_ID env = Some [] -> id = uuid4 env).
Proof.
  cbv zeta.
  assert (E : output_path env []
              = (if starts_with_slash (unique_str env)
                 then firstn 10 (unique_str env)
                 else py "./output/" ++ firstn 10 (unique_str env))).
  { unfold output_path, os_path_join.
    rewrite starts_with_slash_firstn.
    destruct (starts_with_slash (unique_str env)); reflexivity. }
  split; [ exact E | split; [ | split ] ].
  - rewrite E. pose proof (firstn_le_length 10 (unique_str env)) as H.
    destruct (starts_with_slash (unique_str env)).
    + lia.
    + rewrite length_app. change (List.length (py "./output/")) with 9%nat.
      lia.
  - intros job Hjob Hne. unfold unique_str. rewrite Hjob.
    destruct job; [ congruence | reflexivity ].
  - intros [H|H]; unfold unique_str; rewrite H; reflexivity.
Qed.

End OutputFacts.

(** X15 on [unicode_env]: the job identifier has twelve characters, none
    of them ASCII; ten are kept. *)
Lemma default_output_path_witness :
  OAR_JOB_ID unicode_env = Some (repeat 20013%N 12)
  /\ unique_str unicode_env = repeat 20013%N 12
  /\ output_path unicode_env [] = py "./output/" ++ repeat 20013%N 10
  /\ List.length (output_path unicode_env []) = 19%nat.
Proof.
  destruct (default_output_path unicode_env) as (E & _ & Hjob & _).
  split; [ reflexivity | split; [ | split ] ].
  - apply Hjob; [ reflexivity | discriminate ].
  - rewrite E. reflexivity.
  - rewrite E. reflexivity.
Defined.

(** X14 on [plain_env]: no path given. *)
Lemma output_path_stable_witness :
  fst (fst (prepare_output_and_logger plain_env []))
  = (py "./output/0f8fad5b-d")
  /\ fst (fst (prepare_output_and_logger job_env (py "./output/0f8fad5b-d")))
     = (py "./output/0f8fad5b-d").
Proof.
  split; [ reflexivity | ].
  exact (proj2 (proj2 (proj2 (output_path_stable plain_env job_env [])))).
Defined.

(** * Beyond the claims: the report *)

Section ReportFacts.

Context {Camera : Type}.
Local Abbreviation R := (@R Camera).
Local Abbreviation report_event := (@report_event Camera).

Section OneReport.

Variable env : @ReportEnv Camera.
Variable tb_writer : bool.
Variable iteration : Z.
Variable testing_iterations : list Z.

Lemma evaluated_cameras_app (l1 l2 : list report_event) :
  evaluated_cameras (l1 ++ l2) = evaluated_cameras l1 ++ evaluated_cameras l2.
Proof. apply flat_map_app. Qed.

Lemma evaluated_cameras_skip (e : report_event) (l : list report_event) :
  (forall name cam, e <> EvalRender name cam) ->
  evaluated_cameras (e :: l) = evaluated_cameras l.
Proof.
  intros H. destruct e; try reflexivity.
  exfalso. eapply H. reflexivity.
Qed.

Lemma evaluated_cameras_views (name : pystr) (views : list (nat * Camera)) :
  evaluated_cameras
    (flat_map (view_events env tb_writer iteration testing_iterations name)
       views)
  = map snd views.
Proof.
  induction views as [|[idx cam] views IH]; [ reflexivity | ].
  cbn [flat_map map snd]. rewrite evaluated_cameras_app, IH.
  unfold view_events. cbn [fst snd].
  destruct (tb_writer && (idx <? 5)%nat);
    [ destruct (iteration =? hd 0 testing_iterations) | ]; reflexivity.
Qed.

Lemma enumerate_snd {A : Type} (l : list A) : map snd (enumerate l) = l.
Proof.
  unfold enumerate. generalize 0%nat.
  induction l as [|x l IH]; intros a; [ reflexivity | ].
  simpl. now rewrite IH.
Qed.

Lemma evaluated_cameras_config (name : pystr) (cameras : list Camera) :
  evaluated_cameras
    (config_events env tb_writer iteration testing_iterations name cameras)
  = cameras.
Proof.
  destruct cameras as [|c cameras]; [ reflexivity | ].
  unfold config_events.
  rewrite evaluated_cameras_app, evaluated_cameras_views, enumerate_snd.
  cbn [evaluated_cameras flat_map app].
  destruct tb_writer, (report_wandb env); simpl; rewrite ?app_nil_r;
    reflexivity.
Qed.

Lemma images_of_views (name : pystr) (cameras : list Camera) :
  forall a,
    List.length
      (filter is_add_images
         (flat_map (view_events env tb_writer iteration testing_iterations name)
            (combine (seq a (List.length cameras)) cameras)))
    = (if tb_writer
       then (Nat.min 5 (a + List.length cameras) - Nat.min 5 a)
            * (if (iteration =? hd 0 testing_iterations)%Z then 2 else 1)
       else 0)%nat.
Proof.
  induction cameras as [|c cameras IH]; intros a.
  - simpl. rewrite Nat.add_0_r, Nat.sub_diag. now destruct tb_writer.
  - cbn [List.length seq combine flat_map].
    rewrite filter_app, length_app, IH.
    unfold view_events. cbn [fst snd filter is_add_images].
    destruct tb_writer; [ | reflexivity ]. cbn [andb].
    destruct (Nat.ltb_spec a 5);
      destruct (iteration =? hd 0 testing_iterations);
      cbn [filter is_add_images List.length]; lia.
Qed.

Lemma images_of_config (name : pystr) (cameras : list Camera) :
  List.length
    (filter is_add_images
       (config_events env tb_writer iteration testing_iterations name cameras))
  = (if tb_writer
     then Nat.min 5 (List.length cameras)
          * (if (iteration =? hd 0 testing_iterations)%Z then 2 else 1)
     else 0)%nat.
Proof.
  destruct cameras as [|c cameras]; [ now destruct tb_writer | ].
  unfold config_events. rewrite filter_app, length_app.
  unfold enumerate. rewrite images_of_views.
  cbn [filter is_add_images].
  destruct tb_writer, (report_wandb env); simpl; lia.
Qed.

(** X16.  [training_report] never raises: the division by the number of
    cameras of a configuration is only reached for a configuration that has
    cameras, [testing_iterations[0]] is only read at a testing iteration,
    and the indices of line 232 stay inside the list of training
    cameras. *)
Theorem training_report_never_raises :
  snd (training_report env tb_writer iteration testing_iterations)
  = Returned tt.
Proof.
  destruct (training_report_run env tb_writer iteration testing_iterations)
    as (fifth & _ & E).
  now rewrite E.
Qed.

(** X17.  Outside the testing iterations the report renders nothing.  At a
    testing iteration it renders each test camera once, in order, and then
    the training cameras at the positions 0, 5, 10, ...: a fifth of them,
    rounded up. *)
Theorem report_evaluates_test_and_every_fifth :
  (py_in iteration testing_iterations = false ->
   evaluated_cameras
     (fst (training_report env tb_writer iteration testing_iterations)) = [])
  /\ (py_in iteration testing_iterations = true ->
      exists fifth,
        evaluated_cameras
          (fst (training_report env tb_writer iteration testing_iterations))
        = getTestCameras env ++ fifth
        /\ List.length fifth
           = ((List.length (report_train_cameras env) + 4) / 5)%nat
        /\ forall k, (k < List.length fifth)%nat ->
                     nth_error fifth k
                     = nth_error (report_train_cameras env) (5 * k)).
Proof.
  destruct (training_report_run env tb_writer iteration testing_iterations)
    as (fifth & Ef & E).
  rewrite E. cbn [fst].
  destruct (every_fifth_returns (report_train_cameras env))
    as (fifth' & Ef' & Hlen & Hnth).
  assert (fifth' = fifth) by congruence. subst fifth'.
  split; intros Hin; rewrite Hin.
  - destruct tb_writer, (report_wandb env); reflexivity.
  - exists fifth. split; [ | split; assumption ].
    rewrite !evaluated_cameras_app.
    replace (evaluated_cameras
               (if tb_writer
                then [AddScalar (py "train_loss_patches/l1_loss") iteration;
                      AddScalar (py "train_loss_patches/total_loss") iteration;
                      AddScalar (py "iter_time") iteration]
                else [])) with (@nil Camera) by (now destruct tb_writer).
    replace (evaluated_cameras
               (if report_wandb env
                then [ReportWandbLog [py "n_gaussians"] iteration]
                else [])) with (@nil Camera)
      by (now destruct (report_wandb env)).
    cbn [app]. rewrite evaluated_cameras_skip by (intros; discriminate).
    rewrite !evaluated_cameras_app, !evaluated_cameras_config.
    replace (evaluated_cameras
               (if tb_writer
                then [AddHistogram (py "scene/opacity_histogram") iteration;
                      AddScalar (py "total_points") iteration]
                else [])) with (@nil Camera) by (now destruct tb_writer).
    simpl. now rewrite app_nil_r.
Qed.

(** X18.  At a testing iteration the report sends images only when there
    is a writer, for the first five views of each configuration at most,
    and twice as many (render and ground truth) exactly when the iteration
    is the first of [testing_iterations]. *)
Theorem report_image_budget :
  py_in iteration testing_iterations = true ->
  List.length
    (filter is_add_images
       (fst (training_report env tb_writer iteration testing_iterations)))
  = (if tb_writer
     then (Nat.min 5 (List.length (getTestCameras env))
           + Nat.min 5 ((List.length (report_train_cameras env) + 4) / 5))
          * (if (iteration =? hd 0 testing_iterations)%Z then 2 else 1)
     else 0)%nat.
Proof.
  intros Hin.
  destruct (training_report_run env tb_writer iteration testing_iterations)
    as (fifth & Ef & E).
  rewrite E. cbn [fst].
  destruct (every_fifth_returns (report_train_cameras env))
    as (fifth' & Ef' & Hlen & _).
  assert (fifth' = fifth) by congruence. subst fifth'.
  rewrite Hin, <- Hlen.
  rewrite !filter_app, !length_app. cbn [filter is_add_images].
  rewrite !filter_app, !length_app, !images_of_config.
  destruct tb_writer, (report_wandb env);
    destruct (iteration =? hd 0 testing_iterations);
    cbn [filter is_add_images List.length]; lia.
Qed.

End OneReport.

End ReportFacts.

(** X17 on [demo_report_env]: seven training cameras, two of them
    evaluated. *)
Lemma report_evaluates_test_and_every_fifth_witness :
  py_in 2 [2; 7] = true
  /\ evaluated_cameras (fst (training_report demo_report_env true 2 [2; 7]))
     = [100; 101; 0; 5]%nat.
Proof.
  split; [ reflexivity | ].
  destruct (proj2 (report_evaluates_test_and_every_fifth demo_report_env
                     true 2 [2; 7]) eq_refl) as (fifth & E & _).
  reflexivity.
Defined.

(** X18 on [demo_report_env]: four views, images of the render only at
    iteration 7. *)
Lemma report_image_budget_witness :
  py_in 7 [2; 7] = true
  /\ List.length
       (filter is_add_images
          (fst (training_report demo_report_env true 7 [2; 7])))
     = 4%nat.
Proof.
  split; [ reflexivity | ].
  exact (report_image_budget demo_report_env true 7 [2; 7] eq_refl).
Defined.

(** * Beyond the claims: the loop, continued *)

Section GraphAge.

Context {Camera Snapshot Graph : Type}.
Local Abbreviation event := (@event Camera Snapshot Graph).
Local Abbreviation loop_state := (@loop_state Camera Graph).
Local Abbreviation M := (@M Camera Snapshot Graph).

Variable w : @World Camera Snapshot Graph.
Variable dataset : ModelParams.
Variable opt : OptimizationParams.
Variable pipe : PipelineParams.
Variables testing_iterations saving_iterations checkpoint_iterations : list Z.
Variable checkpoint : option pystr.
Variable debug_from : Z.
Variable sparse_num : Z.
Variable num_max : option Z.

Local Abbreviation body :=
  (iteration_body w dataset opt testing_iterations saving_iterations
     checkpoint_iterations debug_from num_max).
Local Abbreviation pass :=
  (pass_events w dataset opt testing_iterations saving_iterations
     checkpoint_iterations num_max).
Local Abbreviation passes := (loop_iterations w opt checkpoint).

Lemma knn_step_ret {A : Type} i (a : A) : knn_step w i (ret a : M A).
Proof. intros s t a' s' H. inversion H. now left. Qed.

Lemma knn_step_raise {A : Type} i e : knn_step w i (raise e : M A).
Proof. intros s t a s' H. discriminate H. Qed.

Lemma knn_step_get i : knn_step w i (get : M _).
Proof. intros s t a s' H. inversion H. now left. Qed.

Lemma knn_step_emit i e : knn_step w i (emit e : M _).
Proof. intros s t a s' H. inversion H. now left. Qed.

Lemma knn_step_modify i f :
  (forall s, KNN_index (f s) = KNN_index s
             \/ KNN_index (f s) = Some (findKNN w i)) ->
  knn_step w i (modify f : M _).
Proof. intros Hf s t a s' H. inversion H. apply Hf. Qed.

Lemma knn_step_bind {A B : Type} i (m : M A) (f : A -> M B) :
  knn_step w i m -> (forall a, knn_step w i (f a)) -> knn_step w i (bind m f).
Proof.
  intros Hm Hf s t b s' H.
  apply bind_returned_inv in H as (t1 & a & s1 & t2 & H1 & H2 & _).
  apply Hm in H1. apply Hf in H2.
  destruct H2 as [H2|H2]; [ rewrite H2; exact H1 | now right ].
Qed.

Lemma knn_step_when i b (m : M unit) :
  knn_step w i m -> knn_step w i (when b m).
Proof. intros H. destruct b; simpl; [ exact H | apply knn_step_ret ]. Qed.

Lemma knn_step_py_mod i a b : knn_step w i (py_mod a b : M Z).
Proof.
  unfold py_mod. destruct (b =? 0); [ apply knn_step_raise | apply knn_step_ret ].
Qed.

Lemma knn_step_py_randint i d lo hi : knn_step w i (py_randint d lo hi : M Z).
Proof.
  unfold py_randint.
  destruct (hi <? lo); [ apply knn_step_raise | apply knn_step_ret ].
Qed.

(** A pass leaves [KNN_index] alone or sets it to the graph of its own
    iteration. *)
Lemma body_knn_step (i : Z) : knn_step w i (body i).
Proof.
  unfold iteration_body, schedule, pick_camera, render_view, geo_loss,
    log_and_save, densification, densify, opacity_reset, rebuild_graph,
    log_cumulative, optimizer_step, save_checkpoint.
  cbv zeta.
  repeat (first
            [ apply knn_step_ret | apply knn_step_raise | apply knn_step_get
            | apply knn_step_emit | apply knn_step_py_mod
            | apply knn_step_py_randint | apply knn_step_when
            | apply knn_step_modify; intros ?; simpl; auto
            | apply knn_step_bind; [ | intros ? ]
            | match goal with
              | |- knn_step _ _ (if ?c then _ else _) => destruct c
              | |- knn_step _ _ (match ?x with _ => _ end) => destruct x
              end ]; cbv zeta).
Qed.

Lemma for_range_graph (lo : Z) (n : nat) :
  forall a s t s',
    for_each (py_range a (a + Z.of_nat n)) body s = (t, Returned (tt, s')) ->
    (forall g, KNN_index s = Some g ->
               exists j, lo <= j < a /\ g = findKNN w j) ->
    lo <= a ->
    forall i g,
      In (SurfaceAlign i g) t -> exists j, lo <= j < i /\ g = findKNN w j.
Proof.
  induction n as [|n IH]; intros a s t s' H Hinv Hlo i g Hin.
  - replace (a + Z.of_nat 0) with a in H by lia.
    unfold py_range in H. rewrite Z.sub_diag in H. inversion H; subst.
    destruct Hin.
  - rewrite py_range_succ in H. cbn [for_each] in H.
    apply bind_returned_inv in H as (t1 & [] & s1 & t2 & H1 & H2 & ->).
    pose proof (body_knn_step a _ _ _ _ H1) as Hstep.
    apply body_returned_full in H1.
    destruct H1 as (k & cam1 & _ & -> & _).
    apply in_app_or in Hin. destruct Hin as [Hin|Hin].
    + unfold_pass_in Hin.
      destruct (KNN_index s) as [g0|] eqn:Hk; in_pieces.
      inversion Hin; subst. apply Hinv. reflexivity.
    + apply (IH (a + 1) s1 t2 s' H2); [ | lia | exact Hin ].
      intros g1 Hg1. destruct Hstep as [Hs|Hs]; rewrite Hs in Hg1.
      * destruct (Hinv g1 Hg1) as (j & Hj & Eg). exists j. split; [ lia | exact Eg ].
      * inversion Hg1. exists a. split; [ lia | reflexivity ].
Qed.

(** X19.  The graph that the geometric term reads at an iteration of a
    well configured run was built by [findKNN] at an earlier iteration of
    the same run: the loss of an iteration is computed before its own
    rebuild, and nothing of a previous run survives a restart. *)
Theorem graph_built_earlier (i : Z) (g : Graph) :
  well_configured w opt ->
  In (SurfaceAlign i g)
    (trace w dataset opt pipe testing_iterations saving_iterations
       checkpoint_iterations checkpoint debug_from sparse_num num_max) ->
  exists j, first_iter w checkpoint < j < i /\ g = findKNN w j.
Proof.
  intros Hw Hin.
  destruct (for_each_run w dataset opt testing_iterations saving_iterations
              checkpoint_iterations debug_from num_max passes Hw
              (initial_state pipe)) as (t & s' & E & _).
  rewrite (run_of_loop w dataset opt pipe testing_iterations
             saving_iterations checkpoint_iterations checkpoint debug_from
             sparse_num num_max t _ E) in Hin.
  apply in_loop_of_run in Hin; [ | discriminate ].
  unfold loop_iterations in E. rewrite py_range_nat in E.
  destruct (for_range_graph (first_iter w checkpoint + 1) _ _ _ _ _ E)
    with (i := i) (g := g) as (j & Hj & Eg);
    [ intros g0 Hg0; discriminate Hg0 | lia | exact Hin | ].
  exists j. split; [ lia | exact Eg ].
Qed.

Lemma reset_in_pass_inv (i : Z) k cam dbg c :
  In (ResetOpacity i) (pass i k cam dbg c) ->
  (i mod opacity_reset_interval opt =? 0)
  || white_background dataset && (i =? densify_from_iter opt) = true.
Proof.
  intros H. unfold_pass_in H. in_pieces; reflexivity.
Qed.

(** X20.  In an iteration of a well configured run that calls both
    [densify_and_prune] and [reset_opacity], the three calls
    [densify_and_prune], [findKNN], [reset_opacity] are made in this order
    with nothing in between: the reset lowers the opacities of the
    population that densification left, and the iteration changes the
    population nowhere else. *)
Theorem reset_follows_densify (i : Z) (st nm : option Z) :
  well_configured w opt ->
  In i (loop_iterations w opt checkpoint) ->
  In (DensifyAndPrune i st nm)
    (trace w dataset opt pipe testing_iterations saving_iterations
       checkpoint_iterations checkpoint debug_from sparse_num num_max) ->
  In (ResetOpacity i)
    (trace w dataset opt pipe testing_iterations saving_iterations
       checkpoint_iterations checkpoint debug_from sparse_num num_max) ->
  exists l1 l2,
    events_at i
      (trace w dataset opt pipe testing_iterations saving_iterations
         checkpoint_iterations checkpoint debug_from sparse_num num_max)
    = l1 ++ DensifyAndPrune i st nm :: FindKNN i :: ResetOpacity i :: l2
    /\ Forall (fun e => is_mutation e = false) (l1 ++ l2).
Proof.
  intros Hw Hi Hd Hr.
  destruct (events_at_run w dataset opt pipe testing_iterations
              saving_iterations checkpoint_iterations checkpoint debug_from
              sparse_num num_max i Hw Hi) as (k & cam & dbg & c & E).
  apply (events_at_In i) in Hd; [ | reflexivity ].
  apply (events_at_In i) in Hr; [ | reflexivity ].
  rewrite E in Hd, Hr.
  apply densify_in_pass_inv in Hd. destruct Hd as (Hu & Hc & -> & ->).
  apply reset_in_pass_inv in Hr.
  exists (schedule_events i
            ++ Render i cam dbg
                 (if random_background opt then RandomColor
                  else bg_color dataset)
            :: geo_events w i k
            ++ Backward i
            :: log_events w dataset opt testing_iterations saving_iterations i
            ++ [MaxRadiiUpdate i; AddDensificationStats i]),
    (cum_events w i c ++ optimizer_events opt i
       ++ checkpoint_events w dataset checkpoint_iterations i).
  split.
  - rewrite E.
    unfold pass_events, tail_events, densification_events, densify_events,
      reset_events.
    rewrite Hu, Hc, Hr.
    repeat (rewrite <- app_assoc || cbn [app]). reflexivity.
  - unfold schedule_events, geo_events, log_events, cum_events,
      optimizer_events, checkpoint_events.
    forall_pieces; reflexivity.
Qed.

(** X21.  A run started from a checkpoint taken at or after the configured
    total runs no iteration: it sets the model up, restores it, and
    returns, whatever the rest of the configuration. *)
Theorem resume_past_total :
  iterations opt <= first_iter w checkpoint ->
  training w dataset opt pipe testing_iterations saving_iterations
    checkpoint_iterations checkpoint debug_from sparse_num num_max
  = (setup_events w dataset checkpoint sparse_num, Returned tt).
Proof.
  intros H. unfold training, loop_iterations, py_range.
  replace (Z.to_nat (iterations opt + 1 - (first_iter w checkpoint + 1)))
    with 0%nat by lia.
  simpl. now rewrite app_nil_r.
Qed.

End GraphAge.

(** X19 on [demo_opt]: the term of iteration 5 reads the graph of
    iteration 4. *)
Lemma graph_built_earlier_witness :
  well_configured demo_world demo_opt
  /\ In (SurfaceAlign 5 4) (demo_run demo_opt None)
  /\ exists j, first_iter demo_world None < j < 5 /\ 4 = findKNN demo_world j.
Proof.
  assert (Hw : well_configured demo_world demo_opt)
    by (apply demo_well_configured; discriminate).
  assert (Hin : In (SurfaceAlign 5 4) (demo_run demo_opt None)).
  { apply (nth_error_In _ 54). vm_compute. reflexivity. }
  split; [ exact Hw | split; [ exact Hin | ] ].
  exact (graph_built_earlier demo_world demo_dataset demo_opt demo_pipe
           [] [] [4] None (-1) 1 None 5 4 Hw Hin).
Defined.

(** X21 on [demo_opt]: the file of [demo_world] was saved at iteration
    2998, the total is 8. *)
Lemma resume_past_total_witness :
  iterations demo_opt <= first_iter demo_world demo_checkpoint
  /\ demo_run demo_opt demo_checkpoint
     = [PrepareOutputAndLogger
          [Print (py "Output folder: out"); MakeDirs (py "out");
           WriteCfgArgs (py "out/cfg_args");
           Print (py "Tensorboard not available: not logging progress")];
        NewGaussianModel 3; NewScene 1; TrainingSetup;
        TorchLoad (py "out/chkpnt2998.pth"); Restore 2998].
Proof.
  assert (H : iterations demo_opt <= first_iter demo_world demo_checkpoint)
    by (cbn; lia).
  split; [ exact H | ].
  exact (f_equal fst
           (resume_past_total demo_world demo_dataset demo_opt demo_pipe
              [] [] [4] demo_checkpoint (-1) 1 None H)).
Defined.

(** X20 on [coinciding_opt], at iteration 2. *)
Lemma reset_follows_densify_witness :
  well_configured demo_world coinciding_opt
  /\ In 2 (loop_iterations demo_world coinciding_opt None)
  /\ In (DensifyAndPrune 2 None None) (demo_run coinciding_opt None)
  /\ In (ResetOpacity 2) (demo_run coinciding_opt None)
  /\ exists l1 l2,
      events_at 2 (demo_run coinciding_opt None)
      = l1 ++ DensifyAndPrune 2 None None :: FindKNN 2 :: ResetOpacity 2 :: l2
      /\ Forall (fun e => is_mutation e = false) (l1 ++ l2).
Proof.
  assert (Hw : well_configured demo_world coinciding_opt)
    by (apply demo_well_configured; discriminate).
  assert (Hi : In 2 (loop_iterations demo_world coinciding_opt None))
    by (apply py_range_In; cbn; lia).
  assert (Hd : In (DensifyAndPrune 2 None None) (demo_run coinciding_opt None))
    by (vm_compute; repeat (first [ left; reflexivity | right ])).
  assert (Hr : In (ResetOpacity 2) (demo_run coinciding_opt None))
    by (vm_compute; repeat (first [ left; reflexivity | right ])).
  split; [ exact Hw | split; [ exact Hi | split; [ exact Hd | split; [ exact Hr | ] ] ] ].
  exact (reset_follows_densify demo_world demo_dataset coinciding_opt demo_pipe
           [] [] [4] None (-1) 1 None 2 None None Hw Hi Hd Hr).
Defined.
